(** * Deribit snapshot normalisation: a shallow embedding

    The two sample scripts [samples/deribit_iron_condor_study.py] (the
    "study" variant) and [samples/deribit_ironcondor_monolith.py] (the
    "monolith" variant) turn a raw Deribit snapshot table into the quote
    table handed to the back-testing engine.  This file embeds both
    normalisers and states the properties of the specification on them.

    Conventions of the embedding:
    - Python text is an ASCII [string]; non-ASCII code points are outside
      the model.
    - A Python [float] is modelled by [float] below: NaN, the two
      infinities, or the exact rational a decimal text denotes.  Binary
      rounding, overflow of a decimal text and the sign of zero are not
      modelled.
      An integer too large for a float raises in [float()], as in Python.
    - A pandas [Timestamp] is an exact number of milliseconds since the
      epoch, within the bounds of [datetime64[ns]].
    - A pandas column is modelled elementwise, as an object column; the
      [.str] accessor is refused on a column that pandas types as numeric,
      boolean or datetime.
    - The wall clock is not modelled: [pd.to_datetime] reads the date
      words [now] and [today] as the current time, and properties that
      depend on a date field exclude these two words.
    - A table that already has a column named like a group of the
      instrument pattern is outside the model of the study. *)

From Stdlib Require Import ZArith QArith Qround Lia List Ascii String Bool.
From stdpp Require Import base option list gmap strings pretty sorting.

Set Warnings "-register-all".

Open Scope string_scope.
Open Scope Z_scope.

(** ** Python values *)

Inductive float :=
| NaN
| PInf
| NInf
| Fin (q : Q).

Inductive obj :=
| VNone
| VBool (b : bool)
| VInt (z : Z)
| VFloat (f : float)
| VStr (s : string)
| VList (l : list obj)
| VTuple (l : list obj)
| VDict (kv : list (obj * obj))
| VTimestamp (ms : Q)
| VNaT.

Inductive exn :=
| KeyError (key : string)
| ValueError (msg : string)
| TypeError (msg : string)
| SyntaxError
| IndexError
| AttributeError (msg : string)
| OverflowError (msg : string)
| OtherError (msg : string).

(** ** The error monad: a Python call returns or raises *)

Inductive result (A : Type) :=
| Ok (a : A)
| Raise (e : exn).
Arguments Ok {A} a.
Arguments Raise {A} e.

Global Instance result_ret : MRet result := fun A a => Ok a.

Global Instance result_bind : MBind result := fun A B k m =>
  match m with
  | Ok a => k a
  | Raise e => Raise e
  end.

(** [f] applied to each element in turn; the first exception ends the loop. *)
Fixpoint mapR {A B} (f : A -> result B) (l : list A) : result (list B) :=
  match l with
  | [] => Ok []
  | a :: l' => b ← f a; bs ← mapR f l'; Ok (b :: bs)
  end.

(** [try: ... except Exception: handler] *)
Definition try_except {A} (m : result A) (handler : A) : A :=
  match m with
  | Ok a => a
  | Raise _ => handler
  end.

(** ** Floats *)

Definition Q_of_float (f : float) : option Q :=
  match f with Fin q => Some q | _ => None end.

Definition isnan (f : float) : bool :=
  match f with NaN => true | _ => false end.

(** [f > 0] and [f <= 0] as Python evaluates them: both are false on NaN. *)
Definition float_gt0 (f : float) : bool :=
  match f with
  | NaN => false
  | PInf => true
  | NInf => false
  | Fin q => negb (Qle_bool q 0)
  end.

Definition float_le0 (f : float) : bool :=
  match f with
  | NaN => false
  | PInf => false
  | NInf => true
  | Fin q => Qle_bool q 0
  end.

(** The order of [sort_values]: ascending, NaN last. *)
Definition float_leb (a b : float) : bool :=
  match a, b with
  | _, NaN => true
  | NaN, _ => false
  | NInf, _ => true
  | _, NInf => false
  | _, PInf => true
  | PInf, _ => false
  | Fin p, Fin q => Qle_bool p q
  end.

(** ** Text *)

Definition is_space (c : ascii) : bool :=
  let n := N_of_ascii c in
  ((9 <=? n) && (n <=? 13) || (28 <=? n) && (n <=? 32))%N.

Definition is_digit (c : ascii) : bool :=
  let n := N_of_ascii c in ((48 <=? n) && (n <=? 57))%N.

Definition is_upper (c : ascii) : bool :=
  let n := N_of_ascii c in ((65 <=? n) && (n <=? 90))%N.

Definition digit_val (c : ascii) : Z := Z.of_N (N_of_ascii c) - 48.

Definition lower_char (c : ascii) : ascii :=
  if is_upper c then ascii_of_N (N_of_ascii c + 32) else c.

Definition upper_char (c : ascii) : ascii :=
  let n := N_of_ascii c in
  if ((97 <=? n) && (n <=? 122))%N then ascii_of_N (n - 32) else c.

Fixpoint str_map (f : ascii -> ascii) (s : string) : string :=
  match s with
  | EmptyString => EmptyString
  | String c s' => String (f c) (str_map f s')
  end.

(** [s.lower()] and [s.upper()] *)
Definition lower (s : string) : string := str_map lower_char s.
Definition upper (s : string) : string := str_map upper_char s.

Fixpoint lstrip (s : string) : string :=
  match s with
  | String c s' => if is_space c then lstrip s' else s
  | EmptyString => EmptyString
  end.

Fixpoint rstrip (s : string) : string :=
  match s with
  | EmptyString => EmptyString
  | String c s' =>
      match rstrip s' with
      | EmptyString => if is_space c then EmptyString else String c EmptyString
      | r => String c r
      end
  end.

(** [s.strip()] *)
Definition strip (s : string) : string := rstrip (lstrip s).

(** [s.split(sep)] for a one-character separator: never the empty list. *)
Fixpoint split_on (sep : ascii) (s : string) : list string :=
  match s with
  | EmptyString => [EmptyString]
  | String c s' =>
      if Ascii.eqb c sep then EmptyString :: split_on sep s'
      else match split_on sep s' with
           | f :: fs => String c f :: fs
           | [] => [String c EmptyString]
           end
  end.

Definition str_eqb (a b : string) : bool := String.eqb a b.

(** Lexicographic order on text, by character code. *)
Fixpoint str_leb (a b : string) : bool :=
  match a, b with
  | EmptyString, _ => true
  | String _ _, EmptyString => false
  | String x a', String y b' =>
      let m := N_of_ascii x in
      let n := N_of_ascii y in
      if (m <? n)%N then true
      else if (n <? m)%N then false
      else str_leb a' b'
  end.

(** ** Reading numbers from text *)

(** A run of decimal digits, read into [acc]; [n] counts the digits read.
    With [us] set, a single underscore may separate two digits, as in
    Python source and in [float()]. *)
Fixpoint take_digits (us : bool) (s : string) (acc : Z) (n : nat)
  : Z * nat * string :=
  match s with
  | String c s' =>
      if is_digit c then take_digits us s' (acc * 10 + digit_val c) (S n)
      else if us && Ascii.eqb c "_" && negb (Nat.eqb n 0) then
        match s' with
        | String d _ => if is_digit d then take_digits us s' acc n
                        else (acc, n, s)
        | EmptyString => (acc, n, s)
        end
      else (acc, n, s)
  | EmptyString => (acc, n, s)
  end.

(** [m * 10^e] as an exact rational. *)
Definition decimal (m e : Z) : Q :=
  if 0 <=? e then inject_Z (m * 10 ^ e)
  else Qmake m (Z.to_pos (10 ^ (- e))).

Definition take_sign (s : string) : bool * string :=
  match s with
  | String "-" r => (true, r)
  | String "+" r => (false, r)
  | _ => (false, s)
  end.

(** An unsigned number token: [digits], [digits.], [.digits],
    [digits.digits], each with an optional exponent.  Returns mantissa,
    decimal exponent, whether the token is an integer literal, the number
    of integer digits, and the rest of the text. *)
Definition take_number (us : bool) (s : string)
  : option (Z * Z * bool * nat * string) :=
  let '(ip, n1, r1) := take_digits us s 0 0%nat in
  let '(m, n2, dot, r2) :=
    match r1 with
    | String "." r =>
        let '(m, n2, r2) := take_digits us r ip 0%nat in (m, n2, true, r2)
    | _ => (ip, 0%nat, false, r1)
    end in
  if Nat.eqb (n1 + n2) 0 then None
  else
    match r2 with
    | String c r =>
        if Ascii.eqb c "e" || Ascii.eqb c "E" then
          let '(neg, r3) := take_sign r in
          let '(ex, n3, r4) := take_digits us r3 0 0%nat in
          if Nat.eqb n3 0 then None
          else Some (m, (if neg then - ex else ex) - Z.of_nat n2, false, n1, r4)
        else Some (m, - Z.of_nat n2, negb dot, n1, r2)
    | EmptyString => Some (m, - Z.of_nat n2, negb dot, n1, r2)
    end.

(** The white space [float()] and the parser of pandas skip around a
    number: the six characters of C's [isspace], fewer than [str.strip]
    removes. *)
Definition is_c_space (c : ascii) : bool :=
  let n := N_of_ascii c in ((9 <=? n) && (n <=? 13) || (n =? 32))%N.

Fixpoint lstrip_c (s : string) : string :=
  match s with
  | String c s' => if is_c_space c then lstrip_c s' else s
  | EmptyString => EmptyString
  end.

Fixpoint rstrip_c (s : string) : string :=
  match s with
  | EmptyString => EmptyString
  | String c s' =>
      match rstrip_c s' with
      | EmptyString => if is_c_space c then EmptyString else String c EmptyString
      | r => String c r
      end
  end.

Definition strip_c (s : string) : string := rstrip_c (lstrip_c s).

(** The text of a float, after stripping: optional sign, then [inf],
    [infinity] or [nan] in any letter case, or a decimal number. *)
Definition float_of_text (us : bool) (s : string) : option float :=
  let '(neg, r) := take_sign (strip_c s) in
  let w := lower r in
  if str_eqb w "inf" || str_eqb w "infinity" then
    Some (if neg then NInf else PInf)
  else if str_eqb w "nan" then Some NaN
  else
    match take_number us r with
    | Some (m, e, _, _, EmptyString) =>
        Some (Fin (decimal (if neg then - m else m) e))
    | _ => None
    end.

(** Python's [float(text)] accepts digit-separating underscores; the
    parser behind [pd.to_numeric] does not. *)
Definition py_float_text : string -> option float := float_of_text true.
Definition pd_float_text : string -> option float := float_of_text false.

(** The integers [float()] converts: those that round to a float below
    [2^1024]. *)
Definition float_int_bound : Z := 2 ^ 1024 - 2 ^ 970.

(** [float(v)] *)
Definition py_float (v : obj) : result float :=
  match v with
  | VBool b => Ok (Fin (if b then 1 else 0))
  | VInt z =>
      if Z.abs z <? float_int_bound then Ok (Fin (inject_Z z))
      else Raise (OverflowError "int too large to convert to float")
  | VFloat f => Ok f
  | VStr s =>
      match py_float_text s with
      | Some f => Ok f
      | None => Raise (ValueError "could not convert string to float")
      end
  | _ => Raise (TypeError "float() argument must be a string or a real number")
  end.

(** One element of [pd.to_numeric(column, errors="coerce")]. *)
Definition to_numeric (v : obj) : float :=
  match v with
  | VBool b => Fin (if b then 1 else 0)
  | VInt z => Fin (inject_Z z)
  | VFloat f => f
  | VStr s => match pd_float_text s with Some f => f | None => NaN end
  | _ => NaN
  end.

(** ** [ast.literal_eval]

    A recursive-descent reader for the literal syntax the ladders use:
    [None], [True], [False], decimal integers and floats with an optional
    sign, quoted text without escapes, and lists, tuples and dicts of
    these, with optional trailing commas.  It builds values only; nothing
    is evaluated.  Text outside this subset (escapes, bytes, sets, complex
    and non-decimal numbers) is reported as [SyntaxError].  A name other
    than the three constants is a [ValueError], an unhashable dict key a
    [TypeError], as in Python. *)

Definition is_py_ws (c : ascii) : bool :=
  let n := N_of_ascii c in
  ((n =? 32) || (n =? 9) || (n =? 10) || (n =? 13) || (n =? 12))%N.

Fixpoint skip_ws (s : string) : string :=
  match s with
  | String c s' => if is_py_ws c then skip_ws s' else s
  | EmptyString => EmptyString
  end.

Definition is_ident_char (c : ascii) : bool :=
  let n := N_of_ascii c in
  is_digit c || is_upper c || ((97 <=? n) && (n <=? 122))%N || (n =? 95)%N.

Fixpoint take_ident (s : string) : string * string :=
  match s with
  | String c s' =>
      if is_ident_char c then
        let '(w, r) := take_ident s' in (String c w, r)
      else (EmptyString, s)
  | EmptyString => (EmptyString, EmptyString)
  end.

(** The body of a quoted text up to the closing quote [q]. *)
Fixpoint take_quoted (q : ascii) (s : string) : option (string * string) :=
  match s with
  | String c s' =>
      if Ascii.eqb c q then Some (EmptyString, s')
      else if Ascii.eqb c "\" || (N_of_ascii c =? 10)%N then None
      else match take_quoted q s' with
           | Some (w, r) => Some (String c w, r)
           | None => None
           end
  | EmptyString => None
  end.

(** A number literal of Python source, with its sign already read. *)
Definition number_literal (neg : bool) (s : string) : result (obj * string) :=
  match take_number true s with
  | Some (m, e, is_int, n1, r) =>
      let m' := if neg then - m else m in
      if is_int then
        match s with
        | String "0" _ =>
            if (1 <? n1)%nat && negb (m =? 0) then Raise SyntaxError
            else Ok (VInt m', r)
        | _ => Ok (VInt m', r)
        end
      else Ok (VFloat (Fin (decimal m' e)), r)
  | None => Raise SyntaxError
  end.

Definition hashable (v : obj) : bool :=
  match v with
  | VList _ | VDict _ => false
  | _ => true
  end.

Inductive parse_mode :=
| PValue
| PItems (close : option ascii)
| PPairs.

Definition at_close (close : option ascii) (s : string) : option string :=
  match close, s with
  | Some c, String d r => if Ascii.eqb c d then Some r else None
  | None, EmptyString => Some EmptyString
  | _, _ => None
  end.

Fixpoint pair_up (l : list obj) (acc : list (obj * obj))
  : result (list (obj * obj)) :=
  match l with
  | k :: v :: l' =>
      if hashable k then pair_up l' (app acc [(k, v)])
      else Raise (TypeError "unhashable type")
  | _ => Ok acc
  end.

(** What a parse returns: the values read, whether a comma was seen (a
    parenthesised single value without one is not a tuple), and the rest
    of the text. *)
Fixpoint parse (fuel : nat) (mode : parse_mode) (s : string)
  : result (list obj * bool * string) :=
  match fuel with
  | O => Raise (OtherError "RecursionError")
  | S n =>
      let s := skip_ws s in
      match mode with
      | PValue =>
          match s with
          | String "[" r =>
              '(vs, _, r') ← parse n (PItems (Some "]"%char)) r;
              Ok ([VList vs], false, r')
          | String "(" r =>
              '(vs, comma, r') ← parse n (PItems (Some ")"%char)) r;
              match vs, comma with
              | [v], false => Ok ([v], false, r')
              | _, _ => Ok ([VTuple vs], false, r')
              end
          | String "{" r =>
              '(vs, _, r') ← parse n PPairs r;
              kv ← pair_up vs [];
              Ok ([VDict kv], false, r')
          | String "'" r =>
              match take_quoted "'" r with
              | Some (w, r') => Ok ([VStr w], false, r')
              | None => Raise SyntaxError
              end
          | String "034" r =>
              match take_quoted "034" r with
              | Some (w, r') => Ok ([VStr w], false, r')
              | None => Raise SyntaxError
              end
          | String "-" r =>
              '(v, r') ← number_literal true (skip_ws r); Ok ([v], false, r')
          | String "+" r =>
              '(v, r') ← number_literal false (skip_ws r); Ok ([v], false, r')
          | String c _ =>
              if is_digit c || Ascii.eqb c "." then
                '(v, r') ← number_literal false s; Ok ([v], false, r')
              else
                let '(w, r') := take_ident s in
                if str_eqb w "None" then Ok ([VNone], false, r')
                else if str_eqb w "True" then Ok ([VBool true], false, r')
                else if str_eqb w "False" then Ok ([VBool false], false, r')
                else if str_eqb w "" then Raise SyntaxError
                else Raise (ValueError "malformed node or string")
          | EmptyString => Raise SyntaxError
          end
      | PItems close =>
          match at_close close s with
          | Some r => Ok ([], false, r)
          | None =>
              '(v, _, r1) ← parse n PValue s;
              let r1 := skip_ws r1 in
              match at_close close r1 with
              | Some r2 => Ok (v, false, r2)
              | None =>
                  match r1 with
                  | String "," r2 =>
                      '(vs, _, r3) ← parse n (PItems close) r2;
                      Ok (app v vs, true, r3)
                  | _ => Raise SyntaxError
                  end
              end
          end
      | PPairs =>
          match s with
          | String "}" r => Ok ([], false, r)
          | String _ _ =>
              '(k, _, r1) ← parse n PValue s;
              match skip_ws r1 with
              | String ":" r2 =>
                  '(v, _, r3) ← parse n PValue r2;
                  match skip_ws r3 with
                  | String "," r4 =>
                      '(kvs, _, r5) ← parse n PPairs r4;
                      Ok (app k (app v kvs), true, r5)
                  | String "}" r4 => Ok (app k v, false, r4)
                  | _ => Raise SyntaxError
                  end
              | _ => Raise SyntaxError
              end
          | EmptyString => Raise SyntaxError
          end
      end
  end.

(** [ast.literal_eval(text)]: one expression, or a bare comma-separated
    tuple, up to the end of the text. *)
Definition literal_eval (text : string) : result obj :=
  let fuel := (2 * String.length text + 4)%nat in
  '(vs, comma, _) ← parse fuel (PItems None) text;
  match vs, comma with
  | [], _ => Raise SyntaxError
  | [v], false => Ok v
  | _, _ => Ok (VTuple vs)
  end.

(** ** Dates and timestamps *)

(** Days from 1970-01-01 to the civil date [y-m-d] (proleptic Gregorian). *)
Definition days_from_civil (y m d : Z) : Z :=
  let y' := if m <=? 2 then y - 1 else y in
  let era := y' / 400 in
  let yoe := y' - era * 400 in
  let doy := (153 * (m + (if 2 <? m then -3 else 9)) + 2) / 5 + d - 1 in
  let doe := yoe * 365 + yoe / 4 - yoe / 100 + doy in
  era * 146097 + doe - 719468.

Definition date_ms (y m d : Z) : Q := inject_Z (days_from_civil y m d * 86400000).

Definition is_leap (y : Z) : bool :=
  ((y mod 4 =? 0) && negb (y mod 100 =? 0)) || (y mod 400 =? 0).

Definition days_in_month (y m : Z) : Z :=
  if m =? 2 then (if is_leap y then 29 else 28)
  else if (m =? 4) || (m =? 6) || (m =? 9) || (m =? 11) then 30
  else 31.

Definition month_names : list string :=
  ["jan"; "feb"; "mar"; "apr"; "may"; "jun";
   "jul"; "aug"; "sep"; "oct"; "nov"; "dec"].

Fixpoint index_of (w : string) (l : list string) (i : Z) : option Z :=
  match l with
  | [] => None
  | x :: l' => if str_eqb w x then Some i else index_of w l' (i + 1)
  end.

(** The day field of [%d]: two digits 01..31, one digit 1..9, or a
    blank and one digit. *)
Definition take_day (s : string) : option (Z * string) :=
  match s with
  | String a (String b r) =>
      if is_digit a && is_digit b then Some (digit_val a * 10 + digit_val b, r)
      else if is_digit a then Some (digit_val a, String b r)
      else if Ascii.eqb a " " && is_digit b then Some (digit_val b, r)
      else None
  | String a r => if is_digit a then Some (digit_val a, r) else None
  | EmptyString => None
  end.

(** Text read with the format [%d%b%y]: day, month abbreviation in any
    letter case, two-digit year with the pivot 69.  The date words [now]
    and [today], which [pd.to_datetime] reads as the current time whatever
    the format, are not read here: see [clock_date]. *)
Definition strptime_dby (s : string) : option Q :=
  match take_day s with
  | Some (d, String a (String b (String c (String y1 (String y2 EmptyString))))) =>
      match index_of (lower (String a (String b (String c EmptyString)))) month_names 1 with
      | Some m =>
          if is_digit y1 && is_digit y2 then
            let yy := digit_val y1 * 10 + digit_val y2 in
            let y := if yy <? 69 then 2000 + yy else 1900 + yy in
            if (1 <=? d) && (d <=? days_in_month y m) then Some (date_ms y m d)
            else None
          else None
      | None => None
      end
  | _ => None
  end.

(** One element of [pd.to_datetime(column, format="%d%b%y", errors="coerce")]. *)
Definition to_datetime_dby (v : obj) : obj :=
  match v with
  | VStr s => match strptime_dby s with Some t => VTimestamp t | None => VNaT end
  | VTimestamp t => VTimestamp t
  | _ => VNaT
  end.

Definition nat_strings : list string := ["NaT"; "nat"; "NAT"; "nan"; "NaN"; "NAN"].

Definition str_in (w : string) (l : list string) : bool := existsb (str_eqb w) l.

(** The instants [datetime64[ns]] holds, in milliseconds: the
    nanoseconds fit a signed 64-bit integer, whose least value stands for
    NaT. *)
Definition in_bounds_ms (q : Q) : bool :=
  Qle_bool (inject_Z (- 9223372036854775807)) (q * inject_Z 1000000)
  && Qle_bool (q * inject_Z 1000000) (inject_Z 9223372036854775807).

Definition timestamp_ms (q : Q) : result obj :=
  if in_bounds_ms q then Ok (VTimestamp q)
  else Raise (ValueError "Out of bounds nanosecond timestamp").

(** One element of [pd.to_datetime(column, unit="ms")]: the instant, as
    milliseconds since the epoch, or NaT for a missing value; a value
    that is not a number raises, and so does an instant out of bounds
    ([OutOfBoundsDatetime], a [ValueError]). *)
Definition to_datetime_ms (v : obj) : result obj :=
  match v with
  | VNone | VNaT | VFloat NaN => Ok VNaT
  | VInt z => timestamp_ms (inject_Z z)
  | VFloat (Fin q) => timestamp_ms q
  | VFloat _ => Raise (ValueError "cannot convert input with unit 'ms'")
  | VStr s =>
      if str_eqb s "" || str_in s nat_strings then Ok VNaT
      else
        match py_float_text s with
        | Some (Fin q) => timestamp_ms q
        | Some NaN => Ok VNaT
        | Some _ => Raise (ValueError "cannot convert input with unit 'ms'")
        | None => Raise (ValueError "non convertible value with the unit 'ms'")
        end
  | VTimestamp t => Ok (VTimestamp t)
  | _ => Raise (ValueError "unit='ms' not valid with non-numerical val")
  end.

(** The same with [errors="coerce"]: what would raise is NaT. *)
Definition to_datetime_ms_coerce (v : obj) : obj :=
  match to_datetime_ms v with
  | Ok t => t
  | Raise _ => VNaT
  end.

(** ** The instrument pattern of the study script

    [INSTRUMENT_RE], read left to right:
    [^[A-Z]+-\d{1,2}[A-Z]{3}\d{2}-[0-9]+(?:\.[0-9]+)?-[CP]$].
    None of its character classes contains the dash, so the match is
    deterministic.  [$] matches at the end of the text and also before a
    final newline. *)

Fixpoint span (p : ascii -> bool) (s : string) : string * string :=
  match s with
  | String c s' =>
      if p c then let '(w, r) := span p s' in (String c w, r)
      else (EmptyString, s)
  | EmptyString => (EmptyString, EmptyString)
  end.

Definition expect (c : ascii) (s : string) : option string :=
  match s with
  | String d r => if Ascii.eqb c d then Some r else None
  | EmptyString => None
  end.

Definition at_dollar (s : string) : bool :=
  match s with
  | EmptyString => true
  | String c EmptyString => (N_of_ascii c =? 10)%N
  | _ => false
  end.

(** The four named groups of a match: underlying, expiration, strike,
    option. *)
Definition INSTRUMENT_RE (s : string) : option (string * string * string * string) :=
  let '(u, r) := span is_upper s in
  if negb (0 <? String.length u)%nat then None else
  r ← expect "-" r;
  let '(dd, r) := span is_digit r in
  let '(mon, r) := span is_upper r in
  if negb (((String.length dd =? 1) || (String.length dd =? 2))
           && (String.length mon =? 3))%nat then None else
  let '(yy, r) := span is_digit r in
  if negb (String.length yy =? 2)%nat then None else
  r ← expect "-" r;
  let '(k1, r) := span is_digit r in
  if negb (0 <? String.length k1)%nat then None else
  '(k, r) ← match r with
            | String "." r' =>
                let '(k2, r'') := span is_digit r' in
                if (0 <? String.length k2)%nat
                then Some (k1 +:+ "." +:+ k2, r'') else None
            | _ => Some (k1, r)
            end;
  r ← expect "-" r;
  match r with
  | String c r' =>
      if (Ascii.eqb c "C" || Ascii.eqb c "P") && at_dollar r'
      then Some (u, dd +:+ mon +:+ yy, k, String c EmptyString)
      else None
  | EmptyString => None
  end.

(** ** Tables

    A [DataFrame] is its ordered column labels and its rows, each a row
    label and the cells by column label.  Column expressions of pandas
    are elementwise, so a column assignment is given by the function that
    computes the new cell from the row. *)

Abbreviation row := (gmap string obj).

Record DataFrame := {
  columns : list string;
  rows : list (Z * row);
}.

(** A cell that a row does not hold reads as NaN. *)
Definition cell (r : row) (c : string) : obj := default (VFloat NaN) (r !! c).

Definition has_col (d : DataFrame) (c : string) : bool :=
  existsb (str_eqb c) (columns d).

(** [df[c]] on a missing label raises [KeyError]. *)
Definition require (d : DataFrame) (c : string) : result unit :=
  if has_col d c then Ok tt else Raise (KeyError c).

Fixpoint require_all (d : DataFrame) (cs : list string) : result unit :=
  match cs with
  | [] => Ok tt
  | c :: cs' => _ ← require d c; require_all d cs'
  end.

(** [df.get(c)]: the column, or [None] when the label is missing. *)
Definition df_get (d : DataFrame) (c : string) (r : row) : obj :=
  if has_col d c then cell r c else VNone.

(** [pd.isna] on a scalar. *)
Definition isna (v : obj) : bool :=
  match v with
  | VNone | VNaT | VFloat NaN => true
  | _ => false
  end.

Definition add_col (cs : list string) (c : string) : list string :=
  if existsb (str_eqb c) cs then cs else app cs [c].

(** [df[c] = f(row)] for an expression that cannot raise. *)
Definition assign (d : DataFrame) (c : string) (f : row -> obj) : DataFrame :=
  {| columns := add_col (columns d) c;
     rows := map (fun ir => (ir.1, <[c := f ir.2]> ir.2)) (rows d) |}.

(** The same for an expression evaluated row by row that may raise. *)
Definition assignR (d : DataFrame) (c : string) (f : row -> result obj)
  : result DataFrame :=
  rs ← mapR (fun ir => v ← f ir.2; Ok (ir.1, <[c := v]> ir.2)) (rows d);
  Ok {| columns := add_col (columns d) c; rows := rs |}.

(** Either assignment as a step from table to table; the expression may
    read the table, as [df.get] does. *)
Definition setitem (d : DataFrame) (c : string) (f : DataFrame -> row -> obj)
  : result DataFrame :=
  Ok (assign d c (f d)).

(** [df[mask]] *)
Definition select (d : DataFrame) (p : row -> bool) : DataFrame :=
  {| columns := columns d; rows := List.filter (fun ir => p ir.2) (rows d) |}.

(** [df.dropna(subset=cs)] *)
Definition dropna (d : DataFrame) (cs : list string) : result DataFrame :=
  _ ← require_all d cs;
  Ok (select d (fun r => forallb (fun c => negb (isna (cell r c))) cs)).

(** [df[[c1, ..., cn]]] *)
Definition project (d : DataFrame) (cs : list string) : result DataFrame :=
  _ ← require_all d cs;
  Ok {| columns := cs;
        rows := map (fun ir => (ir.1, list_to_map (map (fun c => (c, cell ir.2 c)) cs)))
                    (rows d) |}.

(** [df.rename(columns={old: new})] *)
Definition rename (d : DataFrame) (old new : string) : DataFrame :=
  {| columns := map (fun c => if str_eqb c old then new else c) (columns d);
     rows := map (fun ir =>
                    (ir.1,
                     match ir.2 !! old with
                     | Some v => <[new := v]> (delete old ir.2)
                     | None => ir.2
                     end)) (rows d) |}.

(** [df.reset_index(drop=True)]: the labels become 0, 1, ..., n-1. *)
Fixpoint relabel (i : Z) (l : list (Z * row)) : list (Z * row) :=
  match l with
  | [] => []
  | ir :: l' => (i, ir.2) :: relabel (i + 1) l'
  end.

Definition reset_index (d : DataFrame) : DataFrame :=
  {| columns := columns d; rows := relabel 0 (rows d) |}.

(** [df.empty] *)
Definition empty (d : DataFrame) : bool :=
  match rows d, columns d with
  | [], _ | _, [] => true
  | _, _ => false
  end.

(** *** Sorting *)

(** The kinds of value [sort_values] can order within one column. *)
Inductive kind := KNumber | KTime | KText | KOther.

Definition kind_of (v : obj) : kind :=
  match v with
  | VBool _ | VInt _ | VFloat _ => KNumber
  | VTimestamp _ => KTime
  | VStr _ => KText
  | _ => KOther
  end.

Definition kind_rank (k : kind) : nat :=
  match k with KNumber => 0 | KTime => 1 | KText => 2 | KOther => 3 end.

(** Ascending order with missing values last.  Values of one kind
    compare as in Python; across kinds, where pandas refuses to sort, the
    order is by kind. *)
Definition value_leb (a b : obj) : bool :=
  if isna b then true
  else if isna a then false
  else
    match a, b with
    | VTimestamp s, VTimestamp t => Qle_bool s t
    | VStr s, VStr t => str_leb s t
    | _, _ =>
        match kind_of a, kind_of b with
        | KNumber, KNumber => float_leb (to_numeric a) (to_numeric b)
        | ka, kb => (kind_rank ka <=? kind_rank kb)%nat
        end
    end.

(** Lexicographic order of two rows on the key columns [keys]. *)
Fixpoint key_leb (keys : list string) (a b : row) : bool :=
  match keys with
  | [] => true
  | c :: keys' =>
      if value_leb (cell a c) (cell b c) then
        if value_leb (cell b c) (cell a c) then key_leb keys' a b else true
      else false
  end.

Fixpoint insert_sorted (keys : list string) (x : Z * row) (l : list (Z * row))
  : list (Z * row) :=
  match l with
  | [] => [x]
  | y :: l' =>
      if key_leb keys y.2 x.2 then y :: insert_sorted keys x l'
      else x :: y :: l'
  end.

(** A stable sort: rows with equal keys keep their order. *)
Definition sort_rows (keys : list string) (l : list (Z * row)) : list (Z * row) :=
  fold_left (fun acc x => insert_sorted keys x acc) l [].

Definition one_kind (vs : list obj) : bool :=
  match List.filter (fun v => negb (isna v)) vs with
  | [] => true
  | v :: vs' =>
      match kind_of v with
      | KOther => false
      | k => forallb (fun w => (kind_rank (kind_of w) =? kind_rank k)%nat) vs'
      end
  end.

(** [df.sort_values(keys)]: [KeyError] on a missing label, [TypeError]
    on a key column whose values do not compare. *)
Definition sort_values (d : DataFrame) (keys : list string) : result DataFrame :=
  _ ← require_all d keys;
  if forallb (fun c => one_kind (map (fun ir => cell ir.2 c) (rows d))) keys
  then Ok {| columns := columns d; rows := sort_rows keys (rows d) |}
  else Raise (TypeError "'<' not supported between instances").

(** ** The store of table objects

    Tables are mutable objects.  The store holds them in allocation
    order; a reference is the position of the object.  A computation
    takes the store and returns a value or an exception, together with the
    store it leaves behind. *)

Definition ref := nat.
Definition heap := list DataFrame.

Definition M (A : Type) : Type := heap -> result A * heap.

Global Instance M_ret : MRet M := fun A a h => (Ok a, h).

Global Instance M_bind : MBind M := fun A B k m h =>
  match m h with
  | (Ok a, h') => k a h'
  | (Raise e, h') => (Raise e, h')
  end.

Definition lift {A} (r : result A) : M A := fun h => (r, h).

Definition alloc (d : DataFrame) : M ref :=
  fun h => (Ok (length h), app h [d]).

Definition load (l : ref) : M DataFrame :=
  fun h => match h !! l with
           | Some d => (Ok d, h)
           | None => (Raise (OtherError "dangling reference"), h)
           end.

Definition store (l : ref) (d : DataFrame) : M unit :=
  fun h => (Ok tt, <[l := d]> h).

(** [df.copy()] and the other methods that return a new table *)
Definition df_copy (l : ref) : M ref := d ← load l; alloc d.

Definition df_new (l : ref) (f : DataFrame -> result DataFrame) : M ref :=
  d ← load l; d' ← lift (f d); alloc d'.

(** [df[c]], read for its [KeyError] only *)
Definition df_require (l : ref) (c : string) : M unit :=
  d ← load l; lift (require d c).

(** [df[c] = ...]: the table [l] itself changes *)
Definition df_setitem (l : ref) (c : string) (f : DataFrame -> row -> obj) : M unit :=
  d ← load l; store l (assign d c (f d)).

Definition df_setitemR (l : ref) (c : string) (f : row -> result obj) : M unit :=
  d ← load l; d' ← lift (assignR d c f); store l d'.

(** ** Python built-ins on values *)

(** [not v] *)
Definition falsy (v : obj) : bool :=
  match v with
  | VNone | VBool false | VStr EmptyString
  | VList [] | VTuple [] | VDict [] => true
  | VInt z => z =? 0
  | VFloat (Fin q) => Qeq_bool q 0
  | _ => false
  end.

(** Python's [==] between a dict key and the integer [i]. *)
Definition eq_int (k : obj) (i : nat) : bool :=
  match k with
  | VInt z => z =? Z.of_nat i
  | VBool b => (if b then 1 else 0) =? Z.of_nat i
  | VFloat (Fin q) => Qeq_bool q (inject_Z (Z.of_nat i))
  | _ => false
  end.

Definition dict_get (kv : list (obj * obj)) (i : nat) : option obj :=
  match List.filter (fun p => eq_int p.1 i) (rev kv) with
  | p :: _ => Some p.2
  | [] => None
  end.

(** [v[i]] for an index [i >= 0] *)
Definition getitem (v : obj) (i : nat) : result obj :=
  match v with
  | VList l | VTuple l =>
      match l !! i with
      | Some x => Ok x
      | None => Raise IndexError
      end
  | VStr s =>
      match String.get i s with
      | Some c => Ok (VStr (String c EmptyString))
      | None => Raise IndexError
      end
  | VDict kv =>
      match dict_get kv i with
      | Some x => Ok x
      | None => Raise (KeyError (pretty i))
      end
  | _ => Raise (TypeError "object is not subscriptable")
  end.

(** What [run_study] and [main] do with the table they read: they stop
    with an exception, or they reach the first call of [op.iron_condor]
    with the normalised table. *)
Inductive outcome :=
| Raised (e : exn)
| Backtest (data : DataFrame).

(** ** The study script *)

Module Study.

(** Whether [str(v)] is a literal that [ast.literal_eval] reads back as
    [v]: so it is for the values a literal denotes, but infinities and
    NaN print as names and timestamps as dates. *)
Fixpoint prints_as_literal (v : obj) : bool :=
  match v with
  | VNone | VBool _ | VInt _ | VStr _ | VFloat (Fin _) => true
  | VFloat _ | VTimestamp _ | VNaT => false
  | VList l | VTuple l => forallb prints_as_literal l
  | VDict kv =>
      forallb (fun p => match p with
                        | (k, x) => prints_as_literal k && prints_as_literal x
                        end) kv
  end.

(** [ast.literal_eval(str(value).strip())] with the two early returns
    on the text; [None] stands for the early [return None]. *)
Definition book_of_text (value : obj) : result (option obj) :=
  match value with
  | VStr s =>
      let raw := strip s in
      if str_eqb raw "" || str_eqb raw "[]" || str_eqb (lower raw) "nan"
      then Ok None
      else
        match literal_eval raw with
        | Ok book => Ok (Some book)
        | Raise (ValueError _) | Raise SyntaxError => Ok None
        | Raise e => Raise e
        end
  | v => if prints_as_literal v then Ok (Some v) else Ok None
  end.

(** [_parse_l1_from_book]: first-level price of a bids/asks value. *)
Definition _parse_l1_from_book (value : obj) : result (option float) :=
  match value with
  | VNone | VFloat NaN => Ok None
  | _ =>
      book ← match value with
             | VList _ => Ok (Some value)
             | _ => book_of_text value
             end;
      match book with
      | None => Ok None
      | Some book =>
          if falsy book then Ok None
          else
            first ← getitem book 0;
            match first with
            | VList (x :: _) | VTuple (x :: _) => f ← py_float x; Ok (Some f)
            | _ => Ok None
            end
      end
  end.

(** One row of [df["instrument_name"].str.extract(INSTRUMENT_RE)]: the
    four groups, or four NaN when the cell is not text or does not match. *)
Definition str_extract (v : obj) : obj * obj * obj * obj :=
  match v with
  | VStr s =>
      match INSTRUMENT_RE s with
      | Some (u, e, k, o) => (VStr u, VStr e, VStr k, VStr o)
      | None => (VFloat NaN, VFloat NaN, VFloat NaN, VFloat NaN)
      end
  | _ => (VFloat NaN, VFloat NaN, VFloat NaN, VFloat NaN)
  end.

Definition group_names : list string :=
  ["underlying"; "expiration"; "strike"; "option"].

(** Whether pandas gives the column of these cells the [.str] accessor:
    it does for a column without cells and for one of [None] only, and
    for a column that holds a text, list, tuple or dict; a column of
    numbers, booleans or dates, with or without missing cells, is typed as
    such and has no [.str]. *)
Definition str_accessor (vs : list obj) : bool :=
  forallb (fun v => match v with VNone => true | _ => false end) vs
  || existsb (fun v => match v with
                       | VStr _ | VList _ | VTuple _ | VDict _ => true
                       | _ => false
                       end) vs.

(** [pd.concat([df, df["instrument_name"].str.extract(INSTRUMENT_RE)], axis=1)].
    A table that already holds a column named like one of the groups
    would get two columns of one label; such tables are outside the
    model, which stops there with [OtherError]. *)
Definition concat_extract (d : DataFrame) : result DataFrame :=
  _ ← require d "instrument_name";
  if negb (str_accessor (map (fun ir => cell ir.2 "instrument_name") (rows d)))
  then Raise (AttributeError "Can only use .str accessor with string values!")
  else
  if existsb (has_col d) group_names
  then Raise (OtherError "duplicate column labels")
  else
    Ok {| columns := app (columns d) group_names;
          rows := map (fun ir =>
                         let '(u, e, k, o) := str_extract (cell ir.2 "instrument_name") in
                         (ir.1,
                          <["option" := o]> (<["strike" := k]>
                            (<["expiration" := e]> (<["underlying" := u]> ir.2)))))
                      (rows d) |}.

(** [.map({"C": "call", "P": "put"})] *)
Definition map_option (v : obj) : obj :=
  match v with
  | VStr "C" => VStr "call"
  | VStr "P" => VStr "put"
  | _ => VFloat NaN
  end.

(** [column.isna() | (column <= 0)] *)
Definition missing_or_le0 (v : obj) : bool :=
  isna v || match v with VFloat f => float_le0 f | _ => false end.

(** [column > 0] *)
Definition gt0 (v : obj) : bool :=
  match v with VFloat f => float_gt0 f | _ => false end.

(** What the column receives from [_parse_l1_from_book]: [None] is
    stored as NaN. *)
Definition price_cell (p : option float) : obj :=
  match p with Some f => VFloat f | None => VFloat NaN end.

Definition numeric (d : DataFrame) (c : string) (r : row) : obj :=
  VFloat (to_numeric (df_get d c r)).

Definition output_columns : list string :=
  ["underlying"; "underlying_price"; "option_type"; "expiration";
   "quote_date"; "strike"; "bid"; "ask"; "delta"; "volume"; "open_interest"].

Definition sort_key : list string :=
  ["quote_date"; "expiration"; "strike"; "option_type"].

(** The cell expressions of [_to_optopsy_frame], by the column they fill. *)
Definition quote_date_of (r : row) : result obj :=
  to_datetime_ms (cell r "timestamp").

(** [df.loc[m, c] = df.loc[m, ladder].apply(_parse_l1_from_book)] with
    [m = df[c].isna() | (df[c] <= 0)] *)
Definition fallback_value (top ladder : obj) : result obj :=
  if missing_or_le0 top
  then p ← _parse_l1_from_book ladder; Ok (price_cell p)
  else Ok top.

Definition ladder_fallback (c ladder : string) (r : row) : result obj :=
  fallback_value (cell r c) (cell r ladder).

(** The two statements on [bid] (or [ask]), on one row: the coerced
    top-of-book cell, then the fallback to the ladder. *)
Definition resolve (top ladder : obj) : result obj :=
  fallback_value (VFloat (to_numeric top)) ladder.

(** [df["underlying_price"].fillna(pd.to_numeric(df.get("index_price"), ...))] *)
Definition fill_underlying (d : DataFrame) (r : row) : obj :=
  if isna (cell r "underlying_price") then numeric d "index_price" r
  else cell r "underlying_price".

(** The two statements on [underlying_price], on one row of the table. *)
Definition underlying_of (d : DataFrame) (r : row) : obj :=
  if isna (numeric d "underlying_price" r) then numeric d "index_price" r
  else numeric d "underlying_price" r.

Definition required_columns : list string :=
  ["underlying_symbol"; "underlying_price"; "strike"; "bid"; "ask"].

Definition positive_quotes (r : row) : bool :=
  gt0 (cell r "bid") && gt0 (cell r "ask").

(** [_to_optopsy_frame(raw)]; the result is a reference to a new table. *)
Definition _to_optopsy_frame (raw : ref) : M ref :=
  df ← df_copy raw;
  df ← df_new df concat_extract;
  df ← df_new df (fun d => dropna d group_names);
  _ ← df_require df "timestamp";
  _ ← df_setitemR df "quote_date" quote_date_of;
  _ ← df_setitem df "expiration" (fun _ r => to_datetime_dby (cell r "expiration"));
  df ← df_new df (fun d => dropna d ["expiration"]);
  _ ← df_setitem df "option_type" (fun _ r => map_option (cell r "option"));
  _ ← df_setitem df "strike" (fun _ r => VFloat (to_numeric (cell r "strike")));
  _ ← df_setitem df "bid" (fun d => numeric d "best_bid_price");
  _ ← df_setitem df "ask" (fun d => numeric d "best_ask_price");
  _ ← df_require df "bids";
  _ ← df_setitemR df "bid" (ladder_fallback "bid" "bids");
  _ ← df_require df "asks";
  _ ← df_setitemR df "ask" (ladder_fallback "ask" "asks");
  _ ← df_setitem df "underlying_price" (fun d => numeric d "underlying_price");
  _ ← df_setitem df "underlying_price" fill_underlying;
  _ ← df_setitem df "delta" (fun d => numeric d "greeks.delta");
  _ ← df_setitem df "volume" (fun d => numeric d "stats.volume");
  _ ← df_setitem df "open_interest" (fun d => numeric d "open_interest");
  df ← df_new df (fun d =>
         d' ← project d output_columns;
         Ok (rename d' "underlying" "underlying_symbol"));
  df ← df_new df (fun d => dropna d required_columns);
  df ← df_new df (fun d => Ok (select d positive_quotes));
  df ← df_new df (fun d => sort_values d sort_key);
  df_new df (fun d => Ok (reset_index d)).

(** The tables [_to_optopsy_frame] computes from the table [d] its
    argument refers to, read off the statements above: the sorted table
    and, from it, the returned one ([run_to_optopsy_frame] below). *)
Definition sorted_frame (d : DataFrame) : result DataFrame :=
  d ← concat_extract d;
  d ← dropna d group_names;
  _ ← require d "timestamp";
  d ← assignR d "quote_date" quote_date_of;
  d ← setitem d "expiration" (fun _ r => to_datetime_dby (cell r "expiration"));
  d ← dropna d ["expiration"];
  d ← setitem d "option_type" (fun _ r => map_option (cell r "option"));
  d ← setitem d "strike" (fun _ r => VFloat (to_numeric (cell r "strike")));
  d ← setitem d "bid" (fun d => numeric d "best_bid_price");
  d ← setitem d "ask" (fun d => numeric d "best_ask_price");
  _ ← require d "bids";
  d ← assignR d "bid" (ladder_fallback "bid" "bids");
  _ ← require d "asks";
  d ← assignR d "ask" (ladder_fallback "ask" "asks");
  d ← setitem d "underlying_price" (fun d => numeric d "underlying_price");
  d ← setitem d "underlying_price" fill_underlying;
  d ← setitem d "delta" (fun d => numeric d "greeks.delta");
  d ← setitem d "volume" (fun d => numeric d "stats.volume");
  d ← setitem d "open_interest" (fun d => numeric d "open_interest");
  d ← project d output_columns;
  d ← Ok (rename d "underlying" "underlying_symbol");
  d ← dropna d required_columns;
  d ← Ok (select d positive_quotes);
  sort_values d sort_key.

Definition frame (d : DataFrame) : result DataFrame :=
  d ← sorted_frame d; Ok (reset_index d).

Definition no_rows_error : exn :=
  ValueError "No valid option rows after Deribit -> Optopsy normalization.".

(** [run_study], from the table [pd.read_csv] returned up to the first
    call of [op.iron_condor]. *)
Definition run_study (raw : DataFrame) : outcome :=
  match (data ← _to_optopsy_frame 0%nat; load data) [raw] with
  | (Raise e, _) => Raised e
  | (Ok data, _) =>
      if empty data then Raised no_rows_error else Backtest data
  end.

End Study.

(** ** The monolith script *)

Module Monolith.

(** The shape NumPy gives the array built from a nested list: the
    lengths on which all elements agree, level by level. *)
Fixpoint common_prefix (a b : list nat) : list nat :=
  match a, b with
  | x :: a', y :: b' => if (x =? y)%nat then x :: common_prefix a' b' else []
  | _, _ => []
  end.

Fixpoint np_shape (v : obj) : list nat :=
  match v with
  | VList l | VTuple l =>
      length l ::
        match map np_shape l with
        | [] => @nil nat
        | s :: ss => fold_left common_prefix ss s
        end
  | _ => []
  end.

Fixpoint only_leaf (v : obj) : obj :=
  match v with
  | VList [x] | VTuple [x] => only_leaf x
  | _ => v
  end.

(** The truth value of [pd.isna(v)] in an [if].  On a list [pd.isna]
    returns an array, whose truth value is that of its only element,
    false when it has none, and a [ValueError] otherwise. *)
Definition isna_truth (v : obj) : result bool :=
  match v with
  | VList _ =>
      match fold_left Nat.mul (np_shape v) 1%nat with
      | O => Ok false
      | S O => Ok (isna (only_leaf v))
      | _ => Raise (ValueError "The truth value of an array is ambiguous")
      end
  | _ => Ok (isna v)
  end.

Definition null_words : list string := [""; "nan"; "none"; "null"].

(** [_safe_float] *)
Definition _safe_float (value : obj) : result float :=
  na ← isna_truth value;
  match na with
  | true => Ok NaN
  | false =>
      match value with
      | VStr s =>
          if str_in (lower (strip s)) null_words then Ok NaN
          else Ok (try_except (py_float value) NaN)
      | _ => Ok (try_except (py_float value) NaN)
      end
  end.

(** [_best_price_from_ladder] *)
Definition _best_price_from_ladder (raw_ladder : obj) (index : nat) : result float :=
  na ← isna_truth raw_ladder;
  match na || match raw_ladder with
              | VStr s => str_eqb s "[]" || str_eqb s ""
              | _ => false
              end with
  | true => Ok NaN
  | false =>
    Ok (try_except
          (ladder ← match raw_ladder with
                    | VStr s => literal_eval s
                    | _ => Ok raw_ladder
                    end;
           match ladder with
           | VList (_ :: _) =>
               first ← getitem ladder 0;
               price ← getitem first index;
               _safe_float price
           | _ => Ok NaN
           end)
          NaN)
  end.

(** [_split_instrument]; the four components as cells. *)
Definition _split_instrument (instrument_name : obj) : result (obj * obj * obj * obj) :=
  match instrument_name with
  | VStr s =>
      match split_on "-" s with
      | [symbol; expiry_raw; strike_raw; side_raw] =>
          let expiration :=
            match strptime_dby expiry_raw with
            | Some t => VTimestamp t
            | None => VNaT
            end in
          let option_type :=
            if str_eqb (upper side_raw) "C" then "call" else "put" in
          strike ← _safe_float (VStr strike_raw);
          Ok (VStr symbol, expiration, VFloat strike, VStr option_type)
      | _ => Ok (VNone, VNone, VNone, VNone)
      end
  | _ => Raise (AttributeError "object has no attribute 'split'")
  end.

(** [parsed = src["instrument_name"].apply(_split_instrument)] and the
    four columns taken from it, row by row. *)
Definition assign_parsed (d : DataFrame) : result DataFrame :=
  rs ← mapR (fun ir =>
               '(symbol, expiration, strike, option_type) ←
                 _split_instrument (cell ir.2 "instrument_name");
               Ok (ir.1,
                   <["option_type" := option_type]> (<["strike" := strike]>
                     (<["expiration" := expiration]>
                        (<["underlying_symbol" := symbol]> ir.2)))))
            (rows d);
  Ok {| columns := fold_left add_col
                     ["underlying_symbol"; "expiration"; "strike"; "option_type"]
                     (columns d);
        rows := rs |}.

(** [src[c].apply(_safe_float)], one cell *)
Definition safe_float_of_value (v : obj) : result obj :=
  f ← _safe_float v; Ok (VFloat f).

Definition safe_float_of (c : string) (r : row) : result obj :=
  safe_float_of_value (cell r c).

(** [src[c] = src[c].apply(_safe_float)] *)
Definition apply_safe_float (c : string) (d : DataFrame) : result DataFrame :=
  _ ← require d c;
  assignR d c (safe_float_of c).


(** [src[c] = src.get(name, np.nan).apply(_safe_float)]: on a missing
    column the default is a float, which has no [apply]. *)
Definition apply_get_safe_float (c name : string) (d : DataFrame) : result DataFrame :=
  if has_col d name
  then assignR d c (safe_float_of name)
  else Raise (AttributeError "'float' object has no attribute 'apply'").

Definition numeric_cols : list string :=
  ["underlying_price"; "index_price"; "mark_price"; "open_interest";
   "mark_iv"; "bid_iv"; "ask_iv"].

(** [for col in numeric_cols: if col in src.columns: ...] *)
Fixpoint coerce_cols (cs : list string) (d : DataFrame) : result DataFrame :=
  match cs with
  | [] => Ok d
  | c :: cs' =>
      d' ← (if has_col d c then apply_safe_float c d else Ok d);
      coerce_cols cs' d'
  end.

Definition output_columns : list string :=
  ["timestamp"; "change_id"; "underlying_symbol"; "underlying_price";
   "index_price"; "instrument_name"; "option_type"; "expiration";
   "quote_date"; "strike"; "bid"; "ask"; "best_bid_price";
   "best_ask_price"; "best_bid_amount"; "best_ask_amount"; "mark_price";
   "last_price"; "open_interest"; "mark_iv"; "bid_iv"; "ask_iv"; "delta";
   "volume"; "settlement_period"].

Definition missing_or_le0 := Study.missing_or_le0.
Definition gt0 := Study.gt0.

(** [src.loc[m, c] = src.loc[m, ladder].apply(lambda x: _best_price_from_ladder(x, 0))]
    with [m = src[c].isna() | (src[c] <= 0)] *)
Definition fallback_value (top ladder : obj) : result obj :=
  if missing_or_le0 top
  then f ← _best_price_from_ladder ladder 0; Ok (VFloat f)
  else Ok top.

Definition ladder_fallback (c ladder : string) (r : row) : result obj :=
  fallback_value (cell r c) (cell r ladder).

(** The two statements on [bid] (or [ask]), on one row. *)
Definition resolve (top ladder : obj) : result obj :=
  t ← safe_float_of_value top; fallback_value t ladder.

Definition required_columns : list string :=
  ["underlying_symbol"; "expiration"; "quote_date"; "strike"; "option_type"].

Definition positive_quotes (r : row) : bool :=
  gt0 (cell r "bid") && gt0 (cell r "ask").

(** [normalize_deribit_csv], from the table [src] that [pd.read_csv]
    returned.  [src] is local to the function, so its updates are written
    as successive values. *)
Definition normalize_deribit_csv (src : DataFrame) : result DataFrame :=
  _ ← require src "instrument_name";
  src ← assign_parsed src;
  _ ← require src "timestamp";
  src ← setitem src "quote_date" (fun _ r => to_datetime_ms_coerce (cell r "timestamp"));
  _ ← require src "best_bid_price";
  src ← assignR src "bid" (safe_float_of "best_bid_price");
  _ ← require src "best_ask_price";
  src ← assignR src "ask" (safe_float_of "best_ask_price");
  _ ← require src "bids";
  src ← assignR src "bid" (ladder_fallback "bid" "bids");
  _ ← require src "asks";
  src ← assignR src "ask" (ladder_fallback "ask" "asks");
  src ← apply_get_safe_float "delta" "greeks.delta" src;
  src ← apply_get_safe_float "volume" "stats.volume" src;
  src ← coerce_cols numeric_cols src;
  normalized ← project src output_columns;
  normalized ← dropna normalized required_columns;
  Ok (select normalized positive_quotes).

(** [main], from the table read up to the first call of
    [op.iron_condor] in [run_iron_condor_backtest]. *)
Definition main (src : DataFrame) : outcome :=
  match normalize_deribit_csv src with
  | Raise e => Raised e
  | Ok normalized => Backtest normalized
  end.

End Monolith.

(** ** Building tables *)

Fixpoint zip_cells (cs : list string) (vs : list obj) : list (string * obj) :=
  match cs, vs with
  | c :: cs', v :: vs' => (c, v) :: zip_cells cs' vs'
  | _, _ => []
  end.

(** The table with columns [cs] and one row per list of cells, labelled
    0, 1, ... as [pd.read_csv] labels them. *)
Definition table (cs : list string) (data : list (list obj)) : DataFrame :=
  {| columns := cs;
     rows := relabel 0 (map (fun vs => (0, list_to_map (zip_cells cs vs))) data) |}.

(** The cells of a table, column by column in the order of its labels. *)
Definition cells (d : DataFrame) : list (Z * list obj) :=
  map (fun ir => (ir.1, map (cell ir.2) (columns d))) (rows d).

Definition study_columns : list string :=
  ["timestamp"; "instrument_name"; "best_bid_price"; "best_ask_price";
   "bids"; "asks"; "underlying_price"; "index_price"].

(** ** Sample tables *)

(** The end-to-end scenario of the specification: one call quote. *)
Definition one_quote : DataFrame :=
  table study_columns
    [[VInt 1754000000000; VStr "ETH-13AUG25-3800-C"; VFloat (Fin 120.5);
      VFloat (Fin 121.0); VFloat NaN; VFloat NaN; VInt 3810; VFloat NaN]].

(** The raw columns the monolith script needs. *)
Definition monolith_columns : list string :=
  ["timestamp"; "change_id"; "instrument_name"; "underlying_price";
   "index_price"; "best_bid_price"; "best_ask_price"; "best_bid_amount";
   "best_ask_amount"; "bids"; "asks"; "mark_price"; "last_price";
   "open_interest"; "mark_iv"; "bid_iv"; "ask_iv"; "greeks.delta";
   "stats.volume"; "settlement_period"].

(** A raw row of the monolith with the interesting cells given and the
    rest empty. *)
Definition raw_row (timestamp : Z) (instrument_name : string)
    (underlying_price index_price best_bid_price best_ask_price bids asks : obj)
  : list obj :=
  [VInt timestamp; VInt 1; VStr instrument_name; underlying_price;
   index_price; best_bid_price; best_ask_price; VFloat NaN; VFloat NaN;
   bids; asks; VFloat NaN; VFloat NaN; VFloat NaN; VFloat NaN; VFloat NaN;
   VFloat NaN; VFloat NaN; VFloat NaN; VStr "day"].

(** ** Vocabulary of the properties *)

(** Two rows in key order, as [sort_values] leaves adjacent rows. *)
Definition key_le (keys : list string) (a b : Z * row) : Prop :=
  key_leb keys a.2 b.2 = true.

(** The call [_to_optopsy_frame(raw)] on the store [h] returns the table
    [out]. *)
Definition study_returns (h : heap) (raw : ref) (out : DataFrame) : Prop :=
  exists l h', Study._to_optopsy_frame raw h = (Ok l, h') /\ h' !! l = Some out.

(** Row labels, in row order. *)
Definition labels (d : DataFrame) : list Z := map fst (rows d).

(** A cell holds a float that is not NaN. *)
Definition is_number (v : obj) : Prop :=
  exists f, v = VFloat f /\ isnan f = false.

(** A table of the study with its raw columns and no option in it:
    every instrument cell is a text, and the text fails the pattern. *)
Definition only_non_options (raw : DataFrame) : Prop :=
  has_col raw "instrument_name" = true /\
  has_col raw "timestamp" = true /\
  has_col raw "bids" = true /\
  has_col raw "asks" = true /\
  existsb (has_col raw) Study.group_names = false /\
  forall ir, ir ∈ rows raw ->
    exists s, cell ir.2 "instrument_name" = VStr s /\ INSTRUMENT_RE s = None.

(** Every character of a text satisfies [p]. *)
Fixpoint str_forall (p : ascii -> bool) (s : string) : bool :=
  match s with
  | EmptyString => true
  | String c s' => p c && str_forall p s'
  end.

(** A strike as the format writes it: digits, or digits, a dot and
    digits. *)
Definition decimal_text (k : string) : Prop :=
  exists k1 k2,
    k1 <> "" /\ str_forall is_digit k1 = true /\ str_forall is_digit k2 = true /\
    (k = k1 \/ (k2 <> "" /\ k = k1 +:+ "." +:+ k2)).

(** The side field as the study pattern accepts it: the letter, with
    or without a final newline. *)
Definition side_texts : list string := ["C"; "P"; "C" +:+ "010"; "P" +:+ "010"].


(** The date words that [pd.to_datetime] reads as the wall clock, and
    the instrument cells whose date field is one of them, in any letter
    case and with or without blanks around it. *)
Definition clock_words : list string := ["now"; "today"].

Definition clock_date (v : obj) : bool :=
  match v with
  | VStr s =>
      match split_on "-" s with
      | [_; e; _; _] => str_in (lower (strip e)) clock_words
      | _ => false
      end
  | _ => false
  end.



(** A ladder whose first level is a pair that starts with [price]. *)
Definition first_price (levels price : obj) : Prop :=
  exists rest more, levels = VList (VList (price :: rest) :: more).

(** A ladder the study takes for absent: a missing cell, an empty list,
    or a text that, stripped, is empty, [[]] or [nan] in any letter case,
    or evaluates to a value that is false in a condition (the empty list,
    0, None, ...). *)
Definition study_no_ladder (ladder : obj) : Prop :=
  ladder = VNone \/ ladder = VFloat NaN \/ ladder = VList [] \/
  exists s, ladder = VStr s /\
    (strip s = "" \/ strip s = "[]" \/ lower (strip s) = "nan" \/
     exists v, literal_eval (strip s) = Ok v /\ falsy v = true).

(** A ladder the monolith takes for absent: a missing cell, the text
    [[]] or the empty text, or a text that evaluates to anything but a
    list with a first level. *)
Definition monolith_no_ladder (ladder : obj) : Prop :=
  ladder = VNone \/ ladder = VFloat NaN \/
  exists s, ladder = VStr s /\
    (s = "" \/ s = "[]" \/
     exists v, literal_eval s = Ok v /\ forall x l, v <> VList (x :: l)).

(** The positivity the specification asks of a row. *)
Definition all_positive (r : row) : bool :=
  Study.gt0 (cell r "bid") && Study.gt0 (cell r "ask")
  && Study.gt0 (cell r "strike") && Study.gt0 (cell r "underlying_price").

(** What the study returns for it, computed. *)
Definition one_quote_out : DataFrame :=
  Eval vm_compute in
    match Study.frame one_quote with Ok out => out | Raise _ => one_quote end.

Definition first_row (d : DataFrame) : Z * row := hd (0, ∅) (rows d).

(** A call with strike 0 and a negative underlying price. *)
Definition zero_strike : DataFrame :=
  table study_columns
    [[VInt 1754000000000; VStr "ETH-13AUG25-0-C"; VFloat (Fin 120.5);
      VFloat (Fin 121.0); VFloat NaN; VFloat NaN; VInt (-5); VFloat NaN]].

(** A perpetual, then two calls, the later quote first. *)
Definition later_first : DataFrame :=
  table monolith_columns
    [raw_row 1754000000000 "BTC-PERPETUAL" (VInt 3810) (VInt 3811)
       (VFloat (Fin 120.5)) (VFloat (Fin 121.0)) (VFloat NaN) (VFloat NaN);
     raw_row 1754000000000 "ETH-13AUG25-3800-C" (VInt 3810) (VInt 3811)
       (VFloat (Fin 120.5)) (VFloat (Fin 121.0)) (VFloat NaN) (VFloat NaN);
     raw_row 1753000000000 "ETH-13AUG25-3800-C" (VInt 3810) (VInt 3811)
       (VFloat (Fin 120.5)) (VFloat (Fin 121.0)) (VFloat NaN) (VFloat NaN)].

(** The fatal scenario of the specification: only a perpetual. *)
Definition only_perpetual : DataFrame :=
  table monolith_columns
    [raw_row 1754000000000 "BTC-PERPETUAL" (VInt 3810) (VInt 3811)
       (VFloat (Fin 120.5)) (VFloat (Fin 121.0)) (VFloat NaN) (VFloat NaN)].

(** The same scenario with the columns of the study. *)
Definition only_perpetual_study : DataFrame :=
  table study_columns
    [[VInt 1754000000000; VStr "BTC-PERPETUAL"; VFloat (Fin 120.5);
      VFloat (Fin 121.0); VFloat NaN; VFloat NaN; VInt 3810; VFloat NaN]].

(** A call without underlying price but with an index price. *)
Definition no_underlying : DataFrame :=
  table monolith_columns
    [raw_row 1754000000000 "ETH-13AUG25-3800-C" (VFloat NaN) (VInt 3800)
       (VFloat (Fin 120.5)) (VFloat (Fin 121.0)) (VFloat NaN) (VFloat NaN)].

Definition no_underlying_study : DataFrame :=
  table study_columns
    [[VInt 1754000000000; VStr "ETH-13AUG25-3800-C"; VFloat (Fin 120.5);
      VFloat (Fin 121.0); VFloat NaN; VFloat NaN; VFloat NaN; VInt 3800]].

Definition no_underlying_study_out : DataFrame :=
  Eval vm_compute in
    match Study.sorted_frame no_underlying_study with
    | Ok out => out
    | Raise _ => no_underlying_study
    end.


(** The malformed code of the specification, in a table of the study. *)
Definition bad_strike_study : DataFrame :=
  table study_columns
    [[VInt 1754000000000; VStr "ETH-13AUG25-XYZ-C"; VFloat (Fin 120.5);
      VFloat (Fin 121.0); VFloat NaN; VFloat NaN; VInt 3810; VFloat NaN];
     [VInt 1754000000000; VStr "ETH-13AUG25-3800-C"; VFloat (Fin 120.5);
      VFloat (Fin 121.0); VFloat NaN; VFloat NaN; VInt 3810; VFloat NaN]].

Definition bad_strike_study_pre : DataFrame :=
  Eval vm_compute in
    match Study.sorted_frame bad_strike_study with
    | Ok out => out
    | Raise _ => bad_strike_study
    end.

(** A call without top-of-book bid whose ladder text is the scalar 5,
    and one whose ladder text is a list of one text. *)
Definition scalar_ladder : DataFrame :=
  table study_columns
    [[VInt 1754000000000; VStr "ETH-13AUG25-3800-C"; VFloat NaN;
      VFloat (Fin 121.0); VStr "5"; VFloat NaN; VInt 3810; VFloat NaN]].

Definition text_level : DataFrame :=
  table monolith_columns
    [raw_row 1754000000000 "ETH-13AUG25-3800-C" (VInt 3810) (VInt 3811)
       (VFloat NaN) (VFloat (Fin 121.0)) (VStr "['12']") (VFloat NaN)].

(** ** Further vocabulary and sample tables *)

(** A quote whose instrument cell is empty, before a well-formed one. *)
Definition blank_instrument : DataFrame :=
  table study_columns
    [[VInt 1754000000000; VFloat NaN; VFloat (Fin 120.5);
      VFloat (Fin 121.0); VFloat NaN; VFloat NaN; VInt 3810; VFloat NaN];
     [VInt 1754000000000; VStr "ETH-13AUG25-3800-C"; VFloat (Fin 120.5);
      VFloat (Fin 121.0); VFloat NaN; VFloat NaN; VInt 3810; VFloat NaN]].

(** The number a run of digits denotes, read after [acc]. *)
Fixpoint digits_val (w : string) (acc : Z) : Z :=
  match w with
  | EmptyString => acc
  | String c w' => digits_val w' (acc * 10 + digit_val c)
  end.

(** The rows of the table [d] that the study keeps: the code matches
    the pattern, its date parses, an underlying price or an index price is
    a number, and bid and ask resolve to positive prices. *)
Definition study_keeps (d : DataFrame) (r : row) : Prop :=
  exists s u e k o t b a,
    cell r "instrument_name" = VStr s /\
    INSTRUMENT_RE s = Some (u, e, k, o) /\ strptime_dby e = Some t /\
    isna (Study.underlying_of d r) = false /\
    Study.resolve (df_get d "best_bid_price" r) (cell r "bids") = Ok b /\
    Study.gt0 b = true /\
    Study.resolve (df_get d "best_ask_price" r) (cell r "asks") = Ok a /\
    Study.gt0 a = true.

(** The rows the monolith keeps: the code has four dash fields, a date
    that parses and a strike that is a number, the timestamp converts,
    and bid and ask resolve to positive prices. *)
Definition monolith_keeps (r : row) : Prop :=
  exists s sym e k side t f b a,
    cell r "instrument_name" = VStr s /\
    split_on "-" s = [sym; e; k; side] /\ strptime_dby e = Some t /\
    Monolith._safe_float (VStr k) = Ok f /\ isnan f = false /\
    isna (to_datetime_ms_coerce (cell r "timestamp")) = false /\
    Monolith.resolve (cell r "best_bid_price") (cell r "bids") = Ok b /\
    Monolith.gt0 b = true /\
    Monolith.resolve (cell r "best_ask_price") (cell r "asks") = Ok a /\
    Monolith.gt0 a = true.

(** What the monolith returns for [later_first], computed. *)
Definition later_first_out : DataFrame :=
  Eval vm_compute in
    match Monolith.normalize_deribit_csv later_first with
    | Ok out => out
    | Raise _ => later_first
    end.

(** A well-formed quote whose timestamp is a word. *)
Definition bad_timestamp : DataFrame :=
  table study_columns
    [[VStr "yesterday"; VStr "ETH-13AUG25-3800-C"; VFloat (Fin 120.5);
      VFloat (Fin 121.0); VFloat NaN; VFloat NaN; VInt 3810; VFloat NaN]].

(** A value that is neither a list nor a tuple, and a ladder level
    [[price, amount]] of two such values. *)
Definition scalar (v : obj) : Prop :=
  (forall l, v <> VList l) /\ (forall l, v <> VTuple l).

Definition pair_level (x : obj) : Prop :=
  exists p a, x = VList [p; a] /\ scalar p /\ scalar a.

(** ** The view statements of [persist_to_postgres]

    The text of [superset_sql] is given line by line; [{schema}] is the
    schema name, put into the text as it is. *)

Definition nl : string := String "010" EmptyString.

(** The two statements as [superset_sql] writes them, from the first
    word to the last. *)
Definition daily_view (schema : string) : string :=
  String.concat nl
    ["CREATE OR REPLACE VIEW " +:+ schema +:+ ".v_iron_condor_daily AS";
     "    SELECT";
     "      date_trunc('day', quote_date) AS day,";
     "      underlying_symbol,";
     "      COUNT(" +:+ "*) AS ticks,";
     "      AVG(mark_iv) AS avg_mark_iv,";
     "      AVG(open_interest) AS avg_open_interest,";
     "      AVG(underlying_price) AS avg_underlying_price";
     "    FROM " +:+ schema +:+ ".deribit_option_ticks";
     "    GROUP BY 1, 2"].

Definition backtest_view (schema : string) : string :=
  String.concat nl
    ["CREATE OR REPLACE VIEW " +:+ schema +:+ ".v_iron_condor_backtest AS";
     "    SELECT";
     "      dte_range,";
     "      otm_pct_range_leg1,";
     "      otm_pct_range_leg2,";
     "      otm_pct_range_leg3,";
     "      otm_pct_range_leg4,";
     "      count,";
     "      mean,";
     "      std,";
     "      min,";
     "      max";
     "    FROM " +:+ schema +:+ ".iron_condor_stats"].

(** [superset_sql]: a line break, the first statement indented and
    closed by a semicolon, an empty line, the second one likewise, and
    the indentation of the closing quotes. *)
Definition superset_sql (schema : string) : string :=
  nl +:+ "    " +:+ daily_view schema +:+ ";" +:+ nl +:+
  nl +:+ "    " +:+ backtest_view schema +:+ ";" +:+ nl +:+
  "    ".

(** [[s.strip() for s in superset_sql.split(";") if s.strip()]] *)
Definition view_statements (schema : string) : list string :=
  map strip
    (List.filter (fun s => negb (str_eqb (strip s) ""))
       (split_on ";" (superset_sql schema))).

(** What [persist_to_postgres] asks of the database, in order; the
    tables written are not part of the model. *)
Inductive action :=
| Execute (sql : string)
| ToSql (table schema if_exists : string).

Definition persist_to_postgres (schema : string) : list action :=
  app [Execute ("CREATE SCHEMA IF NOT EXISTS " +:+ schema);
       ToSql "deribit_option_ticks" schema "append";
       ToSql "iron_condor_stats" schema "replace";
       ToSql "iron_condor_trades" schema "replace"]
      (map Execute (view_statements schema)).

(** A character that starts no number: no digit, sign or dot, and not
    the first letter of [inf]. *)
Definition plain_head (c : ascii) : bool :=
  negb (is_digit c) && negb (Ascii.eqb c "+") && negb (Ascii.eqb c "-")
  && negb (Ascii.eqb c ".") && negb (Ascii.eqb (lower_char c) "i").


(** A perpetual, then two calls, the later quote first, with the
    columns of the study; the sorted table of the study for it, whose rows
    still carry the input labels, and the table returned. *)
Definition later_first_study : DataFrame :=
  table study_columns
    [[VInt 1754000000000; VStr "BTC-PERPETUAL"; VFloat (Fin 120.5);
      VFloat (Fin 121.0); VFloat NaN; VFloat NaN; VInt 3810; VFloat NaN];
     [VInt 1754000000000; VStr "ETH-13AUG25-3800-C"; VFloat (Fin 120.5);
      VFloat (Fin 121.0); VFloat NaN; VFloat NaN; VInt 3810; VFloat NaN];
     [VInt 1753000000000; VStr "ETH-13AUG25-3800-C"; VFloat (Fin 120.5);
      VFloat (Fin 121.0); VFloat NaN; VFloat NaN; VInt 3810; VFloat NaN]].

Definition later_first_study_pre : DataFrame :=
  Eval vm_compute in
    match Study.sorted_frame later_first_study with
    | Ok out => out
    | Raise _ => later_first_study
    end.

Definition later_first_study_out : DataFrame :=
  Eval vm_compute in reset_index later_first_study_pre.

(** * Properties *)

(** ** The error monad *)

Lemma bind_Ok {A B} (m : result A) (k : A -> result B) (b : B) :
  m ≫= k = Ok b -> exists a, m = Ok a /\ k a = Ok b.
Proof. destruct m as [a|e]; simpl; [eauto | discriminate]. Qed.

Lemma bind_ret {A B} (a : A) (k : A -> result B) : Ok a ≫= k = k a.
Proof. reflexivity. Qed.

Lemma mapR_Ok_length {A B} (f : A -> result B) l l' :
  mapR f l = Ok l' -> length l' = length l.
Proof.
  revert l'. induction l as [|a l IH]; simpl; intros l' H.
  - by inversion H.
  - destruct (f a) as [b|]; simpl in H; [|discriminate].
    destruct (mapR f l) as [bs|]; simpl in H; [|discriminate].
    inversion H; subst. simpl. by rewrite (IH bs).
Qed.

Lemma mapR_Ok_elem {A B} (f : A -> result B) l l' y :
  mapR f l = Ok l' -> y ∈ l' -> exists x, x ∈ l /\ f x = Ok y.
Proof.
  revert l'. induction l as [|a l IH]; simpl; intros l' H Hy.
  - inversion H; subst. by apply elem_of_nil in Hy.
  - destruct (f a) as [b|] eqn:Ea; simpl in H; [|discriminate].
    destruct (mapR f l) as [bs|]; simpl in H; [|discriminate].
    inversion H; subst. apply elem_of_cons in Hy as [->|Hy].
    + exists a. split; [left | done].
    + destruct (IH bs eq_refl Hy) as (x & Hx & Hfx).
      exists x. split; [by right | done].
Qed.

Lemma mapR_Ok_all {A B} (f : A -> result B) l l' x :
  mapR f l = Ok l' -> x ∈ l -> exists y, f x = Ok y /\ y ∈ l'.
Proof.
  revert l'. induction l as [|a l IH]; simpl; intros l' H Hx.
  - by apply elem_of_nil in Hx.
  - destruct (f a) as [b|] eqn:Ea; simpl in H; [|discriminate].
    destruct (mapR f l) as [bs|]; simpl in H; [|discriminate].
    inversion H; subst. apply elem_of_cons in Hx as [->|Hx].
    + exists b. split; [done | left].
    + destruct (IH bs eq_refl Hx) as (y & Hy & Hin).
      exists y. split; [done | by right].
Qed.

(** ** Running the study normaliser on a store *)

Lemma run_bind {A B} (m : M A) (k : A -> M B) h :
  (m ≫= k) h = match m h with
               | (Ok a, h') => k a h'
               | (Raise e, h') => (Raise e, h')
               end.
Proof. reflexivity. Qed.

Ltac run_store :=
  unfold df_copy, df_new, df_require, df_setitem, df_setitemR,
    load, lift, alloc, store;
  rewrite ?run_bind; cbv beta iota.

Lemma run_copy (k : ref -> M ref) l h d :
  h !! l = Some d ->
  (df_copy l ≫= k) h = k (length h) (app h [d]).
Proof.
  intros Hl. run_store. by rewrite Hl.
Qed.

Lemma lookup_last (H : heap) (cur : DataFrame) :
  (app H [cur]) !! length H = Some cur.
Proof. by rewrite lookup_app_r, Nat.sub_diag. Qed.

Lemma insert_last (H : heap) (cur d : DataFrame) :
  <[length H := d]> (app H [cur]) = app H [d].
Proof.
  rewrite insert_app_r_alt by lia. by rewrite Nat.sub_diag.
Qed.

Lemma run_new (f : DataFrame -> result DataFrame) (k : ref -> M ref) H cur :
  (df_new (length H) f ≫= k) (app H [cur]) =
  match f cur with
  | Ok d => k (length (app H [cur])) (app (app H [cur]) [d])
  | Raise e => (Raise e, app H [cur])
  end.
Proof.
  run_store. rewrite lookup_last. cbv beta iota. rewrite ?run_bind.
  by destruct (f cur).
Qed.

Lemma run_new_last (f : DataFrame -> result DataFrame) H cur :
  df_new (length H) f (app H [cur]) =
  match f cur with
  | Ok d => (Ok (length (app H [cur])), app (app H [cur]) [d])
  | Raise e => (Raise e, app H [cur])
  end.
Proof.
  run_store. rewrite lookup_last. cbv beta iota. rewrite ?run_bind.
  by destruct (f cur).
Qed.

Lemma run_require c (k : unit -> M ref) H cur :
  (df_require (length H) c ≫= k) (app H [cur]) =
  match require cur c with
  | Ok _ => k tt (app H [cur])
  | Raise e => (Raise e, app H [cur])
  end.
Proof.
  run_store. rewrite lookup_last. cbv beta iota. rewrite ?run_bind.
  by destruct (require cur c) as [[]|].
Qed.

Lemma run_setitem c f (k : unit -> M ref) H cur :
  (df_setitem (length H) c f ≫= k) (app H [cur]) =
  k tt (app H [assign cur c (f cur)]).
Proof.
  run_store. rewrite lookup_last. cbv beta iota.
  by rewrite insert_last.
Qed.

Lemma run_setitemR c f (k : unit -> M ref) H cur :
  (df_setitemR (length H) c f ≫= k) (app H [cur]) =
  match assignR cur c f with
  | Ok d => k tt (app H [d])
  | Raise e => (Raise e, app H [cur])
  end.
Proof.
  run_store. rewrite lookup_last. cbv beta iota. rewrite ?run_bind.
  destruct (assignR cur c f); [|done]. by rewrite insert_last.
Qed.

Ltac run_step :=
  first [ rewrite run_new | rewrite run_require | rewrite run_setitem
        | rewrite run_setitemR | rewrite run_new_last ];
  cbv beta.

(** The first pure step met on the left of the equation is split into
    its two results; an exception ends the run with the store at hand. *)
Ltac run_case :=
  match goal with
  | |- exists _, _ /\ match ?r with Ok _ => _ | Raise _ => _ end = _ =>
      let E := fresh "E" in
      destruct r eqn:E; simpl;
      [ | eexists; split; [ | reflexivity ];
          repeat (etrans; [ | apply prefix_app_r; reflexivity ]); reflexivity ]
  end.

Lemma run_to_optopsy_frame raw h d :
  h !! raw = Some d ->
  exists h1, h `prefix_of` h1 /\
    Study._to_optopsy_frame raw h =
      match Study.frame d with
      | Ok out => (Ok (length h1), app h1 [out])
      | Raise e => (Raise e, h1)
      end.
Proof.
  intros Hraw.
  unfold Study._to_optopsy_frame, Study.frame, Study.sorted_frame.
  rewrite (run_copy _ _ _ _ Hraw).
  run_step. run_case.
  run_step. run_case.
  run_step. run_case.
  run_step. run_case.
  run_step.
  run_step. run_case.
  do 4 run_step.
  run_step. run_case.
  run_step. run_case.
  run_step. run_case.
  run_step. run_case.
  do 5 run_step.
  run_step. unfold mbind at 1, result_bind at 1.
  match goal with |- context [project ?d ?c] => destruct (project d c) eqn:Eproj end; simpl.
  2: { eexists; split; [ | reflexivity ];
          repeat (etrans; [ | apply prefix_app_r; reflexivity ]); reflexivity. }
  run_step. run_case.
  run_step.
  run_step. run_case.
  run_step.
  eexists; split; [ | reflexivity ].
  repeat (etrans; [ | apply prefix_app_r; reflexivity ]); reflexivity.
Qed.

(** ** The caller's table *)

(** C10. Whatever [_to_optopsy_frame] does, returning or raising, the
    store it leaves holds at [raw] the table it held before, and so does
    every other object of the caller: the function writes only to the
    copy it makes and to the tables derived from the copy. *)
Theorem to_optopsy_frame_leaves_argument (raw : ref) (h : heap) (d : DataFrame) :
  h !! raw = Some d ->
  (Study._to_optopsy_frame raw h).2 !! raw = Some d /\
  forall l x, h !! l = Some x -> (Study._to_optopsy_frame raw h).2 !! l = Some x.
Proof.
  intros Hraw.
  destruct (run_to_optopsy_frame raw h d Hraw) as (h1 & Hpre & Hrun).
  assert (Hall : forall l x, h !! l = Some x ->
                 (Study._to_optopsy_frame raw h).2 !! l = Some x).
  { intros l x Hl. rewrite Hrun.
    pose proof (prefix_lookup_Some _ _ _ _ Hl Hpre) as H1.
    destruct (Study.frame d); simpl; [|done].
    by apply lookup_app_l_Some. }
  split; [by apply Hall | done].
Qed.

Lemma to_optopsy_frame_leaves_argument_witness :
  [one_quote] !! 0%nat = Some one_quote /\
  (Study._to_optopsy_frame 0%nat [one_quote]).2 !! 0%nat = Some one_quote.
Proof.
  split; [reflexivity|].
  exact (proj1 (to_optopsy_frame_leaves_argument 0%nat [one_quote] one_quote eq_refl)).
Defined.

(** ** The ladder parsers *)

(** C5. The study parser raises on ladder values it does not expect: a
    textual scalar is not subscriptable, a textual mapping has no key 0,
    and a first price that is not a number fails in [float]; the
    exception ends [run_study]. *)
Theorem parse_l1_from_book_raises :
  Study._parse_l1_from_book (VStr "5")
    = Raise (TypeError "object is not subscriptable") /\
  Study._parse_l1_from_book (VStr "{'a': 1}") = Raise (KeyError "0") /\
  Study._parse_l1_from_book (VStr "[['abc', 1]]")
    = Raise (ValueError "could not convert string to float") /\
  Study.run_study
    (table study_columns
       [[VInt 1754000000000; VStr "ETH-13AUG25-3800-C"; VFloat NaN;
         VFloat (Fin 121.0); VStr "5"; VFloat NaN; VInt 3810; VFloat NaN]])
    = Raised (TypeError "object is not subscriptable").
Proof. repeat split; vm_compute; reflexivity. Qed.

(** The monolith parser returns on every text, float, integer and
    missing value: its [try] catches every exception of the parse. *)
Lemma best_price_from_ladder_returns (v : obj) (index : nat) :
  (forall l, v <> VList l) ->
  exists f, Monolith._best_price_from_ladder v index = Ok f.
Proof.
  intros Hv. unfold Monolith._best_price_from_ladder.
  destruct v; try (by destruct (Hv l)); simpl;
    repeat match goal with
           | |- context [match ?b with true => _ | false => _ end] => destruct b
           end; eauto.
Qed.

(** On a native list of more than one cell it raises: [pd.isna] returns
    an array, which has no truth value. *)
Lemma best_price_from_ladder_raises_on_list :
  Monolith._best_price_from_ladder
    (VList [VList [VFloat (Fin 123.4); VInt 10]; VList [VFloat (Fin 123.0); VInt 5]]) 0
  = Raise (ValueError "The truth value of an array is ambiguous").
Proof. vm_compute. reflexivity. Qed.

(** ** Tables: rows and columns of the results *)

Lemma cell_insert (r : row) (c c' : string) (v : obj) :
  cell (<[c := v]> r) c' = if String.eqb c c' then v else cell r c'.
Proof.
  unfold cell. destruct (String.eqb_spec c c') as [->|Hne].
  - by rewrite lookup_insert_eq.
  - by rewrite lookup_insert_ne.
Qed.

Lemma has_col_add (cs : list string) (c c' : string) :
  existsb (str_eqb c') (add_col cs c) = existsb (str_eqb c') cs || String.eqb c' c.
Proof.
  unfold add_col. destruct (existsb (str_eqb c) cs) eqn:E.
  - destruct (String.eqb_spec c' c) as [->|]; [|by rewrite orb_false_r].
    by rewrite E.
  - rewrite existsb_app. simpl. by rewrite orb_false_r.
Qed.

Lemma has_col_assign d c f c' :
  has_col (assign d c f) c' = has_col d c' || String.eqb c' c.
Proof. apply has_col_add. Qed.

Lemma elem_of_assign d c f i r' :
  (i, r') ∈ rows (assign d c f) ->
  exists r, (i, r) ∈ rows d /\ r' = <[c := f r]> r.
Proof.
  simpl. intros H. apply list_elem_of_fmap in H as ([j r] & Heq & Hin).
  simpl in Heq. inversion Heq; subst. eauto.
Qed.

Lemma assignR_Ok d c f d' :
  assignR d c f = Ok d' ->
  columns d' = add_col (columns d) c /\
  (forall i r', (i, r') ∈ rows d' ->
     exists r v, (i, r) ∈ rows d /\ f r = Ok v /\ r' = <[c := v]> r) /\
  (forall i r, (i, r) ∈ rows d -> exists v, f r = Ok v) /\
  map fst (rows d') = map fst (rows d).
Proof.
  unfold assignR. intros H. apply bind_Ok in H as (rs & Hrs & H).
  inversion H; subst; clear H. simpl. split; [done|]. repeat split.
  - intros i r' Hin.
    destruct (mapR_Ok_elem _ _ _ _ Hrs Hin) as ([j r] & Hj & Hf).
    simpl in Hf. destruct (f r) as [v|] eqn:Ev; simpl in Hf; [|discriminate].
    inversion Hf; subst. eauto.
  - intros i r Hin.
    destruct (mapR_Ok_all _ _ _ _ Hrs Hin) as (y & Hy & _).
    simpl in Hy. destruct (f r) as [v|]; [eauto | discriminate].
  - clear -Hrs. revert rs Hrs. induction (rows d) as [|[j r] l IH]; simpl; intros rs H.
    + by inversion H.
    + destruct (f r) as [v|]; simpl in H; [|discriminate].
      destruct (mapR _ l) as [bs|] eqn:E; simpl in H; [|discriminate].
      inversion H; subst. simpl. by rewrite (IH bs).
Qed.

Lemma elem_of_select d p i r :
  (i, r) ∈ rows (select d p) <-> (i, r) ∈ rows d /\ p r = true.
Proof.
  simpl. rewrite list_elem_of_In, filter_In, <- list_elem_of_In. simpl. tauto.
Qed.

Lemma require_all_Ok d cs c :
  require_all d cs = Ok tt -> c ∈ cs -> has_col d c = true.
Proof.
  induction cs as [|x cs IH]; simpl; intros H Hc.
  - by apply elem_of_nil in Hc.
  - unfold require in H. destruct (has_col d x) eqn:E; simpl in H; [|discriminate].
    apply elem_of_cons in Hc as [->|Hc]; [done | by apply IH].
Qed.

Lemma require_all_missing d cs c :
  c ∈ cs -> has_col d c = false -> exists e, require_all d cs = Raise e.
Proof.
  induction cs as [|x cs IH]; simpl; intros Hc Hno.
  - by apply elem_of_nil in Hc.
  - unfold require at 1. destruct (has_col d x) eqn:E; simpl; [|eauto].
    apply elem_of_cons in Hc as [->|Hc]; [congruence | by apply IH].
Qed.

Lemma dropna_Ok d cs d' :
  dropna d cs = Ok d' ->
  d' = select d (fun r => forallb (fun c => negb (isna (cell r c))) cs).
Proof.
  unfold dropna. intros H. apply bind_Ok in H as ([] & _ & H). by inversion H.
Qed.

Lemma elem_of_dropna d cs d' i r :
  dropna d cs = Ok d' -> (i, r) ∈ rows d' ->
  (i, r) ∈ rows d /\ forall c, c ∈ cs -> isna (cell r c) = false.
Proof.
  intros H Hin. rewrite (dropna_Ok _ _ _ H) in Hin.
  apply elem_of_select in Hin as [Hin Hall]. split; [done|].
  intros c Hc. rewrite forallb_forall in Hall.
  apply list_elem_of_In in Hc. specialize (Hall c Hc).
  by apply negb_true_iff in Hall.
Qed.

Lemma lookup_projected (r : row) (cs : list string) (c : string) :
  c ∈ cs ->
  (list_to_map (map (fun c => (c, cell r c)) cs) : row) !! c = Some (cell r c).
Proof.
  induction cs as [|x cs IH]; intros Hc.
  - by apply elem_of_nil in Hc.
  - simpl. destruct (decide (x = c)) as [->|Hne].
    + by rewrite lookup_insert_eq.
    + rewrite lookup_insert_ne by done.
      apply elem_of_cons in Hc as [->|Hc]; [done | by apply IH].
Qed.

Lemma project_Ok d cs d' :
  project d cs = Ok d' ->
  columns d' = cs /\
  forall i r', (i, r') ∈ rows d' ->
    exists r, (i, r) ∈ rows d /\ forall c, c ∈ cs -> r' !! c = Some (cell r c).
Proof.
  unfold project. intros H. apply bind_Ok in H as ([] & _ & H).
  inversion H; subst; clear H. simpl. split; [done|].
  intros i r' Hin. apply list_elem_of_fmap in Hin as ([j r] & Heq & Hin).
  simpl in Heq. inversion Heq; subst. exists r. split; [done|].
  intros c Hc. by apply lookup_projected.
Qed.

Lemma elem_of_rename d old new i r' :
  (i, r') ∈ rows (rename d old new) ->
  exists r, (i, r) ∈ rows d /\
    (forall c, c <> old -> c <> new -> cell r' c = cell r c) /\
    (is_Some (r !! old) -> cell r' new = cell r old).
Proof.
  simpl. intros H. apply list_elem_of_fmap in H as ([j r] & Heq & Hin).
  simpl in Heq. inversion Heq; subst; clear Heq. exists r. split; [done|].
  destruct (r !! old) as [v|] eqn:E.
  - split.
    + intros c Ho Hn. unfold cell.
      by rewrite lookup_insert_ne, lookup_delete_ne.
    + intros _. unfold cell. by rewrite lookup_insert_eq, E.
  - split; [done|]. by intros [? ?].
Qed.

(** ** Sorting *)

Lemma Qle_bool_total (p q : Q) : Qle_bool p q = false -> Qle_bool q p = true.
Proof.
  intros H. apply Qle_bool_iff. apply Qlt_le_weak, Qnot_le_lt.
  intros Hle. apply Qle_bool_iff in Hle. congruence.
Qed.

Lemma str_leb_total (a b : string) : str_leb a b = false -> str_leb b a = true.
Proof.
  revert b. induction a as [|x a IH]; intros [|y b]; simpl; try done.
  destruct (N.ltb_spec (N_of_ascii x) (N_of_ascii y)); [done|].
  destruct (N.ltb_spec (N_of_ascii y) (N_of_ascii x)); [done|].
  apply IH.
Qed.

Lemma float_leb_total (a b : float) : float_leb a b = false -> float_leb b a = true.
Proof.
  destruct a, b; simpl; try done. apply Qle_bool_total.
Qed.

Lemma value_leb_total (a b : obj) : value_leb a b = false -> value_leb b a = true.
Proof.
  unfold value_leb. destruct (isna b) eqn:Eb; [done|].
  destruct (isna a) eqn:Ea; [done|].
  destruct a, b; try done; cbn -[float_leb Qle_bool str_leb]; try done;
    auto using Qle_bool_total, str_leb_total, float_leb_total.
Qed.

Lemma key_leb_total (keys : list string) (a b : row) :
  key_leb keys a b = false -> key_leb keys b a = true.
Proof.
  induction keys as [|c keys IH]; simpl; [done|].
  destruct (value_leb (cell a c) (cell b c)) eqn:E1.
  - destruct (value_leb (cell b c) (cell a c)) eqn:E2; [apply IH | done].
  - intros _. by rewrite (value_leb_total _ _ E1).
Qed.

Lemma insert_sorted_perm keys x l : insert_sorted keys x l ≡ₚ x :: l.
Proof.
  induction l as [|y l IH]; simpl; [done|].
  destruct (key_leb keys y.2 x.2); [|done].
  rewrite IH. apply Permutation_swap.
Qed.

Lemma sort_rows_perm keys l : sort_rows keys l ≡ₚ l.
Proof.
  unfold sort_rows.
  assert (H : forall acc, fold_left (fun acc x => insert_sorted keys x acc) l acc
                          ≡ₚ app acc l).
  { induction l as [|x l IH]; intros acc; simpl.
    - by rewrite app_nil_r.
    - rewrite IH, insert_sorted_perm. simpl. apply Permutation_middle. }
  by rewrite H.
Qed.

Lemma insert_sorted_Sorted keys x l :
  Sorted (key_le keys) l -> Sorted (key_le keys) (insert_sorted keys x l).
Proof.
  induction l as [|y l IH]; simpl; intros Hs.
  - by repeat constructor.
  - apply Sorted_inv in Hs as [Hs Hhd].
    destruct (key_leb keys y.2 x.2) eqn:E.
    + constructor; [by apply IH|].
      destruct l as [|z l]; simpl.
      * by constructor.
      * destruct (key_leb keys z.2 x.2); constructor; [by inversion Hhd | done].
    + constructor; [by constructor|]. constructor.
      by apply key_leb_total.
Qed.

Lemma sort_rows_Sorted keys l : Sorted (key_le keys) (sort_rows keys l).
Proof.
  unfold sort_rows.
  assert (H : forall acc, Sorted (key_le keys) acc ->
              Sorted (key_le keys)
                (fold_left (fun acc x => insert_sorted keys x acc) l acc)).
  { induction l as [|x l IH]; intros acc Hacc; simpl; [done|].
    by apply IH, insert_sorted_Sorted. }
  apply H. constructor.
Qed.

Lemma relabel_snd i l : map snd (relabel i l) = map snd l.
Proof. revert i. induction l as [|x l IH]; intros i; simpl; [done | by rewrite IH]. Qed.

Lemma length_relabel i l : length (relabel i l) = length l.
Proof. revert i. induction l as [|x l IH]; intros i; simpl; [done | by rewrite IH]. Qed.

Lemma relabel_fst i l : map fst (relabel i l) = seqZ i (Z.of_nat (length l)).
Proof.
  revert i. induction l as [|x l IH]; intros i; [done|].
  simpl length. rewrite Nat2Z.inj_succ, seqZ_cons by lia. simpl.
  rewrite IH. by replace (Z.pred (Z.succ (Z.of_nat (length l)))) with (Z.of_nat (length l)) by lia.
Qed.

Lemma elem_of_relabel i l j r :
  (j, r) ∈ relabel i l -> exists j', (j', r) ∈ l.
Proof.
  revert i. induction l as [|[k x] l IH]; intros i H; simpl in H.
  - by apply elem_of_nil in H.
  - apply elem_of_cons in H as [H|H].
    + inversion H; subst. exists k. left.
    + destruct (IH _ H) as (j' & Hj). exists j'. by right.
Qed.

Lemma relabel_Sorted keys i l :
  Sorted (key_le keys) l -> Sorted (key_le keys) (relabel i l).
Proof.
  revert i. induction l as [|x l IH]; intros i Hs; simpl; [constructor|].
  apply Sorted_inv in Hs as [Hs Hhd]. constructor; [by apply IH|].
  destruct l as [|y l]; simpl; constructor. by inversion Hhd.
Qed.

Lemma sort_values_Ok d keys d' :
  sort_values d keys = Ok d' ->
  columns d' = columns d /\ rows d' = sort_rows keys (rows d).
Proof.
  unfold sort_values. intros H. apply bind_Ok in H as ([] & _ & H).
  destruct (forallb _ keys); [|discriminate]. by inversion H.
Qed.

(** ** The rows of the study table *)

Ltac eqb_literals :=
  repeat match goal with
         | |- context [String.eqb ?a ?b] =>
             let v := eval vm_compute in (String.eqb a b) in
             change (String.eqb a b) with v
         end;
  cbv iota.

Ltac cells := repeat (rewrite cell_insert; eqb_literals).

Lemma cell_lookup (r : row) c v : r !! c = Some v -> cell r c = v.
Proof. unfold cell. by intros ->. Qed.

Lemma numeric_same d d' c r r' :
  has_col d' c = has_col d c -> cell r' c = cell r c ->
  Study.numeric d' c r' = Study.numeric d c r.
Proof. unfold Study.numeric, df_get. by intros -> ->. Qed.

Lemma concat_extract_Ok d d' :
  Study.concat_extract d = Ok d' ->
  columns d' = app (columns d) Study.group_names /\
  forall i r', (i, r') ∈ rows d' ->
    exists r, (i, r) ∈ rows d /\
      r' = <["option" := (Study.str_extract (cell r "instrument_name")).2]>
           (<["strike" := (Study.str_extract (cell r "instrument_name")).1.2]>
           (<["expiration" := (Study.str_extract (cell r "instrument_name")).1.1.2]>
           (<["underlying" := (Study.str_extract (cell r "instrument_name")).1.1.1]> r))).
Proof.
  unfold Study.concat_extract. intros H. apply bind_Ok in H as ([] & _ & H).
  destruct (negb _); [discriminate|].
  destruct (existsb _ _); [discriminate|]. inversion H; subst; clear H.
  simpl. split; [done|]. intros i r' Hin.
  apply list_elem_of_fmap in Hin as ([j r] & Heq & Hin). simpl in Heq.
  exists r. destruct (Study.str_extract (cell r "instrument_name")) as [[[u e] k] o].
  inversion Heq; subst. by split.
Qed.

Lemma setitem_Ok d c f d' :
  setitem d c f = Ok d' ->
  columns d' = add_col (columns d) c /\
  forall i r', (i, r') ∈ rows d' ->
    exists r, (i, r) ∈ rows d /\ r' = <[c := f d r]> r.
Proof.
  unfold setitem. intros H. inversion H; subst; clear H. split; [done|].
  intros i r'. apply elem_of_assign.
Qed.

Ltac in_list :=
  apply list_elem_of_In; vm_compute;
  repeat first [ left; reflexivity | right ].

Ltac not_in_list :=
  let H := fresh in
  intros H; apply list_elem_of_In in H; vm_compute in H;
  intuition discriminate.

Lemma cell_eq (r r' : row) (c c' : string) (v : obj) :
  r' = <[c := v]> r -> cell r' c' = if String.eqb c c' then v else cell r c'.
Proof. intros ->. apply cell_insert. Qed.

(** A cell of a later row is traced back through the assignments that
    produced the row. *)
Ltac cell_down :=
  repeat match goal with
         | E : ?x = <[?c := ?v]> ?y |- context [cell ?x ?c'] =>
             rewrite (cell_eq y x c c' v E); eqb_literals
         | |- context [cell (<[_ := _]> _) _] => rewrite cell_insert; eqb_literals
         end.

Lemma has_col_setitem d c f d' c' :
  setitem d c f = Ok d' -> has_col d' c' = has_col d c' || String.eqb c' c.
Proof. intros H. inversion H. apply has_col_assign. Qed.

Lemma has_col_assignR d c f d' c' :
  assignR d c f = Ok d' -> has_col d' c' = has_col d c' || String.eqb c' c.
Proof.
  intros H. destruct (assignR_Ok _ _ _ _ H) as (C & _).
  unfold has_col. rewrite C. apply has_col_add.
Qed.

Lemma has_col_dropna d cs d' c' :
  dropna d cs = Ok d' -> has_col d' c' = has_col d c'.
Proof. intros H. by rewrite (dropna_Ok _ _ _ H). Qed.

Lemma has_col_concat_extract d d' c' :
  Study.concat_extract d = Ok d' ->
  has_col d' c' = has_col d c' || existsb (str_eqb c') Study.group_names.
Proof.
  intros H. destruct (concat_extract_Ok _ _ H) as [C _].
  unfold has_col. rewrite C. apply existsb_app.
Qed.

(** Whether a later table has a column, in terms of the first table. *)
Ltac cols :=
  repeat match goal with
         | E : setitem ?d _ _ = Ok ?d' |- context [has_col ?d' _] =>
             rewrite (has_col_setitem _ _ _ _ _ E)
         | E : assignR ?d _ _ = Ok ?d' |- context [has_col ?d' _] =>
             rewrite (has_col_assignR _ _ _ _ _ E)
         | E : dropna ?d _ = Ok ?d' |- context [has_col ?d' _] =>
             rewrite (has_col_dropna _ _ _ _ E)
         | E : Study.concat_extract ?d = Ok ?d' |- context [has_col ?d' _] =>
             rewrite (has_col_concat_extract _ _ _ E)
         end;
  eqb_literals; vm_compute existsb; rewrite ?orb_false_r.

Lemma sorted_frame_row d pre i r' :
  Study.sorted_frame d = Ok pre -> (i, r') ∈ rows pre ->
  exists r s u e k o t,
    (i, r) ∈ rows d /\
    cell r "instrument_name" = VStr s /\
    INSTRUMENT_RE s = Some (u, e, k, o) /\
    strptime_dby e = Some t /\
    cell r' "underlying_symbol" = VStr u /\
    cell r' "expiration" = VTimestamp t /\
    cell r' "strike" = VFloat (to_numeric (VStr k)) /\
    cell r' "option_type" = Study.map_option (VStr o) /\
    Study.quote_date_of r = Ok (cell r' "quote_date") /\
    Study.fallback_value (Study.numeric d "best_bid_price" r) (cell r "bids")
      = Ok (cell r' "bid") /\
    Study.fallback_value (Study.numeric d "best_ask_price" r) (cell r "asks")
      = Ok (cell r' "ask") /\
    cell r' "underlying_price" = Study.underlying_of d r /\
    (forall c, c ∈ Study.required_columns -> isna (cell r' c) = false) /\
    Study.positive_quotes r' = true.
Proof.
  intros H Hin. unfold Study.sorted_frame in H.
  apply bind_Ok in H as (d1 & E1 & H).
  apply bind_Ok in H as (d2 & E2 & H).
  apply bind_Ok in H as ([] & E3 & H).
  apply bind_Ok in H as (d4 & E4 & H).
  apply bind_Ok in H as (d5 & E5 & H).
  apply bind_Ok in H as (d6 & E6 & H).
  apply bind_Ok in H as (d7 & E7 & H).
  apply bind_Ok in H as (d8 & E8 & H).
  apply bind_Ok in H as (d9 & E9 & H).
  apply bind_Ok in H as (d10 & E10 & H).
  apply bind_Ok in H as ([] & E11 & H).
  apply bind_Ok in H as (d12 & E12 & H).
  apply bind_Ok in H as ([] & E13 & H).
  apply bind_Ok in H as (d14 & E14 & H).
  apply bind_Ok in H as (d15 & E15 & H).
  apply bind_Ok in H as (d16 & E16 & H).
  apply bind_Ok in H as (d17 & E17 & H).
  apply bind_Ok in H as (d18 & E18 & H).
  apply bind_Ok in H as (d19 & E19 & H).
  apply bind_Ok in H as (d20 & E20 & H).
  apply bind_Ok in H as (d21 & E21 & H).
  apply bind_Ok in H as (d22 & E22 & H).
  apply bind_Ok in H as (d23 & E23 & H).
  apply sort_values_Ok in H as [_ Hrows].
  rewrite Hrows, sort_rows_perm in Hin. clear Hrows.
  inversion E23; subst d23; clear E23.
  apply elem_of_select in Hin as [Hin Hpos].
  destruct (elem_of_dropna _ _ _ _ _ E22 Hin) as [Hin21 Hreq].
  inversion E21; subst d21; clear E21.
  apply elem_of_rename in Hin21 as (r20 & Hin20 & Hsame & Hsym).
  destruct (project_Ok _ _ _ E20) as [_ Hproj].
  destruct (Hproj _ _ Hin20) as (r19 & Hin19 & Hc19).
  destruct (setitem_Ok _ _ _ _ E19) as [C19 R19].
  destruct (R19 _ _ Hin19) as (r18 & Hin18 & Er19).
  destruct (setitem_Ok _ _ _ _ E18) as [C18 R18].
  destruct (R18 _ _ Hin18) as (r17 & Hin17 & Er18).
  destruct (setitem_Ok _ _ _ _ E17) as [C17 R17].
  destruct (R17 _ _ Hin17) as (r16 & Hin16 & Er17).
  destruct (setitem_Ok _ _ _ _ E16) as [C16 R16].
  destruct (R16 _ _ Hin16) as (r15 & Hin15 & Er16).
  destruct (setitem_Ok _ _ _ _ E15) as [C15 R15].
  destruct (R15 _ _ Hin15) as (r14 & Hin14 & Er15).
  destruct (assignR_Ok _ _ _ _ E14) as (C14 & R14 & _).
  destruct (R14 _ _ Hin14) as (r12 & va & Hin12 & Hva & Er14).
  destruct (assignR_Ok _ _ _ _ E12) as (C12 & R12 & _).
  destruct (R12 _ _ Hin12) as (r10 & vb & Hin10 & Hvb & Er12).
  destruct (setitem_Ok _ _ _ _ E10) as [C10 R10].
  destruct (R10 _ _ Hin10) as (r9 & Hin9 & Er10).
  destruct (setitem_Ok _ _ _ _ E9) as [C9 R9].
  destruct (R9 _ _ Hin9) as (r8 & Hin8 & Er9).
  destruct (setitem_Ok _ _ _ _ E8) as [C8 R8].
  destruct (R8 _ _ Hin8) as (r7 & Hin7 & Er8).
  destruct (setitem_Ok _ _ _ _ E7) as [C7 R7].
  destruct (R7 _ _ Hin7) as (r6 & Hin6 & Er7).
  destruct (elem_of_dropna _ _ _ _ _ E6 Hin6) as [Hin5 Hexp].
  destruct (setitem_Ok _ _ _ _ E5) as [C5 R5].
  destruct (R5 _ _ Hin5) as (r4 & Hin4 & Er5).
  destruct (assignR_Ok _ _ _ _ E4) as (C4 & R4 & _).
  destruct (R4 _ _ Hin4) as (r2 & vq & Hin2 & Hvq & Er4).
  destruct (elem_of_dropna _ _ _ _ _ E2 Hin2) as [Hin1 Hgrp].
  destruct (concat_extract_Ok _ _ E1) as [C1 R1].
  destruct (R1 _ _ Hin1) as (r & Hinr & Er1).
  clear R1 R4 R5 R7 R8 R9 R10 R12 R14 R15 R16 R17 R18 R19 Hproj.
  clear Hin Hin20 Hin19 Hin18 Hin17 Hin16 Hin15 Hin14 Hin12 Hin10 Hin9 Hin8
    Hin7 Hin6 Hin5 Hin4 Hin2 Hin1 C1 C4 C5 C7 C8 C9 C10 C12 C14 C15 C16 C17 C18 C19.
  assert (Hname : exists s u e k o, cell r "instrument_name" = VStr s /\
            INSTRUMENT_RE s = Some (u, e, k, o) /\
            Study.str_extract (cell r "instrument_name")
              = (VStr u, VStr e, VStr k, VStr o)).
  { pose proof (Hgrp "underlying" ltac:(in_list)) as Hu.
    revert Hu. cell_down. unfold Study.str_extract.
    destruct (cell r "instrument_name") as [| | | |s| | | | |]; try done.
    destruct (INSTRUMENT_RE s) as [[[[u e] k] o]|] eqn:Hre; [|done].
    intros _. by exists s, u, e, k, o. }
  destruct Hname as (s & u & e & k & o & Hs & Hre & Hext).
  rewrite Hext in Er1. simpl in Er1.
  assert (Ht : exists t, strptime_dby e = Some t /\
                         cell r6 "expiration" = VTimestamp t).
  { pose proof (Hexp "expiration" ltac:(in_list)) as Hx.
    revert Hx. cell_down. unfold to_datetime_dby.
    destruct (strptime_dby e) as [t|]; [|done]. intros _. by exists t. }
  destruct Ht as (t & Ht & Hexp6).
  assert (Hts : cell r2 "timestamp" = cell r "timestamp") by (by cell_down).
  assert (Hbid : Study.fallback_value (Study.numeric d "best_bid_price" r) (cell r "bids") = Ok vb).
  { rewrite <- Hvb. unfold Study.ladder_fallback. cell_down. f_equal.
    apply eq_sym, numeric_same; [by cols | by cell_down]. }
  assert (Hask : Study.fallback_value (Study.numeric d "best_ask_price" r) (cell r "asks") = Ok va).
  { rewrite <- Hva. unfold Study.ladder_fallback. cell_down. f_equal.
    apply eq_sym, numeric_same; [by cols | by cell_down]. }
  assert (Hund : cell r16 "underlying_price" = Study.underlying_of d r).
  { cell_down. unfold Study.fill_underlying, Study.underlying_of. cell_down.
    rewrite (numeric_same d d14 "underlying_price" r r14) by (by cols || by cell_down).
    rewrite (numeric_same d d15 "index_price" r r15) by (by cols || by cell_down).
    done. }
  assert (Hc20 : forall c, c ∈ Study.output_columns -> cell r20 c = cell r19 c).
  { intros c Hc. by apply cell_lookup, Hc19. }
  exists r, s, u, e, k, o, t.
  split; [done|]. split; [done|]. split; [done|]. split; [done|].
  split. { rewrite Hsym by (rewrite (Hc19 "underlying") by in_list; eauto).
           rewrite Hc20 by in_list. by cell_down. }
  split. { rewrite Hsame, Hc20 by (done || in_list). cell_down.
           unfold to_datetime_dby. by rewrite Ht. }
  split. { rewrite Hsame, Hc20 by (done || in_list). by cell_down. }
  split. { rewrite Hsame, Hc20 by (done || in_list). by cell_down. }
  split. { rewrite Hsame, Hc20 by (done || in_list). cell_down.
           unfold Study.quote_date_of in *. by rewrite <- Hts. }
  split. { rewrite Hsame, Hc20 by (done || in_list). by cell_down. }
  split. { rewrite Hsame, Hc20 by (done || in_list). by cell_down. }
  split. { rewrite Hsame, Hc20 by (done || in_list). rewrite <- Hund. by cell_down. }
  split; done.
Qed.

(** ** The rows of the monolith table *)

Lemma assign_parsed_Ok d d' :
  Monolith.assign_parsed d = Ok d' ->
  (forall c, has_col d' c =
     has_col d c
     || existsb (str_eqb c) ["underlying_symbol"; "expiration"; "strike"; "option_type"]) /\
  (forall i r', (i, r') ∈ rows d' ->
     exists r symbol expiration strike option_type,
       (i, r) ∈ rows d /\
       Monolith._split_instrument (cell r "instrument_name")
         = Ok (symbol, expiration, strike, option_type) /\
       r' = <["option_type" := option_type]> (<["strike" := strike]>
              (<["expiration" := expiration]>
                 (<["underlying_symbol" := symbol]> r)))) /\
  map fst (rows d') = map fst (rows d).
Proof.
  unfold Monolith.assign_parsed. intros H. apply bind_Ok in H as (rs & Hrs & H).
  inversion H; subst; clear H. split; [|split].
  - intros c. unfold has_col. simpl columns. rewrite !has_col_add. simpl.
    unfold str_eqb. by rewrite !orb_assoc, orb_false_r.
  - simpl. intros i r' Hin.
    destruct (mapR_Ok_elem _ _ _ _ Hrs Hin) as ([j r] & Hj & Hf). simpl in Hf.
    destruct (Monolith._split_instrument (cell r "instrument_name"))
      as [[[[sy ex] st] ot]|] eqn:E; simpl in Hf; [|discriminate].
    inversion Hf; subst. by exists r, sy, ex, st, ot.
  - simpl. clear -Hrs. revert rs Hrs.
    induction (rows d) as [|[j r] l IH]; simpl; intros rs H.
    + by inversion H.
    + destruct (Monolith._split_instrument _) as [[[[sy ex] st] ot]|];
        simpl in H; [|discriminate].
      destruct (mapR _ l) as [bs|] eqn:E; simpl in H; [|discriminate].
      inversion H; subst. simpl. by rewrite (IH bs).
Qed.

Lemma apply_safe_float_Ok c d d' :
  Monolith.apply_safe_float c d = Ok d' ->
  has_col d c = true /\ assignR d c (Monolith.safe_float_of c) = Ok d'.
Proof.
  unfold Monolith.apply_safe_float, require. intros H.
  destruct (has_col d c); simpl in H; [done | discriminate].
Qed.

Lemma coerce_cols_Ok cs d d' :
  Monolith.coerce_cols cs d = Ok d' ->
  (forall c, has_col d' c = has_col d c) /\
  map fst (rows d') = map fst (rows d) /\
  forall i r', (i, r') ∈ rows d' ->
    exists r, (i, r) ∈ rows d /\
      (forall c, c ∉ cs -> cell r' c = cell r c) /\
      (forall c, c ∈ cs -> NoDup cs -> has_col d c = true ->
                 Monolith.safe_float_of c r = Ok (cell r' c)).
Proof.
  revert d. induction cs as [|x cs IH]; simpl; intros d H.
  - inversion H; subst. split; [done|]. split; [done|]. intros i r' Hin.
    exists r'. split; [done|]. split; [done|]. intros c Hc. by apply elem_of_nil in Hc.
  - apply bind_Ok in H as (d1 & E1 & H).
    destruct (IH _ H) as (Hcols & Hlab & Hrows). clear IH.
    destruct (has_col d x) eqn:Hx.
    + apply apply_safe_float_Ok in E1 as [_ E1].
      assert (Hc1 : forall c, has_col d1 c = has_col d c).
      { intros c. rewrite (has_col_assignR _ _ _ _ _ E1).
        destruct (String.eqb_spec c x) as [->|]; [by rewrite Hx | by rewrite orb_false_r]. }
      destruct (assignR_Ok _ _ _ _ E1) as (_ & R1 & _ & L1).
      split; [intros c; by rewrite Hcols, Hc1|]. split; [by rewrite Hlab, L1|].
      intros i r' Hin. destruct (Hrows _ _ Hin) as (r1 & Hin1 & Hout & Hin').
      destruct (R1 _ _ Hin1) as (r & v & Hr & Hv & ->).
      exists r. split; [done|]. split.
      * intros c Hc. apply not_elem_of_cons in Hc as [Hne Hc].
        rewrite (Hout c Hc), cell_insert.
        destruct (String.eqb_spec x c); [congruence | done].
      * intros c Hc Hnd Hhas. apply NoDup_cons in Hnd as [Hnx Hnd].
        apply elem_of_cons in Hc as [->|Hc].
        -- rewrite (Hout x Hnx), cell_insert, String.eqb_refl. done.
        -- rewrite <- (Hin' c Hc Hnd) by (by rewrite Hc1).
           unfold Monolith.safe_float_of. rewrite cell_insert.
           destruct (String.eqb_spec x c) as [->|]; [done | done].
    + inversion E1; subst d1; clear E1.
      split; [done|]. split; [done|].
      intros i r' Hin. destruct (Hrows _ _ Hin) as (r & Hr & Hout & Hin').
      exists r. split; [done|]. split.
      * intros c Hc. apply not_elem_of_cons in Hc as [Hne Hc]. by apply Hout.
      * intros c Hc Hnd Hhas. apply NoDup_cons in Hnd as [Hnx Hnd].
        apply elem_of_cons in Hc as [->|Hc]; [congruence | by apply Hin'].
Qed.

Lemma apply_get_safe_float_Ok c name d d' :
  Monolith.apply_get_safe_float c name d = Ok d' ->
  assignR d c (Monolith.safe_float_of name) = Ok d'.
Proof.
  unfold Monolith.apply_get_safe_float. by destruct (has_col d name).
Qed.

Lemma project_has_col d cs d' c :
  project d cs = Ok d' -> c ∈ cs -> has_col d c = true.
Proof.
  unfold project. intros H Hc. apply bind_Ok in H as ([] & Hreq & _).
  by apply (require_all_Ok d cs).
Qed.

Lemma numeric_cols_NoDup : NoDup Monolith.numeric_cols.
Proof. apply (bool_decide_unpack (NoDup Monolith.numeric_cols)). by vm_compute. Qed.

Lemma normalize_row src out i r' :
  Monolith.normalize_deribit_csv src = Ok out -> (i, r') ∈ rows out ->
  exists r symbol expiration strike option_type top_bid top_ask,
    (i, r) ∈ rows src /\
    Monolith._split_instrument (cell r "instrument_name")
      = Ok (symbol, expiration, strike, option_type) /\
    cell r' "underlying_symbol" = symbol /\
    cell r' "expiration" = expiration /\
    cell r' "strike" = strike /\
    cell r' "option_type" = option_type /\
    cell r' "quote_date" = to_datetime_ms_coerce (cell r "timestamp") /\
    Monolith.safe_float_of "best_bid_price" r = Ok top_bid /\
    Monolith.fallback_value top_bid (cell r "bids") = Ok (cell r' "bid") /\
    Monolith.safe_float_of "best_ask_price" r = Ok top_ask /\
    Monolith.fallback_value top_ask (cell r "asks") = Ok (cell r' "ask") /\
    Monolith.safe_float_of "underlying_price" r = Ok (cell r' "underlying_price") /\
    (forall c, c ∈ Monolith.required_columns -> isna (cell r' c) = false) /\
    Monolith.positive_quotes r' = true /\
    (forall c, c ∈ ["instrument_name"; "timestamp"; "best_bid_price"; "best_ask_price"] ->
               cell r' c = cell r c).
Proof.
  intros H Hin. unfold Monolith.normalize_deribit_csv in H.
  apply bind_Ok in H as ([] & E0 & H).
  apply bind_Ok in H as (d1 & E1 & H).
  apply bind_Ok in H as ([] & E2 & H).
  apply bind_Ok in H as (d3 & E3 & H).
  apply bind_Ok in H as ([] & E4 & H).
  apply bind_Ok in H as (d5 & E5 & H).
  apply bind_Ok in H as ([] & E6 & H).
  apply bind_Ok in H as (d7 & E7 & H).
  apply bind_Ok in H as ([] & E8 & H).
  apply bind_Ok in H as (d9 & E9 & H).
  apply bind_Ok in H as ([] & E10 & H).
  apply bind_Ok in H as (d11 & E11 & H).
  apply bind_Ok in H as (d12 & E12 & H).
  apply bind_Ok in H as (d13 & E13 & H).
  apply bind_Ok in H as (d14 & E14 & H).
  apply bind_Ok in H as (d15 & E15 & H).
  apply bind_Ok in H as (d16 & E16 & H).
  inversion H; subst out; clear H.
  apply elem_of_select in Hin as [Hin Hpos].
  destruct (elem_of_dropna _ _ _ _ _ E16 Hin) as [Hin15 Hreq].
  destruct (project_Ok _ _ _ E15) as [_ Hproj].
  destruct (Hproj _ _ Hin15) as (r14 & Hin14 & Hc14).
  pose proof (project_has_col _ _ _ "underlying_price" E15 ltac:(in_list)) as Hup.
  destruct (coerce_cols_Ok _ _ _ E14) as (C14 & _ & R14).
  destruct (R14 _ _ Hin14) as (r13 & Hin13 & Hout13 & Hnum13).
  rewrite C14 in Hup.
  pose proof (Hnum13 "underlying_price" ltac:(in_list) numeric_cols_NoDup Hup) as Hunder.
  apply apply_get_safe_float_Ok in E13, E12.
  destruct (assignR_Ok _ _ _ _ E13) as (_ & R13 & _).
  destruct (R13 _ _ Hin13) as (r12 & vv & Hin12 & _ & Er13).
  destruct (assignR_Ok _ _ _ _ E12) as (_ & R12 & _).
  destruct (R12 _ _ Hin12) as (r11 & vd & Hin11 & _ & Er12).
  destruct (assignR_Ok _ _ _ _ E11) as (_ & R11 & _).
  destruct (R11 _ _ Hin11) as (r9 & va & Hin9 & Hva & Er11).
  destruct (assignR_Ok _ _ _ _ E9) as (_ & R9 & _).
  destruct (R9 _ _ Hin9) as (r7 & vb & Hin7 & Hvb & Er9).
  destruct (assignR_Ok _ _ _ _ E7) as (_ & R7 & _).
  destruct (R7 _ _ Hin7) as (r5 & ta & Hin5 & Hta & Er7).
  destruct (assignR_Ok _ _ _ _ E5) as (_ & R5 & _).
  destruct (R5 _ _ Hin5) as (r3 & tb & Hin3 & Htb & Er5).
  destruct (setitem_Ok _ _ _ _ E3) as (_ & R3).
  destruct (R3 _ _ Hin3) as (r1 & Hin1 & Er3).
  destruct (assign_parsed_Ok _ _ E1) as (_ & R1 & _).
  destruct (R1 _ _ Hin1) as (r & sy & ex & st & ot & Hinr & Hsplit & Er1).
  clear R1 R3 R5 R7 R9 R11 R12 R13 R14 Hproj Hnum13.
  assert (Hc15 : forall c, c ∈ Monolith.output_columns -> cell r' c = cell r14 c).
  { intros c Hc. by apply cell_lookup, Hc14. }
  exists r, sy, ex, st, ot, tb, ta.
  split; [done|]. split; [done|].
  split. { rewrite Hc15, Hout13 by (in_list || not_in_list). by cell_down. }
  split. { rewrite Hc15, Hout13 by (in_list || not_in_list). by cell_down. }
  split. { rewrite Hc15, Hout13 by (in_list || not_in_list). by cell_down. }
  split. { rewrite Hc15, Hout13 by (in_list || not_in_list). by cell_down. }
  split. { rewrite Hc15, Hout13 by (in_list || not_in_list). by cell_down. }
  split. { rewrite <- Htb. unfold Monolith.safe_float_of. by cell_down. }
  split. { rewrite Hc15, Hout13 by (in_list || not_in_list). cell_down.
           rewrite <- Hvb. unfold Monolith.ladder_fallback. by cell_down. }
  split. { rewrite <- Hta. unfold Monolith.safe_float_of. by cell_down. }
  split. { rewrite Hc15, Hout13 by (in_list || not_in_list). cell_down.
           rewrite <- Hva. unfold Monolith.ladder_fallback. by cell_down. }
  split. { rewrite Hc15 by in_list. rewrite <- Hunder.
           unfold Monolith.safe_float_of. by cell_down. }
  split; [done|]. split; [done|].
  intros c Hc. apply list_elem_of_In in Hc. simpl in Hc.
  destruct Hc as [<-|[<-|[<-|[<-|[]]]]];
    (rewrite Hc15, Hout13 by (in_list || not_in_list); by cell_down).
Qed.

(** ** What the study call returns *)

Lemma study_returns_frame h raw d out :
  h !! raw = Some d -> study_returns h raw out ->
  exists pre, Study.sorted_frame d = Ok pre /\ out = reset_index pre.
Proof.
  intros Hraw (l & h' & Hrun & Hout).
  destruct (run_to_optopsy_frame raw h d Hraw) as (h1 & _ & Hrun').
  rewrite Hrun in Hrun'. unfold Study.frame in Hrun'.
  destruct (Study.sorted_frame d) as [pre|e]; simpl in Hrun'; [|discriminate].
  inversion Hrun'; subst. rewrite lookup_last in Hout.
  inversion Hout; subst. by exists pre.
Qed.

Lemma frame_study_returns h raw d out :
  h !! raw = Some d -> Study.frame d = Ok out -> study_returns h raw out.
Proof.
  intros Hraw Hf.
  destruct (run_to_optopsy_frame raw h d Hraw) as (h1 & _ & Hrun).
  rewrite Hf in Hrun. exists (length h1), (app h1 [out]).
  split; [done | apply lookup_last].
Qed.

Lemma run_study_frame raw :
  Study.run_study raw =
  match Study.frame raw with
  | Ok data => if empty data then Raised Study.no_rows_error else Backtest data
  | Raise e => Raised e
  end.
Proof.
  unfold Study.run_study. rewrite run_bind.
  destruct (run_to_optopsy_frame 0%nat [raw] raw eq_refl) as (h1 & _ & Hrun).
  rewrite Hrun. destruct (Study.frame raw) as [out|e]; [|done].
  unfold load. by rewrite lookup_last.
Qed.

Lemma elem_of_reset_index pre j r' :
  (j, r') ∈ rows (reset_index pre) -> exists i, (i, r') ∈ rows pre.
Proof. apply elem_of_relabel. Qed.

Lemma relabel_lookup (l : list (Z * row)) (z : Z) (k : nat) i r :
  l !! k = Some (i, r) -> relabel z l !! k = Some (z + Z.of_nat k, r).
Proof.
  revert z k. induction l as [|[j x] l IH]; intros z k H; [done|].
  destruct k as [|k]; simpl in *.
  - inversion H; subst. by rewrite Z.add_0_r.
  - rewrite (IH (z + 1) k H). do 2 f_equal. lia.
Qed.

(** The k-th row of the sorted table is the k-th row returned, under
    the label k. *)
Lemma reset_index_lookup pre (k : nat) i r :
  rows pre !! k = Some (i, r) ->
  rows (reset_index pre) !! k = Some (Z.of_nat k, r).
Proof. intros H. simpl. by rewrite (relabel_lookup _ 0 k i r H). Qed.

(** ** Positivity *)

Lemma gt0_is_number v : Study.gt0 v = true -> is_number v.
Proof.
  destruct v as [| | |f| | | | | |]; try done. intros H. exists f.
  split; [done|]. by destruct f.
Qed.

Lemma notna_float f : isna (VFloat f) = false -> isnan f = false.
Proof. by destruct f. Qed.

(** C1, as the code has it. In both variants every row of the output
    has [bid > 0] and [ask > 0] and a strike that is a number; in the
    study variant the underlying price is a number too. Neither variant
    tests the sign of the strike or of the underlying price. *)
Theorem quotes_positive :
  (forall h raw d out ir,
     h !! raw = Some d -> study_returns h raw out -> ir ∈ rows out ->
     Study.gt0 (cell ir.2 "bid") = true /\
     Study.gt0 (cell ir.2 "ask") = true /\
     is_number (cell ir.2 "strike") /\
     is_number (cell ir.2 "underlying_price")) /\
  (forall src out ir,
     Monolith.normalize_deribit_csv src = Ok out -> ir ∈ rows out ->
     Study.gt0 (cell ir.2 "bid") = true /\
     Study.gt0 (cell ir.2 "ask") = true /\
     is_number (cell ir.2 "strike")).
Proof.
  split.
  - intros h raw d out [j r'] Hraw Hret Hin.
    destruct (study_returns_frame _ _ _ _ Hraw Hret) as (pre & Hpre & ->).
    apply elem_of_reset_index in Hin as (i & Hin). simpl.
    destruct (sorted_frame_row _ _ _ _ Hpre Hin)
      as (r & s & u & e & k & o & t & _ & _ & _ & _ & _ & _ & Hk & _ & _ & _ & _
          & Hu & Hreq & Hpos).
    unfold Study.positive_quotes in Hpos. apply andb_true_iff in Hpos as [Hb Ha].
    split; [done|]. split; [done|]. split.
    + pose proof (Hreq "strike" ltac:(in_list)) as Hs. rewrite Hk in Hs |- *.
      eexists. split; [done | by apply notna_float].
    + pose proof (Hreq "underlying_price" ltac:(in_list)) as Hs.
      rewrite Hu in Hs |- *. unfold Study.underlying_of, Study.numeric in *.
      destruct (isna _); eexists; (split; [done | by apply notna_float]).
  - intros src out [i r'] Hn Hin. simpl.
    destruct (normalize_row _ _ _ _ Hn Hin)
      as (r & sy & ex & st & ot & tb & ta & _ & Hsplit & _ & _ & Hst & _ & _ & _
          & _ & _ & _ & _ & Hreq & Hpos & _).
    unfold Monolith.positive_quotes in Hpos. apply andb_true_iff in Hpos as [Hb Ha].
    split; [done|]. split; [done|].
    pose proof (Hreq "strike" ltac:(in_list)) as Hs. rewrite Hst in Hs |- *.
    clear Hst. unfold Monolith._split_instrument in Hsplit.
    destruct (cell r "instrument_name") as [| | | |s| | | | |]; try done.
    destruct (split_on "-" s) as [|a [|b [|c [|x [|? ?]]]]];
      try (by inversion Hsplit; subst; simpl in Hs).
    apply bind_Ok in Hsplit as (f & _ & Hf). inversion Hf; subst.
    exists f. split; [done | by apply notna_float].
Qed.

Lemma one_quote_returns : study_returns [one_quote] 0%nat one_quote_out.
Proof. apply (frame_study_returns _ _ one_quote); [done | by vm_compute]. Qed.

Lemma quotes_positive_witness :
  [one_quote] !! 0%nat = Some one_quote /\
  study_returns [one_quote] 0%nat one_quote_out /\
  first_row one_quote_out ∈ rows one_quote_out /\
  Study.gt0 (cell (first_row one_quote_out).2 "bid") = true /\
  Study.gt0 (cell (first_row one_quote_out).2 "ask") = true /\
  is_number (cell (first_row one_quote_out).2 "strike") /\
  is_number (cell (first_row one_quote_out).2 "underlying_price").
Proof.
  split; [reflexivity|]. split; [exact one_quote_returns|].
  split; [left|].
  exact (proj1 quotes_positive [one_quote] 0%nat one_quote one_quote_out
           (first_row one_quote_out) eq_refl one_quote_returns
           (list_elem_of_here _ _)).
Defined.

(** C1 as stated fails: the study keeps a quote with strike 0 and a
    negative underlying price. *)
Lemma positivity_counterexample :
  exists out ir,
    study_returns [zero_strike] 0%nat out /\ ir ∈ rows out /\
    cell ir.2 "strike" = VFloat (Fin 0) /\
    cell ir.2 "underlying_price" = VFloat (Fin (-5)) /\
    all_positive ir.2 = false.
Proof.
  eexists. eexists. split.
  - apply (frame_study_returns _ _ zero_strike); [done|]. vm_compute. reflexivity.
  - split; [left|]. by vm_compute.
Qed.

(** ** Order and labels *)

Lemma setitem_labels d c f d' : setitem d c f = Ok d' -> labels d' = labels d.
Proof.
  intros H. inversion H; subst. unfold labels. simpl.
  rewrite map_map. by apply map_ext.
Qed.

Lemma assignR_labels d c f d' : assignR d c f = Ok d' -> labels d' = labels d.
Proof. intros H. by destruct (assignR_Ok _ _ _ _ H) as (_ & _ & _ & L). Qed.

Lemma project_labels d cs d' : project d cs = Ok d' -> labels d' = labels d.
Proof.
  unfold project. intros H. apply bind_Ok in H as ([] & _ & H).
  inversion H; subst. unfold labels. simpl. rewrite map_map. by apply map_ext.
Qed.

Lemma select_labels d p : labels (select d p) `sublist_of` labels d.
Proof.
  unfold labels. simpl. induction (rows d) as [|x l IH]; simpl; [done|].
  destruct (p x.2); simpl; [by apply sublist_skip | by apply sublist_cons].
Qed.

Lemma dropna_labels d cs d' : dropna d cs = Ok d' -> labels d' `sublist_of` labels d.
Proof. intros H. rewrite (dropna_Ok _ _ _ H). apply select_labels. Qed.

(** C2, as the code has it. The study output is in non-decreasing key
    order and its labels are 0, 1, ..., n-1. The monolith neither sorts
    nor relabels: its output keeps the surviving input rows in input
    order under their input labels. *)
Theorem output_order :
  (forall h raw d out,
     h !! raw = Some d -> study_returns h raw out ->
     Sorted (key_le Study.sort_key) (rows out) /\
     labels out = seqZ 0 (Z.of_nat (length (rows out)))) /\
  (forall src out,
     Monolith.normalize_deribit_csv src = Ok out ->
     labels out `sublist_of` labels src).
Proof.
  split.
  - intros h raw d out Hraw Hret.
    destruct (study_returns_frame _ _ _ _ Hraw Hret) as (pre & Hpre & ->).
    unfold Study.sorted_frame in Hpre.
    do 23 (let x := fresh "d" in let E := fresh "E" in
           apply bind_Ok in Hpre as (x & E & Hpre)).
    apply sort_values_Ok in Hpre as [_ Hrows]. split.
    + simpl. rewrite Hrows. apply relabel_Sorted, sort_rows_Sorted.
    + unfold labels. simpl. by rewrite relabel_fst, length_relabel.
  - intros src out H. unfold Monolith.normalize_deribit_csv in H.
    apply bind_Ok in H as ([] & E0 & H).
    apply bind_Ok in H as (d1 & E1 & H).
    apply bind_Ok in H as ([] & E2 & H).
    apply bind_Ok in H as (d3 & E3 & H).
    apply bind_Ok in H as ([] & E4 & H).
    apply bind_Ok in H as (d5 & E5 & H).
    apply bind_Ok in H as ([] & E6 & H).
    apply bind_Ok in H as (d7 & E7 & H).
    apply bind_Ok in H as ([] & E8 & H).
    apply bind_Ok in H as (d9 & E9 & H).
    apply bind_Ok in H as ([] & E10 & H).
    apply bind_Ok in H as (d11 & E11 & H).
    apply bind_Ok in H as (d12 & E12 & H).
    apply bind_Ok in H as (d13 & E13 & H).
    apply bind_Ok in H as (d14 & E14 & H).
    apply bind_Ok in H as (d15 & E15 & H).
    apply bind_Ok in H as (d16 & E16 & H).
    inversion H; subst out; clear H.
    etrans; [apply select_labels|]. etrans; [by eapply dropna_labels|].
    rewrite (project_labels _ _ _ E15).
    destruct (coerce_cols_Ok _ _ _ E14) as (_ & L14 & _).
    apply apply_get_safe_float_Ok in E13, E12.
    destruct (assign_parsed_Ok _ _ E1) as (_ & _ & L1).
    change (labels d14 = labels d13) in L14.
    change (labels d1 = labels src) in L1.
    by rewrite L14, (assignR_labels _ _ _ _ E13), (assignR_labels _ _ _ _ E12),
      (assignR_labels _ _ _ _ E11), (assignR_labels _ _ _ _ E9),
      (assignR_labels _ _ _ _ E7), (assignR_labels _ _ _ _ E5),
      (setitem_labels _ _ _ _ E3), L1.
Qed.

Lemma later_first_study_returns :
  study_returns [later_first_study] 0%nat later_first_study_out.
Proof.
  apply (frame_study_returns _ _ later_first_study); [done | by vm_compute].
Qed.

Lemma output_order_witness :
  [later_first_study] !! 0%nat = Some later_first_study /\
  study_returns [later_first_study] 0%nat later_first_study_out /\
  labels later_first_study = [0; 1; 2] /\
  labels later_first_study_pre = [2; 1] /\
  map (fun ir => cell ir.2 "quote_date") (rows later_first_study_out)
    = [VTimestamp 1753000000000; VTimestamp 1754000000000] /\
  Sorted (key_le Study.sort_key) (rows later_first_study_out) /\
  labels later_first_study_out
    = seqZ 0 (Z.of_nat (length (rows later_first_study_out))) /\
  labels later_first_study_out = [0; 1].
Proof.
  split; [reflexivity|]. split; [exact later_first_study_returns|].
  split; [reflexivity|]. split; [reflexivity|]. split; [reflexivity|].
  destruct (proj1 output_order [later_first_study] 0%nat later_first_study
              later_first_study_out eq_refl later_first_study_returns) as [HS HL].
  split; [exact HS|]. split; [exact HL|]. reflexivity.
Defined.

(** C2 as stated fails on the monolith: of a perpetual and two calls,
    the later quote first, it returns the two calls in input order, the
    later quote first, under their input labels 1 and 2. *)
Lemma order_counterexample :
  exists out,
    Monolith.normalize_deribit_csv later_first = Ok out /\
    labels out = [1; 2] /\
    map (fun ir => cell ir.2 "quote_date") (rows out)
      = [VTimestamp 1754000000000; VTimestamp 1753000000000] /\
    ~ Sorted (key_le Study.sort_key) (rows out).
Proof.
  eexists. split; [by vm_compute|]. split; [by vm_compute|].
  split; [by vm_compute|].
  intros HS. apply Sorted_inv in HS as [_ Hhd].
  inversion Hhd as [|? ? Hle]. by vm_compute in Hle.
Qed.

(** ** The empty result *)

Lemma require_has d c : has_col d c = true -> require d c = Ok tt.
Proof. unfold require. by intros ->. Qed.

Lemma select_none d p :
  (forall ir, ir ∈ rows d -> p ir.2 = false) -> rows (select d p) = [].
Proof.
  simpl. induction (rows d) as [|x l IH]; intros H; simpl; [done|].
  rewrite (H x) by left. apply IH. intros ir Hin. apply H. by right.
Qed.

Lemma assignR_empty d c f :
  rows d = [] ->
  exists d', assignR d c f = Ok d' /\ rows d' = [] /\
    forall c', has_col d' c' = has_col d c' || String.eqb c' c.
Proof.
  intros Hr. unfold assignR. rewrite Hr. simpl. eexists. split; [done|].
  split; [done|]. intros c'. apply has_col_add.
Qed.

Lemma setitem_empty d c f :
  rows d = [] ->
  exists d', setitem d c f = Ok d' /\ rows d' = [] /\
    forall c', has_col d' c' = has_col d c' || String.eqb c' c.
Proof.
  intros Hr. unfold setitem. eexists. split; [done|]. split.
  - simpl. by rewrite Hr.
  - intros c'. apply has_col_assign.
Qed.

Lemma require_all_has d cs :
  forallb (has_col d) cs = true -> require_all d cs = Ok tt.
Proof.
  induction cs as [|c cs IH]; simpl; [done|]. intros H.
  apply andb_true_iff in H as [Hc Hcs]. by rewrite (require_has _ _ Hc), bind_ret, IH.
Qed.

Lemma dropna_empty d cs :
  rows d = [] -> forallb (has_col d) cs = true ->
  exists d', dropna d cs = Ok d' /\ rows d' = [] /\
    forall c', has_col d' c' = has_col d c'.
Proof.
  intros Hr Hcs. unfold dropna. rewrite (require_all_has _ _ Hcs), bind_ret.
  eexists. split; [done|]. split; [|done]. simpl. by rewrite Hr.
Qed.

Lemma project_empty d cs :
  rows d = [] -> forallb (has_col d) cs = true ->
  exists d', project d cs = Ok d' /\ rows d' = [] /\ columns d' = cs.
Proof.
  intros Hr Hcs. unfold project. rewrite (require_all_has _ _ Hcs), bind_ret.
  eexists. split; [done|]. split; [|done]. simpl. by rewrite Hr.
Qed.

Lemma sort_values_empty d keys :
  rows d = [] -> forallb (has_col d) keys = true ->
  exists d', sort_values d keys = Ok d' /\ rows d' = [].
Proof.
  intros Hr Hcs. unfold sort_values. rewrite (require_all_has _ _ Hcs), bind_ret.
  rewrite Hr. simpl. rewrite (proj2 (forallb_forall _ _)) by done.
  by eexists.
Qed.

Lemma str_accessor_text (l : list (Z * row)) c :
  (forall ir, ir ∈ l -> exists s, cell ir.2 c = VStr s) ->
  Study.str_accessor (map (fun ir => cell ir.2 c) l) = true.
Proof.
  intros H. destruct l as [|x l]; [done|].
  destruct (H x) as (s & Hs); [left|].
  unfold Study.str_accessor. cbn [map existsb]. rewrite Hs. by rewrite orb_true_r.
Qed.

Lemma only_non_options_dropped raw :
  only_non_options raw ->
  exists d1 d2,
    Study.concat_extract raw = Ok d1 /\ dropna d1 Study.group_names = Ok d2 /\
    rows d2 = [] /\
    forall c, has_col d2 c = has_col raw c || existsb (str_eqb c) Study.group_names.
Proof.
  intros (Hname & Hts & Hbids & Hasks & Hgrp & Htext).
  assert (Hrows : forall ir s, ir ∈ rows raw ->
            cell ir.2 "instrument_name" = VStr s -> INSTRUMENT_RE s = None).
  { intros ir s Hin Hs. destruct (Htext ir Hin) as (s' & Hs' & Hre). congruence. }
  destruct (Study.concat_extract raw) as [d1|e] eqn:E1.
  2: { unfold Study.concat_extract in E1.
       rewrite (require_has _ _ Hname), bind_ret, Hgrp in E1.
       rewrite str_accessor_text in E1; [discriminate|].
       intros ir Hin. destruct (Htext ir Hin) as (s & Hs & _). eauto. }
  pose proof (fun c => has_col_concat_extract _ _ c E1) as Hc1.
  destruct (concat_extract_Ok _ _ E1) as [_ R1].
  exists d1. unfold dropna. rewrite require_all_has.
  2: { unfold Study.group_names. cbn [forallb]. rewrite !Hc1.
       unfold Study.group_names, str_eqb. cbn [existsb]. eqb_literals.
       by rewrite !orb_true_r. }
  rewrite bind_ret. eexists. split; [done|]. split; [reflexivity|]. split; [|done].
  apply select_none. intros [i r'] Hin.
  destruct (R1 _ _ Hin) as (r & Hr & ->). simpl. cells.
  unfold Study.str_extract.
  destruct (cell r "instrument_name") as [| | | |s| | | | |] eqn:Es; try done.
  by rewrite (Hrows (i, r) s Hr Es).
Qed.

(** Uses the column facts gathered so far to decide whether a later
    table has the columns asked for. *)
Ltac has_cols :=
  unfold Study.output_columns, Study.required_columns, Study.sort_key;
  cbn [forallb];
  repeat match goal with
         | H : forall c, has_col ?d c = _ |- context [has_col ?d _] => rewrite !H
         end;
  unfold Study.group_names, str_eqb; cbn [existsb]; eqb_literals;
  repeat first [ rewrite orb_true_r | rewrite orb_false_r
               | rewrite andb_true_l | rewrite andb_true_r ];
  try done.

Ltac step_setitem :=
  match goal with
  | Hr : rows ?d = [] |- context [setitem ?d ?c ?f] =>
      let d' := fresh "d" in
      let E := fresh "E" in
      let Hr' := fresh "Hr" in
      let Hc := fresh "Hc" in
      destruct (setitem_empty d c f Hr) as (d' & E & Hr' & Hc);
      rewrite E, bind_ret
  end.

Ltac step_assignR :=
  match goal with
  | Hr : rows ?d = [] |- context [assignR ?d ?c ?f] =>
      let d' := fresh "d" in
      let E := fresh "E" in
      let Hr' := fresh "Hr" in
      let Hc := fresh "Hc" in
      destruct (assignR_empty d c f Hr) as (d' & E & Hr' & Hc);
      rewrite E, bind_ret
  end.

Ltac step_dropna :=
  match goal with
  | Hr : rows ?d = [] |- context [dropna ?d ?cs] =>
      let d' := fresh "d" in
      let E := fresh "E" in
      let Hr' := fresh "Hr" in
      let Hc := fresh "Hc" in
      destruct (dropna_empty d cs Hr) as (d' & E & Hr' & Hc);
      [ has_cols | rewrite E, bind_ret ]
  end.

Ltac step_require := rewrite require_has by has_cols; rewrite bind_ret.

Lemma only_non_options_frame raw :
  only_non_options raw ->
  exists out, Study.frame raw = Ok out /\ rows out = [].
Proof.
  intros Hraw.
  destruct (only_non_options_dropped raw Hraw) as (d1 & d2 & E1 & E2 & Hr2 & Hc2).
  destruct Hraw as (Hname & Hts & Hbids & Hasks & Hgrp & Hrows).
  unfold Study.frame, Study.sorted_frame. rewrite E1, bind_ret, E2, bind_ret.
  step_require. step_assignR. step_setitem. step_dropna.
  do 4 step_setitem. step_require. step_assignR. step_require. step_assignR.
  do 5 step_setitem.
  match goal with
  | Hr : rows ?d = [] |- context [project ?d ?cs] =>
      destruct (project_empty d cs Hr) as ([cs' rs'] & Eproj & Hrp & Hcp);
      [ has_cols | rewrite Eproj, bind_ret ]
  end.
  simpl in Hrp, Hcp. subst cs' rs'. vm_compute. by eexists.
Qed.

(** C3, as the code has it. [run_study] raises its explicit error
    whenever normalisation returns a table without rows, as it does on a
    table whose instrument cells are texts none of which is an option
    code, and reaches the back-test only with a table that has rows.
    Where no instrument cell is a text and pandas types the column as
    numeric, normalisation itself ends with the [AttributeError] of the
    [.str] accessor. The monolith has no test for an empty table: [main]
    hands whatever [normalize_deribit_csv] returns to the back-test. *)
Theorem empty_result :
  (forall raw, only_non_options raw ->
     Study.run_study raw = Raised Study.no_rows_error) /\
  (forall raw out, study_returns [raw] 0%nat out -> rows out = [] ->
     Study.run_study raw = Raised Study.no_rows_error) /\
  (forall raw data, Study.run_study raw = Backtest data -> rows data <> []) /\
  (forall raw,
     has_col raw "instrument_name" = true ->
     Study.str_accessor (map (fun ir => cell ir.2 "instrument_name") (rows raw))
       = false ->
     Study.run_study raw
       = Raised (AttributeError "Can only use .str accessor with string values!")) /\
  (forall src out, Monolith.normalize_deribit_csv src = Ok out ->
     Monolith.main src = Backtest out).
Proof.
  split; [|split; [|split; [|split]]].
  - intros raw Hraw. rewrite run_study_frame.
    destruct (only_non_options_frame raw Hraw) as (out & -> & Hr).
    unfold empty. by rewrite Hr.
  - intros raw out Hret Hr. rewrite run_study_frame.
    destruct (study_returns_frame [raw] 0%nat raw out eq_refl Hret)
      as (pre & Hpre & ->).
    unfold Study.frame. rewrite Hpre, bind_ret. unfold empty. by rewrite Hr.
  - intros raw data. rewrite run_study_frame.
    destruct (Study.frame raw) as [out|]; [|done].
    unfold empty. destruct (rows out) eqn:E; [done|].
    destruct (columns out); [done|]. intros H. inversion H; subst. by rewrite E.
  - intros raw Hcol Hacc. rewrite run_study_frame.
    unfold Study.frame, Study.sorted_frame, Study.concat_extract.
    by rewrite (require_has _ _ Hcol), bind_ret, Hacc.
  - intros src out H. unfold Monolith.main. by rewrite H.
Qed.

Lemma only_perpetual_study_non_options : only_non_options only_perpetual_study.
Proof.
  repeat split; try by vm_compute.
  intros ir Hin. apply list_elem_of_singleton in Hin. subst ir.
  exists "BTC-PERPETUAL". split; by vm_compute.
Qed.

Lemma empty_result_witness :
  only_non_options only_perpetual_study /\
  Study.run_study only_perpetual_study = Raised Study.no_rows_error.
Proof.
  split; [exact only_perpetual_study_non_options|].
  exact (proj1 empty_result only_perpetual_study only_perpetual_study_non_options).
Defined.

(** C3 as stated fails on the monolith: on a table that holds only a
    perpetual, [main] reaches the back-test with a table without rows. *)
Lemma empty_result_counterexample :
  exists out,
    Monolith.main only_perpetual = Backtest out /\ rows out = [] /\
    empty out = true.
Proof. eexists. split; [by vm_compute|]. split; by vm_compute. Qed.

(** ** The underlying price *)

(** C8, as the code has it. The study returns the table that
    [sorted_frame] computes from the input, relabelled: the k-th row
    returned is the k-th row of that table, which still carries the
    label [i] of the input row it was computed from, and its underlying
    price is the raw [underlying_price] of that input row when that is
    a number, else its raw [index_price]. The monolith has no fallback:
    its underlying price is the coerced raw [underlying_price], whatever
    the index price. *)
Theorem underlying_price_source :
  (forall h raw d out,
     h !! raw = Some d -> study_returns h raw out ->
     exists pre, Study.sorted_frame d = Ok pre /\ out = reset_index pre /\
       forall (k : nat) i r', rows pre !! k = Some (i, r') ->
         rows out !! k = Some (Z.of_nat k, r') /\
         exists r, (i, r) ∈ rows d /\
           let u := to_numeric (df_get d "underlying_price" r) in
           (isnan u = false -> cell r' "underlying_price" = VFloat u) /\
           (isnan u = true ->
            cell r' "underlying_price"
              = VFloat (to_numeric (df_get d "index_price" r)))) /\
  (forall src out i r',
     Monolith.normalize_deribit_csv src = Ok out -> (i, r') ∈ rows out ->
     exists r f, (i, r) ∈ rows src /\
       Monolith._safe_float (cell r "underlying_price") = Ok f /\
       cell r' "underlying_price" = VFloat f).
Proof.
  split.
  - intros h raw d out Hraw Hret.
    destruct (study_returns_frame _ _ _ _ Hraw Hret) as (pre & Hpre & ->).
    exists pre. split; [done|]. split; [done|]. intros k i r' Hk.
    split; [by apply (reset_index_lookup pre k i)|].
    assert (Hin : (i, r') ∈ rows pre) by (by apply list_elem_of_lookup_2 in Hk).
    destruct (sorted_frame_row _ _ _ _ Hpre Hin)
      as (r & s & u & e & k' & o & t & Hr & _ & _ & _ & _ & _ & _ & _ & _ & _ & _
          & Hu & _).
    exists r. split; [done|]. rewrite Hu.
    unfold Study.underlying_of, Study.numeric. simpl.
    destruct (to_numeric (df_get d "underlying_price" r)); simpl; by split.
  - intros src out i r' Hn Hin.
    destruct (normalize_row _ _ _ _ Hn Hin)
      as (r & sy & ex & st & ot & tb & ta & Hr & _ & _ & _ & _ & _ & _ & _
          & _ & _ & _ & Hu & _).
    unfold Monolith.safe_float_of in Hu.
    apply bind_Ok in Hu as (f & Hf & Hu). inversion Hu. by exists r, f.
Qed.

Lemma underlying_price_source_witness :
  [no_underlying_study] !! 0%nat = Some no_underlying_study /\
  study_returns [no_underlying_study] 0%nat (reset_index no_underlying_study_out) /\
  exists pre,
    Study.sorted_frame no_underlying_study = Ok pre /\
    reset_index no_underlying_study_out = reset_index pre /\
    forall (k : nat) i r', rows pre !! k = Some (i, r') ->
      rows (reset_index no_underlying_study_out) !! k = Some (Z.of_nat k, r') /\
      exists r, (i, r) ∈ rows no_underlying_study /\
        let u := to_numeric (df_get no_underlying_study "underlying_price" r) in
        (isnan u = false -> cell r' "underlying_price" = VFloat u) /\
        (isnan u = true ->
         cell r' "underlying_price"
           = VFloat (to_numeric (df_get no_underlying_study "index_price" r))).
Proof.
  assert (H : study_returns [no_underlying_study] 0%nat
                (reset_index no_underlying_study_out)).
  { apply (frame_study_returns _ _ no_underlying_study); [done | by vm_compute]. }
  split; [reflexivity|]. split; [exact H|].
  exact (proj1 underlying_price_source [no_underlying_study] 0%nat
           no_underlying_study (reset_index no_underlying_study_out) eq_refl H).
Defined.

(** C8 as stated fails on the monolith: a call without underlying
    price and with index price 3800 is kept with a missing underlying
    price. *)
Lemma underlying_price_counterexample :
  exists out ir,
    Monolith.normalize_deribit_csv no_underlying = Ok out /\ ir ∈ rows out /\
    cell (first_row no_underlying).2 "underlying_price" = VFloat NaN /\
    cell (first_row no_underlying).2 "index_price" = VInt 3800 /\
    cell ir.2 "underlying_price" = VFloat NaN /\
    cell ir.2 "index_price" = VFloat (Fin 3800).
Proof.
  eexists. eexists. split; [by vm_compute|]. split; [left|]. by vm_compute.
Qed.

(** ** A second run *)

Lemma mapR_total {A B} (f : A -> result B) l :
  (forall x, x ∈ l -> exists y, f x = Ok y) -> exists l', mapR f l = Ok l'.
Proof.
  induction l as [|a l IH]; intros H; simpl; [by eexists|].
  destruct (H a ltac:(left)) as (b & ->).
  destruct IH as (bs & ->); [intros x Hx; apply H; by right|].
  by eexists.
Qed.

Lemma assignR_total d c f :
  (forall i r, (i, r) ∈ rows d -> exists v, f r = Ok v) ->
  exists d', assignR d c f = Ok d'.
Proof.
  intros H. unfold assignR.
  destruct (mapR_total (fun ir => v ← f ir.2; Ok (ir.1, <[c:=v]> ir.2)) (rows d))
    as (rs & ->); [|by eexists].
  intros [i r] Hin. destruct (H i r Hin) as (v & Hv). simpl. rewrite Hv.
  by eexists.
Qed.

Lemma assign_parsed_total d :
  (forall i r, (i, r) ∈ rows d ->
     exists p, Monolith._split_instrument (cell r "instrument_name") = Ok p) ->
  exists d', Monolith.assign_parsed d = Ok d'.
Proof.
  intros H. unfold Monolith.assign_parsed.
  match goal with |- context [mapR ?f ?l] =>
    destruct (mapR_total f l) as (rs & ->); [|by eexists] end.
  intros [i r] Hin. destruct (H i r Hin) as ([[[sy ex] st] ot] & Hp).
  simpl. rewrite Hp. by eexists.
Qed.

Lemma require_missing d c : has_col d c = false -> require d c = Raise (KeyError c).
Proof. unfold require. by intros ->. Qed.

Lemma bind_raise {A B} (e : exn) (k : A -> result B) : Raise e ≫= k = Raise e.
Proof. reflexivity. Qed.

Lemma sorted_frame_columns d pre :
  Study.sorted_frame d = Ok pre ->
  columns pre =
    ["underlying_symbol"; "underlying_price"; "option_type"; "expiration";
     "quote_date"; "strike"; "bid"; "ask"; "delta"; "volume"; "open_interest"].
Proof.
  intros H. unfold Study.sorted_frame in H.
  do 19 (let x := fresh "d" in let E := fresh "E" in
         apply bind_Ok in H as (x & E & H)).
  apply bind_Ok in H as (d20 & E20 & H).
  apply bind_Ok in H as (d21 & E21 & H).
  apply bind_Ok in H as (d22 & E22 & H).
  apply bind_Ok in H as (d23 & E23 & H).
  apply sort_values_Ok in H as [-> _].
  inversion E23; subst d23. simpl. rewrite (dropna_Ok _ _ _ E22). simpl.
  inversion E21; subst d21. simpl.
  destruct (project_Ok _ _ _ E20) as [-> _]. reflexivity.
Qed.

Lemma normalize_columns src out :
  Monolith.normalize_deribit_csv src = Ok out ->
  columns out = Monolith.output_columns.
Proof.
  intros H. unfold Monolith.normalize_deribit_csv in H.
  do 15 (let x := fresh "d" in let E := fresh "E" in
         apply bind_Ok in H as (x & E & H)).
  apply bind_Ok in H as (d15 & E15 & H).
  apply bind_Ok in H as (d16 & E16 & H).
  inversion H; subst out. simpl. rewrite (dropna_Ok _ _ _ E16). simpl.
  by destruct (project_Ok _ _ _ E15) as [-> _].
Qed.

Lemma has_col_columns d cs c :
  columns d = cs -> has_col d c = existsb (str_eqb c) cs.
Proof. unfold has_col. by intros ->. Qed.

(** C9, as the code has it. The output has none of the raw columns
    the normalisers start from, so a second run on the output of the
    first never returns a table: the study stops at [instrument_name],
    the monolith at [bids]. *)
Theorem second_run_raises :
  (forall h raw d out h2 l2,
     h !! raw = Some d -> study_returns h raw out -> h2 !! l2 = Some out ->
     (Study._to_optopsy_frame l2 h2).1 = Raise (KeyError "instrument_name")) /\
  (forall src out,
     Monolith.normalize_deribit_csv src = Ok out ->
     Monolith.normalize_deribit_csv out = Raise (KeyError "bids")).
Proof.
  split.
  - intros h raw d out h2 l2 Hraw Hret Hl2.
    destruct (study_returns_frame _ _ _ _ Hraw Hret) as (pre & Hpre & ->).
    destruct (run_to_optopsy_frame l2 h2 _ Hl2) as (h1 & _ & ->).
    pose proof (sorted_frame_columns _ _ Hpre) as Hc.
    unfold Study.frame, Study.sorted_frame, Study.concat_extract, require.
    rewrite (has_col_columns (reset_index pre) _ _ Hc). by vm_compute.
  - intros src out Hn.
    pose proof (normalize_columns _ _ Hn) as Hc.
    assert (Hrow : forall i r', (i, r') ∈ rows out ->
              (exists p, Monolith._split_instrument (cell r' "instrument_name") = Ok p) /\
              (exists v, Monolith.safe_float_of "best_bid_price" r' = Ok v) /\
              (exists v, Monolith.safe_float_of "best_ask_price" r' = Ok v)).
    { intros i r' Hin.
      destruct (normalize_row _ _ _ _ Hn Hin)
        as (r & sy & ex & st & ot & tb & ta & _ & Hsplit & _ & _ & _ & _ & _ & Htb
            & _ & Hta & _ & _ & _ & _ & Hsame).
      unfold Monolith.safe_float_of in *.
      rewrite !Hsame by in_list. repeat split; eauto. }
    pose proof (fun c => has_col_columns out _ c Hc) as Hc0.
    unfold Monolith.normalize_deribit_csv.
    rewrite require_has by (rewrite Hc0; by vm_compute). rewrite bind_ret.
    destruct (assign_parsed_total out) as (d1 & E1);
      [intros i r Hin; by destruct (Hrow i r Hin) as (? & _)|].
    rewrite E1, bind_ret.
    destruct (assign_parsed_Ok _ _ E1) as (Hc1 & R1 & _).
    rewrite require_has by (rewrite Hc1, Hc0; by vm_compute). rewrite bind_ret.
    unfold setitem. rewrite bind_ret.
    match goal with |- context [assign d1 ?c ?f] => set (d3 := assign d1 c f) end.
    assert (Hc3 : forall c, has_col d3 c = has_col d1 c || String.eqb c "quote_date")
      by (intros c; apply has_col_assign).
    rewrite require_has by (rewrite Hc3, Hc1, Hc0; by vm_compute). rewrite bind_ret.
    destruct (assignR_total d3 "bid" (Monolith.safe_float_of "best_bid_price"))
      as (d5 & E5).
    { intros i r3 Hin. apply elem_of_assign in Hin as (r1 & Hin & ->).
      destruct (R1 _ _ Hin) as (r' & ? & ? & ? & ? & Hin' & _ & ->).
      destruct (Hrow _ _ Hin') as (_ & (v & Hv) & _). exists v. rewrite <- Hv.
      unfold Monolith.safe_float_of. by cells. }
    rewrite E5, bind_ret.
    pose proof (fun c => has_col_assignR _ _ _ _ c E5) as Hc5.
    destruct (assignR_Ok _ _ _ _ E5) as (_ & R5 & _).
    rewrite require_has by (rewrite Hc5, Hc3, Hc1, Hc0; by vm_compute).
    rewrite bind_ret.
    destruct (assignR_total d5 "ask" (Monolith.safe_float_of "best_ask_price"))
      as (d7 & E7).
    { intros i r5 Hin. destruct (R5 _ _ Hin) as (r3 & vb & Hin3 & _ & ->).
      apply elem_of_assign in Hin3 as (r1 & Hin1 & ->).
      destruct (R1 _ _ Hin1) as (r' & ? & ? & ? & ? & Hin' & _ & ->).
      destruct (Hrow _ _ Hin') as (_ & _ & (v & Hv)). exists v. rewrite <- Hv.
      unfold Monolith.safe_float_of. by cells. }
    rewrite E7, bind_ret.
    pose proof (fun c => has_col_assignR _ _ _ _ c E7) as Hc7.
    rewrite require_missing by (rewrite Hc7, Hc5, Hc3, Hc1, Hc0; by vm_compute).
    reflexivity.
Qed.

Lemma second_run_raises_witness :
  [one_quote] !! 0%nat = Some one_quote /\
  study_returns [one_quote] 0%nat one_quote_out /\
  [one_quote; one_quote_out] !! 1%nat = Some one_quote_out /\
  (Study._to_optopsy_frame 1%nat [one_quote; one_quote_out]).1
    = Raise (KeyError "instrument_name").
Proof.
  split; [reflexivity|]. split; [exact one_quote_returns|]. split; [reflexivity|].
  exact (proj1 second_run_raises [one_quote] 0%nat one_quote one_quote_out
           [one_quote; one_quote_out] 1%nat eq_refl one_quote_returns eq_refl).
Defined.

(** C9 as stated fails: the output of a first run is not accepted by a
    second one, in either variant. *)
Lemma second_run_counterexample :
  (exists out,
     Study.run_study one_quote = Backtest out /\
     Study.run_study out = Raised (KeyError "instrument_name")) /\
  (exists out,
     Monolith.normalize_deribit_csv later_first = Ok out /\
     Monolith.normalize_deribit_csv out = Raise (KeyError "bids")).
Proof.
  split; eexists; (split; [by vm_compute|]); by vm_compute.
Qed.

(** ** Field coercion *)

Lemma lower_char_cases (c d : ascii) :
  lower_char c = d -> c = d \/ c = upper_char d.
Proof.
  intros <-. destruct c as [[] [] [] [] [] [] [] []]; vm_compute; auto.
Qed.

Lemma rstrip_c_head x c r : rstrip_c x = String c r -> exists x', x = String c x'.
Proof.
  destruct x as [|d x]; simpl; [done|].
  destruct (rstrip_c x); [destruct (is_c_space d)|]; intros [= -> _]; eauto.
Qed.

Lemma lstrip_c_head s c x :
  lstrip_c s = String c x -> is_space c = false -> lstrip s = String c x.
Proof.
  induction s as [|d s IH]; simpl; [done|]. intros H Hc.
  destruct (is_c_space d) eqn:Ed.
  - assert (is_space d = true) as ->; [|by apply IH].
    revert Ed. clear. destruct d as [[] [] [] [] [] [] [] []]; by vm_compute.
  - inversion H; subst. by rewrite Hc.
Qed.

(** Where the text left by the stripping of [float()] starts with a
    character that is no white space, [str.strip] leaves a text that
    starts with it too. *)
Lemma strip_head s c r :
  strip_c s = String c r -> is_space c = false -> exists r', strip s = String c r'.
Proof.
  unfold strip_c, strip. intros H Hc.
  destruct (rstrip_c_head _ _ _ H) as (x & Hx).
  rewrite (lstrip_c_head _ _ _ Hx Hc). simpl. rewrite Hc.
  destruct (rstrip x); eauto.
Qed.

Lemma plain_head_cases c :
  is_space c = true \/ lower_char c = "n"%char -> plain_head c = true.
Proof.
  destruct c as [[] [] [] [] [] [] [] []]; vm_compute; intros [H|H]; done.
Qed.

Lemma plain_head_facts c r :
  plain_head c = true ->
  is_digit c = false /\ Ascii.eqb c "." = false /\
  take_sign (String c r) = (false, String c r) /\
  str_eqb (lower (String c r)) "inf" || str_eqb (lower (String c r)) "infinity"
    = false.
Proof. destruct c as [[] [] [] [] [] [] [] []]; by vm_compute. Qed.

Lemma take_number_plain us c r :
  is_digit c = false -> Ascii.eqb c "." = false ->
  take_number us (String c r) = None.
Proof.
  intros Hd Hdot. unfold take_number. cbn [take_digits]. rewrite Hd.
  cbn [Nat.eqb negb]. rewrite andb_false_r.
  destruct c as [[] [] [] [] [] [] [] []]; try discriminate Hdot; reflexivity.
Qed.

Lemma float_of_text_plain us s c r :
  strip_c s = String c r -> plain_head c = true ->
  float_of_text us s = None \/ float_of_text us s = Some NaN.
Proof.
  unfold float_of_text. intros -> Hc.
  destruct (plain_head_facts c r Hc) as (Hd & Hdot & -> & ->).
  destruct (str_eqb (lower (String c r)) "nan"); [by right | left].
  by rewrite (take_number_plain us c r Hd Hdot).
Qed.

(** The null words are not numbers: [float] fails on them, or reads NaN. *)
Lemma null_word_not_number (s : string) :
  str_in (lower (strip s)) Monolith.null_words = true ->
  py_float_text s = None \/ py_float_text s = Some NaN.
Proof.
  intros H. unfold py_float_text.
  destruct (strip_c s) as [|c r] eqn:E.
  { left. unfold float_of_text. by rewrite E. }
  apply (float_of_text_plain _ _ _ _ E), plain_head_cases.
  destruct (is_space c) eqn:Hc; [by left | right].
  destruct (strip_head _ _ _ E Hc) as (r' & Hs). rewrite Hs in H.
  unfold str_in, Monolith.null_words in H. cbn [existsb lower str_map] in H.
  unfold str_eqb in H. cbn [String.eqb] in H.
  rewrite orb_false_r in H.
  repeat match type of H with
         | (_ || _) = true => apply orb_true_iff in H as [H|H]
         end; try discriminate H;
    apply andb_true_iff in H as [H _]; by apply Ascii.eqb_eq in H.
Qed.

Lemma safe_float_text (s : string) :
  Monolith._safe_float (VStr s) =
  Ok (if str_in (lower (strip s)) Monolith.null_words then NaN
      else match py_float_text s with Some f => f | None => NaN end).
Proof.
  unfold Monolith._safe_float, py_float. cbn [Monolith.isna_truth isna mbind result_bind].
  destruct (str_in _ _); [done|]. by destruct (py_float_text s).
Qed.

(** ** Instrument codes *)

Lemma span_spec p s w r :
  span p s = (w, r) -> s = w +:+ r /\ str_forall p w = true.
Proof.
  revert w r. induction s as [|c s IH]; simpl; intros w r H.
  - by inversion H.
  - destruct (p c) eqn:Ec.
    + destruct (span p s) as [w' r'] eqn:E. inversion H; subst.
      destruct (IH w' r eq_refl) as [-> Hw]. simpl. by rewrite Ec.
    + by inversion H.
Qed.

Lemma split_on_plain sep w :
  str_forall (fun c => negb (Ascii.eqb c sep)) w = true -> split_on sep w = [w].
Proof.
  induction w as [|c w IH]; simpl; [done|]. intros H.
  apply andb_true_iff in H as [Hc Hw]. apply negb_true_iff in Hc.
  by rewrite Hc, (IH Hw).
Qed.

Lemma split_on_app sep w r :
  str_forall (fun c => negb (Ascii.eqb c sep)) w = true ->
  split_on sep (w +:+ String sep r) = w :: split_on sep r.
Proof.
  induction w as [|c w IH]; simpl; intros H.
  - by rewrite Ascii.eqb_refl.
  - apply andb_true_iff in H as [Hc Hw]. apply negb_true_iff in Hc.
    by rewrite Hc, (IH Hw).
Qed.

Lemma str_forall_impl (p q : ascii -> bool) s :
  (forall c, p c = true -> q c = true) -> str_forall p s = true -> str_forall q s = true.
Proof.
  intros Hpq. induction s as [|c s IH]; simpl; [done|]. intros H.
  apply andb_true_iff in H as [Hc Hs]. by rewrite (Hpq c Hc), (IH Hs).
Qed.

Lemma str_forall_app p a b :
  str_forall p (a +:+ b) = str_forall p a && str_forall p b.
Proof. induction a as [|c a IH]; simpl; [done|]. by rewrite IH, andb_assoc. Qed.

Lemma str_app_assoc (a b c : string) : (a +:+ b) +:+ c = a +:+ (b +:+ c).
Proof.
  induction a as [|x a IH]; [done|].
  change (String x ((a +:+ b) +:+ c) = String x (a +:+ (b +:+ c))).
  by rewrite IH.
Qed.

Lemma upper_no_dash c : is_upper c = true -> negb (Ascii.eqb c "-") = true.
Proof. destruct c as [[] [] [] [] [] [] [] []]; by vm_compute. Qed.

Lemma digit_no_dash c : is_digit c = true -> negb (Ascii.eqb c "-") = true.
Proof. destruct c as [[] [] [] [] [] [] [] []]; by vm_compute. Qed.

Lemma expect_spec c s r : expect c s = Some r -> s = String c r.
Proof.
  destruct s as [|d s]; simpl; [done|].
  destruct (Ascii.eqb_spec c d) as [->|]; [|done]. by intros [= ->].
Qed.

Lemma length_pos_nonempty (s : string) : (0 <? String.length s)%nat = true -> s <> "".
Proof. by destruct s. Qed.

Ltac by_guard H :=
  match goal with
  | |- context [if negb ?b then _ else _] =>
      destruct b eqn:H; cbn [negb]; [|done]
  end.

Lemma INSTRUMENT_RE_fields s u e k o :
  INSTRUMENT_RE s = Some (u, e, k, o) ->
  exists tail,
    split_on "-" s = [u; e; k; o +:+ tail] /\
    (tail = "" \/ tail = String "010" "") /\
    (o = "C" \/ o = "P") /\
    u <> "" /\ str_forall is_upper u = true /\ decimal_text k.
Proof.
  unfold INSTRUMENT_RE.
  destruct (span is_upper s) as [u0 r0] eqn:E0. by_guard Hu0.
  destruct (expect "-" r0) as [r1|] eqn:E1; cbn [mbind option_bind]; [|done].
  destruct (span is_digit r1) as [dd r2] eqn:E2.
  destruct (span is_upper r2) as [mon r3] eqn:E3. by_guard Hlen.
  destruct (span is_digit r3) as [yy r4] eqn:E4. by_guard Hyy.
  destruct (expect "-" r4) as [r5|] eqn:E5; cbn [mbind option_bind]; [|done].
  destruct (span is_digit r5) as [k1 r6] eqn:E6. by_guard Hk1.
  apply span_spec in E0 as [-> Hu], E2 as [-> Hdd], E3 as [-> Hmon],
    E4 as [-> Hyy'], E6 as [-> Hk1'].
  apply expect_spec in E1 as ->. apply expect_spec in E5 as ->.
  assert (Hk : forall k0 r7,
            match r6 with
            | String "." r' =>
                let '(k2, r'') := span is_digit r' in
                if (0 <? String.length k2)%nat
                then Some (k1 +:+ "." +:+ k2, r'') else None
            | _ => Some (k1, r6)
            end = Some (k0, r7) ->
            decimal_text k0 /\ k1 +:+ r6 = k0 +:+ r7 /\
            str_forall (fun c => negb (Ascii.eqb c "-")) k0 = true).
  { intros k0 r7 H.
    assert (Hplain : Some (k1, r6) = Some (k0, r7) ->
              decimal_text k0 /\ k1 +:+ r6 = k0 +:+ r7 /\
              str_forall (fun c => negb (Ascii.eqb c "-")) k0 = true).
    { intros [= <- <-]. split; [|split; [done|]].
      - exists k1, "". split; [by apply length_pos_nonempty|]. by auto.
      - eapply str_forall_impl; [apply digit_no_dash | done]. }
    destruct r6 as [|c r']; [by apply Hplain|].
    destruct (Ascii.eqb_spec c ".") as [->|Hne].
    - destruct (span is_digit r') as [k2 r''] eqn:E7.
      destruct (0 <? String.length k2)%nat eqn:Hk2; [|done].
      inversion H; subst. apply span_spec in E7 as [-> Hk2'].
      split; [|split].
      + exists k1, k2. split; [by apply length_pos_nonempty|].
        split; [done|]. split; [done|]. right.
        split; [by apply length_pos_nonempty | done].
      + by rewrite !str_app_assoc.
      + rewrite !str_forall_app. simpl.
        rewrite (str_forall_impl _ _ _ digit_no_dash Hk1'),
                (str_forall_impl _ _ _ digit_no_dash Hk2'). done.
    - apply Hplain. by destruct c as [[] [] [] [] [] [] [] []]. }
  destruct (match r6 with String "." r' => _ | _ => _ end) as [[k0 r7]|] eqn:E7;
    [|done].
  cbn [mbind option_bind].
  destruct (Hk _ _ eq_refl) as (Hdec & Heq & Hnd). clear Hk E7.
  destruct (expect "-" r7) as [r8|] eqn:E8; cbn [mbind option_bind]; [|done].
  apply expect_spec in E8 as ->.
  destruct r8 as [|c r9]; [done|].
  destruct ((Ascii.eqb c "C" || Ascii.eqb c "P") && at_dollar r9) eqn:Hside; [|done].
  intros [= <- <- <- <-].
  apply andb_true_iff in Hside as [Hc Hr9].
  exists r9. split; [|split; [|split; [|split; [|split]]]].
  - rewrite split_on_app by (eapply str_forall_impl; [apply upper_no_dash | done]).
    rewrite <- (str_app_assoc mon yy), <- (str_app_assoc dd (mon +:+ yy)).
    rewrite split_on_app.
    2: { rewrite !str_forall_app.
         rewrite (str_forall_impl _ _ _ digit_no_dash Hdd),
                 (str_forall_impl _ _ _ upper_no_dash Hmon),
                 (str_forall_impl _ _ _ digit_no_dash Hyy'). done. }
    rewrite Heq, split_on_app by done.
    rewrite split_on_plain; [done|]. simpl.
    destruct r9 as [|x [|]]; simpl in Hr9; try done.
    + apply orb_true_iff in Hc as [Hc|Hc]; apply Ascii.eqb_eq in Hc; by subst.
    + apply N.eqb_eq in Hr9.
      apply orb_true_iff in Hc as [Hc|Hc]; apply Ascii.eqb_eq in Hc; subst;
        destruct x as [[] [] [] [] [] [] [] []]; by vm_compute in Hr9 |- *.
  - destruct r9 as [|x [|]]; simpl in Hr9; try done; [by left|].
    right. apply N.eqb_eq in Hr9. f_equal.
    destruct x as [[] [] [] [] [] [] [] []]; by vm_compute in Hr9 |- *.
  - apply orb_true_iff in Hc as [Hc|Hc]; apply Ascii.eqb_eq in Hc; subst; auto.
  - by apply length_pos_nonempty.
  - done.
  - done.
Qed.

Lemma label_unique (l : list (Z * row)) i a b :
  NoDup (map fst l) -> (i, a) ∈ l -> (i, b) ∈ l -> a = b.
Proof.
  induction l as [|[j x] l IH]; simpl; intros Hnd Ha Hb.
  - by apply elem_of_nil in Ha.
  - apply NoDup_cons in Hnd as [Hj Hnd].
    apply elem_of_cons in Ha as [Ha|Ha], Hb as [Hb|Hb].
    + congruence.
    + inversion Ha; subst. destruct Hj.
      apply list_elem_of_fmap. by exists (j, b).
    + inversion Hb; subst. destruct Hj.
      apply list_elem_of_fmap. by exists (j, a).
    + by apply IH.
Qed.

Lemma split_instrument_kept v symbol expiration strike option_type :
  Monolith._split_instrument v = Ok (symbol, expiration, strike, option_type) ->
  isna expiration = false -> isna strike = false ->
  exists s sym e k side t f,
    v = VStr s /\ split_on "-" s = [sym; e; k; side] /\
    strptime_dby e = Some t /\
    Monolith._safe_float (VStr k) = Ok f /\ isnan f = false /\
    symbol = VStr sym /\ expiration = VTimestamp t /\ strike = VFloat f /\
    option_type = VStr (if str_eqb (upper side) "C" then "call" else "put").
Proof.
  unfold Monolith._split_instrument. intros H He Hk.
  destruct v as [| | | |s| | | | |]; try done.
  destruct (split_on "-" s) as [|sym [|e [|k [|side [|? ?]]]]] eqn:Hsp;
    try (by inversion H; subst).
  apply bind_Ok in H as (f & Hf & H). inversion H; subst; clear H.
  destruct (strptime_dby e) as [t|] eqn:Ht; [|done].
  exists s, sym, e, k, side, t, f. repeat split; try done; by apply notna_float.
Qed.




(** The malformed code of the specification is dropped by the study,
    not raised: of the two rows only the second, label 1, is kept. *)
Lemma bad_strike_dropped :
  INSTRUMENT_RE "ETH-13AUG25-XYZ-C" = None /\
  labels bad_strike_study = [0; 1] /\ labels bad_strike_study_pre = [1].
Proof. by vm_compute. Qed.


(** ** Price resolution *)

Lemma missing_or_le0_float f :
  Study.missing_or_le0 (VFloat f) = negb (float_gt0 f).
Proof.
  destruct f; try done. unfold Study.missing_or_le0. simpl.
  by destruct (Qle_bool q 0).
Qed.

(** The texts the study takes for an absent ladder are no ladders for
    [ast.literal_eval] either. *)
Lemma sentinel_text t :
  str_eqb t "" || str_eqb t "[]" || str_eqb (lower t) "nan" = true ->
  literal_eval t = Ok (VList []) \/ literal_eval t = Raise SyntaxError \/
  exists m, literal_eval t = Raise (ValueError m).
Proof.
  rewrite !orb_true_iff. unfold str_eqb. rewrite !String.eqb_eq.
  intros [[->| ->]|H].
  - right. left. by vm_compute.
  - left. by vm_compute.
  - right. right. destruct t as [|a [|b [|c [|]]]]; cbn in H; try discriminate.
    inversion H as [[Ha Hb Hc]].
    destruct (lower_char_cases _ _ Ha) as [->| ->],
             (lower_char_cases _ _ Hb) as [->| ->],
             (lower_char_cases _ _ Hc) as [->| ->]; vm_compute; eauto.
Qed.

Lemma parse_l1_pairs_text s x rest more p :
  literal_eval (strip s) = Ok (VList (VList (x :: rest) :: more)) ->
  py_float x = Ok p ->
  Study._parse_l1_from_book (VStr s) = Ok (Some p).
Proof.
  intros Hlit Hp. unfold Study._parse_l1_from_book, Study.book_of_text.
  destruct (str_eqb (strip s) "" || str_eqb (strip s) "[]"
            || str_eqb (lower (strip s)) "nan") eqn:E.
  - destruct (sentinel_text _ E) as [H|[H|[m H]]]; rewrite H in Hlit; discriminate.
  - rewrite Hlit. cbn. by rewrite Hp.
Qed.

Lemma parse_l1_pairs_native x rest more p :
  py_float x = Ok p ->
  Study._parse_l1_from_book (VList (VList (x :: rest) :: more)) = Ok (Some p).
Proof. intros Hp. cbn. by rewrite Hp. Qed.

Lemma parse_l1_no_ladder ladder :
  study_no_ladder ladder -> Study._parse_l1_from_book ladder = Ok None.
Proof.
  intros [->|[->|[->|(s & -> & H)]]]; try done.
  unfold Study._parse_l1_from_book, Study.book_of_text.
  destruct (str_eqb (strip s) "" || str_eqb (strip s) "[]"
            || str_eqb (lower (strip s)) "nan") eqn:E; [done|].
  apply orb_false_iff in E as [E E3]. apply orb_false_iff in E as [E1 E2].
  destruct H as [H|[H|[H|(v & H & Hv)]]].
  - rewrite H in E1. discriminate.
  - rewrite H in E2. discriminate.
  - rewrite H in E3. discriminate.
  - rewrite H. cbn [mbind result_bind]. by rewrite Hv.
Qed.

Lemma safe_float_number x p :
  py_float x = Ok p -> (forall l, x <> VList l) -> Monolith._safe_float x = Ok p.
Proof.
  intros Hp Hx. destruct x as [|b|z|f|s|l| | | |]; try done.
  - unfold Monolith._safe_float. cbn [Monolith.isna_truth isna mbind result_bind].
    by rewrite Hp.
  - inversion Hp; subst. by destruct p.
  - unfold py_float in Hp. destruct (py_float_text s) as [f|] eqn:E; [|done].
    inversion Hp; subst. rewrite safe_float_text.
    destruct (str_in _ _) eqn:Hn; [|by rewrite E].
    destruct (null_word_not_number s Hn) as [H|H]; rewrite H in E; congruence.
Qed.

Lemma best_price_pairs_text s x rest more p :
  literal_eval s = Ok (VList (VList (x :: rest) :: more)) ->
  py_float x = Ok p -> (forall l, x <> VList l) ->
  Monolith._best_price_from_ladder (VStr s) 0 = Ok p.
Proof.
  intros Hlit Hp Hx. unfold Monolith._best_price_from_ladder.
  cbn [Monolith.isna_truth isna mbind result_bind orb].
  destruct (str_eqb s "[]" || str_eqb s "") eqn:E.
  - apply orb_true_iff in E as [E|E]; apply String.eqb_eq in E; subst;
      vm_compute in Hlit; discriminate.
  - rewrite Hlit. cbn. by rewrite (safe_float_number _ _ Hp Hx).
Qed.

Lemma best_price_no_ladder ladder :
  monolith_no_ladder ladder ->
  Monolith._best_price_from_ladder ladder 0 = Ok NaN.
Proof.
  intros [->|[->|(s & -> & H)]]; try done.
  unfold Monolith._best_price_from_ladder.
  cbn [Monolith.isna_truth isna mbind result_bind orb].
  destruct (str_eqb s "[]" || str_eqb s "") eqn:E; [done|].
  destruct H as [->|[->|(v & H & Hv)]]; [discriminate | discriminate |].
  rewrite H. cbn [mbind result_bind].
  destruct v as [| | | | |[|x l]| | | |]; try done. by destruct (Hv x l).
Qed.

(** X2. The precedence of the two price sources. In both variants a
    top-of-book price that is a positive number wins. Otherwise the price
    is the first price of a ladder of pairs: a text in both variants, or
    a native list in the study (on a native list the monolith raises, see
    [native_ladders]). Otherwise, when the ladder is absent or empty, the
    price is missing (NaN, not zero); so it is for the texts [[[1, 2] and
    [abc], which [ast.literal_eval] refuses. *)
Lemma price_resolution :
  (forall top ladder,
     float_gt0 (to_numeric top) = true ->
     Study.resolve top ladder = Ok (VFloat (to_numeric top))) /\
  (forall top ladder price p,
     float_gt0 (to_numeric top) = false -> py_float price = Ok p ->
     (first_price ladder price \/
      exists s levels, ladder = VStr s /\ literal_eval (strip s) = Ok levels /\
                       first_price levels price) ->
     Study.resolve top ladder = Ok (VFloat p)) /\
  (forall top ladder,
     float_gt0 (to_numeric top) = false -> study_no_ladder ladder ->
     Study.resolve top ladder = Ok (VFloat NaN)) /\
  (forall top ladder f,
     Monolith._safe_float top = Ok f -> float_gt0 f = true ->
     Monolith.resolve top ladder = Ok (VFloat f)) /\
  (forall top s levels price f p,
     Monolith._safe_float top = Ok f -> float_gt0 f = false ->
     literal_eval s = Ok levels -> first_price levels price ->
     py_float price = Ok p -> (forall l, price <> VList l) ->
     Monolith.resolve top (VStr s) = Ok (VFloat p)) /\
  (forall top ladder f,
     Monolith._safe_float top = Ok f -> float_gt0 f = false ->
     monolith_no_ladder ladder ->
     Monolith.resolve top ladder = Ok (VFloat NaN)) /\
  map (fun s => Study.resolve (VFloat NaN) (VStr s))
    ["[[123.4, 10], [123.0, 5]]"; "[[1, 2"; "abc"; " NaN "; "[ ]"; "0"]
  = map (fun f => Ok (VFloat f)) [Fin 123.4; NaN; NaN; NaN; NaN; NaN] /\
  map (fun s => Monolith.resolve (VFloat NaN) (VStr s))
    ["[[123.4, 10], [123.0, 5]]"; "[[1, 2"; "abc"; "nan"; "[ ]"; "5"; "{'a': 1}"]
  = map (fun f => Ok (VFloat f)) [Fin 123.4; NaN; NaN; NaN; NaN; NaN; NaN].
Proof.
  split; [|split; [|split; [|split; [|split; [|split; [|split]]]]]].
  - intros top ladder H. unfold Study.resolve, Study.fallback_value.
    by rewrite missing_or_le0_float, H.
  - intros top ladder price p H Hp Hl.
    unfold Study.resolve, Study.fallback_value. rewrite missing_or_le0_float, H.
    cbn [negb]. destruct Hl as [(rest & more & ->)|(s & levels & -> & Hlit & rest & more & ->)].
    + by rewrite (parse_l1_pairs_native _ _ _ _ Hp).
    + by rewrite (parse_l1_pairs_text _ _ _ _ _ Hlit Hp).
  - intros top ladder H Hl. unfold Study.resolve, Study.fallback_value.
    rewrite missing_or_le0_float, H. cbn [negb].
    by rewrite (parse_l1_no_ladder _ Hl).
  - intros top ladder f Hf H.
    unfold Monolith.resolve, Monolith.safe_float_of_value. rewrite Hf, !bind_ret.
    unfold Monolith.fallback_value, Monolith.missing_or_le0.
    by rewrite missing_or_le0_float, H.
  - intros top s levels price f p Hf H Hlit (rest & more & ->) Hp Hx.
    unfold Monolith.resolve, Monolith.safe_float_of_value. rewrite Hf, !bind_ret.
    unfold Monolith.fallback_value, Monolith.missing_or_le0.
    rewrite missing_or_le0_float, H. cbn [negb].
    by rewrite (best_price_pairs_text _ _ _ _ _ Hlit Hp Hx).
  - intros top ladder f Hf H Hl.
    unfold Monolith.resolve, Monolith.safe_float_of_value. rewrite Hf, !bind_ret.
    unfold Monolith.fallback_value, Monolith.missing_or_le0.
    rewrite missing_or_le0_float, H. cbn [negb].
    by rewrite (best_price_no_ladder ladder Hl).
  - by vm_compute.
  - by vm_compute.
Qed.

(** X3. Every bid and ask of the output is the resolved price of the
    input row of its label: of the sorted table in the study, whose rows
    still carry the input labels, and of the returned table in the
    monolith. *)
Lemma output_prices_resolved :
  (forall d pre i r',
     Study.sorted_frame d = Ok pre -> (i, r') ∈ rows pre ->
     exists r, (i, r) ∈ rows d /\
       Study.resolve (df_get d "best_bid_price" r) (cell r "bids")
         = Ok (cell r' "bid") /\
       Study.resolve (df_get d "best_ask_price" r) (cell r "asks")
         = Ok (cell r' "ask")) /\
  (forall src out i r',
     Monolith.normalize_deribit_csv src = Ok out -> (i, r') ∈ rows out ->
     exists r, (i, r) ∈ rows src /\
       Monolith.resolve (cell r "best_bid_price") (cell r "bids")
         = Ok (cell r' "bid") /\
       Monolith.resolve (cell r "best_ask_price") (cell r "asks")
         = Ok (cell r' "ask")).
Proof.
  split.
  - intros d pre i r' Hpre Hin.
    destruct (sorted_frame_row _ _ _ _ Hpre Hin)
      as (r & s & u & e & k & o & t & Hr & _ & _ & _ & _ & _ & _ & _ & _ & Hb & Ha & _).
    by exists r.
  - intros src out i r' Hn Hin.
    destruct (normalize_row _ _ _ _ Hn Hin)
      as (r & sy & ex & st & ot & tb & ta & Hr & _ & _ & _ & _ & _ & _ & Htb
          & Hb & Hta & Ha & _).
    exists r. split; [done|]. unfold Monolith.resolve.
    unfold Monolith.safe_float_of in Htb, Hta. by rewrite Htb, Hta, !bind_ret.
Qed.

(** C4. On a ladder that is neither absent nor a list of pairs the
    resolution does not give the missing price the specification asks
    for: in the study the text 5 raises, and the exception ends
    [run_study]; in the monolith the list of the text 12 resolves to the
    price 1, the first character of the text, and the row is kept with
    that bid. *)
Theorem price_resolution_ill_typed :
  Study.resolve (VFloat NaN) (VStr "5")
    = Raise (TypeError "object is not subscriptable") /\
  Study.run_study scalar_ladder
    = Raised (TypeError "object is not subscriptable") /\
  Monolith.resolve (VFloat NaN) (VStr "['12']") = Ok (VFloat (Fin 1)) /\
  exists out ir,
    Monolith.normalize_deribit_csv text_level = Ok out /\ ir ∈ rows out /\
    cell ir.2 "bid" = VFloat (Fin 1).
Proof.
  split; [by vm_compute|]. split; [by vm_compute|]. split; [by vm_compute|].
  eexists. eexists. split; [by vm_compute|]. split; [left|]. by vm_compute.
Qed.

(** * Further properties of the two scripts *)

(** ** The shape of the output *)

(** X1. A table the study returns for an input that has no column
    named like a group of the instrument pattern ([underlying],
    [expiration], [strike], [option]) has exactly the eleven canonical
    columns, in this order, whatever other columns the input has; with
    such a column [pd.concat] yields two columns of one label, which the
    model does not follow. A table the monolith returns has exactly its
    twenty-five columns, whatever columns the input has. *)
Theorem output_schema :
  (forall h raw d out,
     h !! raw = Some d -> existsb (has_col d) Study.group_names = false ->
     study_returns h raw out ->
     columns out =
       ["underlying_symbol"; "underlying_price"; "option_type"; "expiration";
        "quote_date"; "strike"; "bid"; "ask"; "delta"; "volume";
        "open_interest"]) /\
  (forall src out,
     Monolith.normalize_deribit_csv src = Ok out ->
     columns out =
       ["timestamp"; "change_id"; "underlying_symbol"; "underlying_price";
        "index_price"; "instrument_name"; "option_type"; "expiration";
        "quote_date"; "strike"; "bid"; "ask"; "best_bid_price";
        "best_ask_price"; "best_bid_amount"; "best_ask_amount"; "mark_price";
        "last_price"; "open_interest"; "mark_iv"; "bid_iv"; "ask_iv"; "delta";
        "volume"; "settlement_period"]).
Proof.
  split.
  - intros h raw d out Hraw _ Hret.
    destruct (study_returns_frame _ _ _ _ Hraw Hret) as (pre & Hpre & ->).
    exact (sorted_frame_columns _ _ Hpre).
  - intros src out H. exact (normalize_columns _ _ H).
Qed.

Lemma output_schema_witness :
  [one_quote] !! 0%nat = Some one_quote /\
  existsb (has_col one_quote) Study.group_names = false /\
  study_returns [one_quote] 0%nat one_quote_out /\
  columns one_quote_out =
    ["underlying_symbol"; "underlying_price"; "option_type"; "expiration";
     "quote_date"; "strike"; "bid"; "ask"; "delta"; "volume"; "open_interest"].
Proof.
  split; [reflexivity|]. split; [reflexivity|].
  split; [exact one_quote_returns|].
  exact (proj1 output_schema [one_quote] 0%nat one_quote one_quote_out
           eq_refl eq_refl one_quote_returns).
Defined.

(** ** Prices *)

Lemma price_resolution_witness :
  (float_gt0 (to_numeric (VStr "120.5")) = true /\
   Study.resolve (VStr "120.5") (VStr "[[123.4, 10]]") = Ok (VFloat (Fin 120.5))) /\
  (float_gt0 (to_numeric (VInt 0)) = false /\ study_no_ladder (VStr " [] ") /\
   Study.resolve (VInt 0) (VStr " [] ") = Ok (VFloat NaN)) /\
  (Monolith._safe_float (VInt 0) = Ok (Fin 0) /\ float_gt0 (Fin 0) = false /\
   monolith_no_ladder (VStr "(1, 2)") /\
   Monolith.resolve (VInt 0) (VStr "(1, 2)") = Ok (VFloat NaN)).
Proof.
  assert (Hs : study_no_ladder (VStr " [] ")).
  { right. right. right. exists " [] ". split; [done|]. right. left. by vm_compute. }
  assert (Hm : monolith_no_ladder (VStr "(1, 2)")).
  { right. right. exists "(1, 2)". split; [done|]. right. right.
    exists (VTuple [VInt 1; VInt 2]). split; [by vm_compute | done]. }
  split; [|split].
  - split; [reflexivity|].
    exact (proj1 price_resolution (VStr "120.5") (VStr "[[123.4, 10]]") eq_refl).
  - split; [reflexivity|]. split; [exact Hs|].
    exact (proj1 (proj2 (proj2 price_resolution)) (VInt 0) (VStr " [] ") eq_refl Hs).
  - split; [reflexivity|]. split; [reflexivity|]. split; [exact Hm|].
    exact (proj1 (proj2 (proj2 (proj2 (proj2 (proj2 price_resolution)))))
             (VInt 0) (VStr "(1, 2)") (Fin 0) eq_refl eq_refl Hm).
Defined.

Lemma output_prices_resolved_witness :
  Study.sorted_frame no_underlying_study = Ok no_underlying_study_out /\
  first_row no_underlying_study_out ∈ rows no_underlying_study_out /\
  exists r, ((first_row no_underlying_study_out).1, r) ∈ rows no_underlying_study /\
    Study.resolve (df_get no_underlying_study "best_bid_price" r) (cell r "bids")
      = Ok (cell (first_row no_underlying_study_out).2 "bid") /\
    Study.resolve (df_get no_underlying_study "best_ask_price" r) (cell r "asks")
      = Ok (cell (first_row no_underlying_study_out).2 "ask").
Proof.
  assert (H : Study.sorted_frame no_underlying_study = Ok no_underlying_study_out)
    by (vm_compute; reflexivity).
  split; [exact H|]. split; [left|].
  exact (proj1 output_prices_resolved no_underlying_study no_underlying_study_out
           (first_row no_underlying_study_out).1 (first_row no_underlying_study_out).2
           H (list_elem_of_here _ _)).
Defined.

(** ** Columns the scripts need *)

Lemma require_Ok d c : require d c = Ok tt -> has_col d c = true.
Proof. unfold require. by destruct (has_col d c). Qed.

(** The steps of [Study.sorted_frame], named by their position. *)
Ltac study_steps H :=
  unfold Study.sorted_frame in H;
  apply bind_Ok in H as (d1 & E1 & H);
  apply bind_Ok in H as (d2 & E2 & H);
  apply bind_Ok in H as ([] & E3 & H);
  apply bind_Ok in H as (d4 & E4 & H);
  apply bind_Ok in H as (d5 & E5 & H);
  apply bind_Ok in H as (d6 & E6 & H);
  apply bind_Ok in H as (d7 & E7 & H);
  apply bind_Ok in H as (d8 & E8 & H);
  apply bind_Ok in H as (d9 & E9 & H);
  apply bind_Ok in H as (d10 & E10 & H);
  apply bind_Ok in H as ([] & E11 & H);
  apply bind_Ok in H as (d12 & E12 & H);
  apply bind_Ok in H as ([] & E13 & H);
  apply bind_Ok in H as (d14 & E14 & H);
  apply bind_Ok in H as (d15 & E15 & H);
  apply bind_Ok in H as (d16 & E16 & H);
  apply bind_Ok in H as (d17 & E17 & H);
  apply bind_Ok in H as (d18 & E18 & H);
  apply bind_Ok in H as (d19 & E19 & H);
  apply bind_Ok in H as (d20 & E20 & H);
  apply bind_Ok in H as (d21 & E21 & H);
  apply bind_Ok in H as (d22 & E22 & H);
  apply bind_Ok in H as (d23 & E23 & H).

Lemma sorted_frame_needs d pre :
  Study.sorted_frame d = Ok pre ->
  forall c, c ∈ ["instrument_name"; "timestamp"; "bids"; "asks"] ->
            has_col d c = true.
Proof.
  intros H. study_steps H.
  assert (H0 : has_col d "instrument_name" = true).
  { unfold Study.concat_extract in E1. apply bind_Ok in E1 as ([] & E0 & _).
    by apply require_Ok. }
  apply require_Ok in E3, E11, E13.
  revert E3 E11 E13. cols. intros E3 E11 E13.
  intros c Hc. apply list_elem_of_In in Hc. simpl in Hc.
  destruct Hc as [<-|[<-|[<-|[<-|[]]]]]; done.
Qed.

(** X4. The study needs four raw columns: on a table without
    [instrument_name] [run_study] ends with [KeyError] on that label, and
    on a table without [timestamp], [bids] or [asks] it ends with an
    exception too, whatever the rows are; the back-test is not reached. *)
Theorem study_required_columns :
  (forall d, has_col d "instrument_name" = false ->
     Study.run_study d = Raised (KeyError "instrument_name")) /\
  (forall d c, c ∈ ["instrument_name"; "timestamp"; "bids"; "asks"] ->
     has_col d c = false -> exists e, Study.run_study d = Raised e).
Proof.
  split.
  - intros d H. rewrite run_study_frame.
    unfold Study.frame, Study.sorted_frame, Study.concat_extract.
    by rewrite (require_missing _ _ H).
  - intros d c Hc H. rewrite run_study_frame. unfold Study.frame.
    destruct (Study.sorted_frame d) as [pre|e] eqn:E; simpl; [|by exists e].
    rewrite (sorted_frame_needs _ _ E c Hc) in H. discriminate.
Qed.

Lemma study_required_columns_witness :
  has_col one_quote_out "instrument_name" = false /\
  Study.run_study one_quote_out = Raised (KeyError "instrument_name").
Proof.
  split; [reflexivity|].
  exact (proj1 study_required_columns one_quote_out eq_refl).
Defined.

(** The steps of [Monolith.normalize_deribit_csv], named by their
    position. *)
Ltac monolith_steps H :=
  unfold Monolith.normalize_deribit_csv in H;
  apply bind_Ok in H as ([] & E0 & H);
  apply bind_Ok in H as (d1 & E1 & H);
  apply bind_Ok in H as ([] & E2 & H);
  apply bind_Ok in H as (d3 & E3 & H);
  apply bind_Ok in H as ([] & E4 & H);
  apply bind_Ok in H as (d5 & E5 & H);
  apply bind_Ok in H as ([] & E6 & H);
  apply bind_Ok in H as (d7 & E7 & H);
  apply bind_Ok in H as ([] & E8 & H);
  apply bind_Ok in H as (d9 & E9 & H);
  apply bind_Ok in H as ([] & E10 & H);
  apply bind_Ok in H as (d11 & E11 & H);
  apply bind_Ok in H as (d12 & E12 & H);
  apply bind_Ok in H as (d13 & E13 & H);
  apply bind_Ok in H as (d14 & E14 & H);
  apply bind_Ok in H as (d15 & E15 & H);
  apply bind_Ok in H as (d16 & E16 & H).

Lemma apply_get_has c name d d' :
  Monolith.apply_get_safe_float c name d = Ok d' -> has_col d name = true.
Proof. unfold Monolith.apply_get_safe_float. by destruct (has_col d name). Qed.

Lemma normalize_needs src out :
  Monolith.normalize_deribit_csv src = Ok out ->
  forall c, c ∈ monolith_columns -> has_col src c = true.
Proof.
  intros H. monolith_steps H.
  destruct (assign_parsed_Ok _ _ E1) as (C1 & _ & _).
  destruct (coerce_cols_Ok _ _ _ E14) as (C14 & _ & _).
  pose proof (apply_get_has _ _ _ _ E12) as G12.
  pose proof (apply_get_has _ _ _ _ E13) as G13.
  apply apply_get_safe_float_Ok in E12, E13.
  apply require_Ok in E0, E2, E4, E6, E8, E10.
  intros c Hc. apply list_elem_of_In in Hc. simpl in Hc.
  repeat match type of Hc with
         | _ \/ _ => destruct Hc as [<-|Hc]
         | False => destruct Hc
         end;
    match goal with
    | |- has_col src ?c = true =>
        first
          [ assert (P : has_col d14 c = true)
              by (apply (project_has_col _ _ _ _ E15); in_list);
            revert P; rewrite C14; cols; rewrite C1; cols; by intros ->
          | revert E8 E10 G12 G13; cols; rewrite !C1; cols; by intros; subst ]
    end.
Qed.

(** X5. The monolith needs every one of its twenty raw columns: on a
    table without [instrument_name] it raises [KeyError] on that label,
    and on a table without any other of them it raises too, whatever the
    rows are; optional columns do not exist for it. *)
Theorem monolith_required_columns :
  (forall src, has_col src "instrument_name" = false ->
     Monolith.normalize_deribit_csv src = Raise (KeyError "instrument_name")) /\
  (forall src c, c ∈ monolith_columns -> has_col src c = false ->
     exists e, Monolith.normalize_deribit_csv src = Raise e /\
               Monolith.main src = Raised e).
Proof.
  split.
  - intros src H. unfold Monolith.normalize_deribit_csv.
    by rewrite (require_missing _ _ H).
  - intros src c Hc H. unfold Monolith.main.
    destruct (Monolith.normalize_deribit_csv src) as [out|e] eqn:E; [|by exists e].
    rewrite (normalize_needs _ _ E c Hc) in H. discriminate.
Qed.

Lemma monolith_required_columns_witness :
  "greeks.delta" ∈ monolith_columns /\
  has_col one_quote "greeks.delta" = false /\
  exists e, Monolith.normalize_deribit_csv one_quote = Raise e /\
            Monolith.main one_quote = Raised e.
Proof.
  assert (Hc : "greeks.delta" ∈ monolith_columns) by in_list.
  split; [exact Hc|]. split; [reflexivity|].
  exact (proj2 monolith_required_columns one_quote "greeks.delta" Hc eq_refl).
Defined.

(** ** Instrument cells that are not text *)

Lemma mapR_raise {A B} (f : A -> result B) l x e0 :
  (forall y e, f y = Raise e -> e = e0) ->
  x ∈ l -> f x = Raise e0 -> mapR f l = Raise e0.
Proof.
  intros Hf. induction l as [|a l IH]; intros Hx Hr.
  - by apply elem_of_nil in Hx.
  - simpl. destruct (f a) as [b|e] eqn:Ea; simpl.
    + apply elem_of_cons in Hx as [->|Hx]; [congruence|].
      by rewrite (IH Hx Hr).
    + by rewrite (Hf _ _ Ea).
Qed.

Lemma split_instrument_raise v e :
  Monolith._split_instrument v = Raise e ->
  e = AttributeError "object has no attribute 'split'".
Proof.
  unfold Monolith._split_instrument.
  destruct v as [| | | |s| | | | |]; try (by intros [= <-]).
  destruct (split_on "-" s) as [|a [|b [|c [|x [|? ?]]]]]; try done.
  by rewrite safe_float_text.
Qed.

(** X6. One instrument cell that is not text, an empty cell for one,
    ends the monolith with [AttributeError], whatever the other rows
    hold: [_split_instrument] calls [split] on the cell.  The study drops
    such a row. *)
Theorem monolith_instrument_not_text :
  (forall src i r,
     has_col src "instrument_name" = true -> (i, r) ∈ rows src ->
     (forall s, cell r "instrument_name" <> VStr s) ->
     Monolith.normalize_deribit_csv src
       = Raise (AttributeError "object has no attribute 'split'")) /\
  (forall d pre i r,
     Study.sorted_frame d = Ok pre -> NoDup (labels d) -> (i, r) ∈ rows d ->
     (forall s, cell r "instrument_name" <> VStr s) -> i ∉ labels pre).
Proof.
  split.
  - intros src i r Hcol Hin Hns. unfold Monolith.normalize_deribit_csv.
    rewrite (require_has _ _ Hcol), bind_ret. unfold Monolith.assign_parsed.
    rewrite (mapR_raise _ (rows src) (i, r)
               (AttributeError "object has no attribute 'split'")); [done| |done|].
    + intros [j y] e. simpl.
      destruct (Monolith._split_instrument _) as [[[[sy ex] st] ot]|e'] eqn:E;
        simpl; [done|].
      intros [= <-]. by apply split_instrument_raise in E.
    + simpl. unfold Monolith._split_instrument.
      destruct (cell r "instrument_name") as [| | | |s| | | | |]; try done.
      by destruct (Hns s).
  - intros d pre i r Hpre Hnd Hin Hns Hi.
    apply list_elem_of_fmap in Hi as ([j r'] & Hj & Hin'). simpl in Hj. subst j.
    destruct (sorted_frame_row _ _ _ _ Hpre Hin')
      as (r0 & s & u & e & k & o & t & Hr0 & Hs & _).
    rewrite (label_unique _ _ _ _ Hnd Hin Hr0) in Hns. by destruct (Hns s).
Qed.

Lemma monolith_instrument_not_text_witness :
  has_col blank_instrument "instrument_name" = true /\
  first_row blank_instrument ∈ rows blank_instrument /\
  (forall s, cell (first_row blank_instrument).2 "instrument_name" <> VStr s) /\
  Monolith.normalize_deribit_csv blank_instrument
    = Raise (AttributeError "object has no attribute 'split'").
Proof.
  assert (Hns : forall s,
            cell (first_row blank_instrument).2 "instrument_name" <> VStr s)
    by (intros s; vm_compute; discriminate).
  split; [reflexivity|]. split; [left|]. split; [exact Hns|].
  exact (proj1 monolith_instrument_not_text blank_instrument
           (first_row blank_instrument).1 (first_row blank_instrument).2
           eq_refl (list_elem_of_here _ _) Hns).
Defined.

(** ** Strikes as numbers *)

Lemma digit_char c :
  is_digit c = true ->
  is_space c = false /\ lower_char c = c /\ 0 <= digit_val c /\
  Ascii.eqb c "-" = false /\ Ascii.eqb c "+" = false /\
  Ascii.eqb c "_" = false /\ Ascii.eqb c "i" = false /\
  Ascii.eqb c "n" = false.
Proof. destruct c as [[] [] [] [] [] [] [] []]; by vm_compute. Qed.

Lemma str_app_empty (s : string) : s +:+ "" = s.
Proof.
  induction s as [|c s IH]; [done|].
  change (String c (s +:+ "") = String c s). by rewrite IH.
Qed.

Lemma digits_val_nonneg w acc :
  str_forall is_digit w = true -> 0 <= acc -> 0 <= digits_val w acc.
Proof.
  revert acc. induction w as [|c w IH]; simpl; intros acc H Hacc; [done|].
  apply andb_true_iff in H as [Hc Hw].
  destruct (digit_char c Hc) as (_ & _ & Hd & _). apply IH; [done | lia].
Qed.

Lemma take_digits_digits us w r acc n :
  str_forall is_digit w = true ->
  take_digits us (w +:+ r) acc n
    = take_digits us r (digits_val w acc) (n + String.length w)%nat.
Proof.
  revert acc n. induction w as [|c w IH]; simpl; intros acc n H.
  - by rewrite Nat.add_0_r.
  - apply andb_true_iff in H as [Hc Hw]. rewrite Hc, (IH _ _ Hw).
    f_equal. lia.
Qed.

Lemma take_number_digits us k1 :
  k1 <> "" -> str_forall is_digit k1 = true ->
  take_number us k1
    = Some (digits_val k1 0, 0, true, String.length k1, "").
Proof.
  intros Hne Hk1. unfold take_number.
  rewrite <- (str_app_empty k1) at 1. rewrite (take_digits_digits _ _ _ _ _ Hk1).
  simpl. destruct k1 as [|c k1]; [done|]. by simpl.
Qed.

Lemma take_number_fraction us k1 k2 :
  k1 <> "" -> str_forall is_digit k1 = true -> str_forall is_digit k2 = true ->
  take_number us (k1 +:+ "." +:+ k2)
    = Some (digits_val k2 (digits_val k1 0), - Z.of_nat (String.length k2),
            false, String.length k1, "").
Proof.
  intros Hne Hk1 Hk2. unfold take_number.
  rewrite (take_digits_digits _ _ _ _ _ Hk1).
  change ("." +:+ k2) with (String "." k2).
  cbn [take_digits]. change (is_digit ".") with false. cbv iota.
  change (Ascii.eqb "." "_") with false. rewrite andb_false_r. cbn [andb].
  rewrite <- (str_app_empty k2) at 1. rewrite (take_digits_digits _ _ _ _ _ Hk2).
  simpl. destruct k1 as [|c k1]; [done|]. by simpl.
Qed.

Lemma rstrip_no_space s :
  str_forall (fun c => negb (is_space c)) s = true -> rstrip s = s.
Proof.
  induction s as [|c s IH]; simpl; [done|]. intros H.
  apply andb_true_iff in H as [Hc Hs]. apply negb_true_iff in Hc.
  rewrite (IH Hs), Hc. by destruct s.
Qed.

Lemma strip_no_space s :
  str_forall (fun c => negb (is_space c)) s = true -> strip s = s.
Proof.
  intros H. unfold strip. destruct s as [|c s]; [done|].
  pose proof H as H'. simpl in H'. apply andb_true_iff in H' as [Hc _].
  apply negb_true_iff in Hc. simpl lstrip. rewrite Hc.
  by apply rstrip_no_space.
Qed.

Lemma c_space_space c : is_space c = false -> is_c_space c = false.
Proof. destruct c as [[] [] [] [] [] [] [] []]; by vm_compute. Qed.

Lemma rstrip_c_no_space s :
  str_forall (fun c => negb (is_space c)) s = true -> rstrip_c s = s.
Proof.
  induction s as [|c s IH]; simpl; [done|]. intros H.
  apply andb_true_iff in H as [Hc Hs]. apply negb_true_iff in Hc.
  rewrite (IH Hs), (c_space_space c Hc). by destruct s.
Qed.

Lemma strip_c_no_space s :
  str_forall (fun c => negb (is_space c)) s = true -> strip_c s = s.
Proof.
  intros H. unfold strip_c. destruct s as [|c s]; [done|].
  pose proof H as H'. simpl in H'. apply andb_true_iff in H' as [Hc _].
  apply negb_true_iff in Hc. simpl lstrip_c. rewrite (c_space_space c Hc).
  by apply rstrip_c_no_space.
Qed.

Lemma take_sign_digit c r :
  is_digit c = true -> take_sign (String c r) = (false, String c r).
Proof. destruct c as [[] [] [] [] [] [] [] []]; by vm_compute. Qed.

Lemma digit_not_word c r :
  is_digit c = true ->
  str_eqb (lower (String c r)) "inf" || str_eqb (lower (String c r)) "infinity"
    = false /\
  str_eqb (lower (String c r)) "nan" = false.
Proof. destruct c as [[] [] [] [] [] [] [] []]; by vm_compute. Qed.

Lemma decimal_nonneg m e : 0 <= m -> (0 <= decimal m e)%Q.
Proof.
  intros Hm. unfold decimal. destruct (0 <=? e) eqn:He.
  - apply Z.leb_le in He. unfold Qle. simpl.
    pose proof (Z.pow_nonneg 10 e ltac:(lia)). nia.
  - unfold Qle. simpl. lia.
Qed.

Lemma number_char_no_space c :
  is_digit c || Ascii.eqb c "." = true -> negb (is_space c) = true.
Proof. destruct c as [[] [] [] [] [] [] [] []]; by vm_compute. Qed.

(** A strike as the instrument pattern writes it denotes a float that
    is a number and not negative, the same for [float()] and for
    [pd.to_numeric]. *)
Lemma decimal_text_float k :
  decimal_text k ->
  exists q, (0 <= q)%Q /\ forall us, float_of_text us k = Some (Fin q).
Proof.
  intros (k1 & k2 & Hne & Hk1 & Hk2 & Hk).
  assert (Hsp1 : str_forall (fun c => negb (is_space c)) k1 = true).
  { eapply str_forall_impl; [|exact Hk1]. intros c Hc.
    apply number_char_no_space. by rewrite Hc. }
  assert (Hsp2 : str_forall (fun c => negb (is_space c)) k2 = true).
  { eapply str_forall_impl; [|exact Hk2]. intros c Hc.
    apply number_char_no_space. by rewrite Hc. }
  destruct k1 as [|c k1']; [done|].
  pose proof Hk1 as Hc. simpl in Hc. apply andb_true_iff in Hc as [Hc _].
  destruct (digit_not_word c) with (r := k1') as [Hw1 Hw2]; [done|].
  destruct Hk as [->|[Hne2 ->]].
  - exists (decimal (digits_val (String c k1') 0) 0). split.
    + apply decimal_nonneg, digits_val_nonneg; [done | lia].
    + intros us. unfold float_of_text.
      rewrite (strip_c_no_space _ Hsp1), (take_sign_digit _ _ Hc), Hw1, Hw2.
      by rewrite (take_number_digits us _ Hne Hk1).
  - exists (decimal (digits_val k2 (digits_val (String c k1') 0))
              (- Z.of_nat (String.length k2))). split.
    + apply decimal_nonneg, digits_val_nonneg; [done|].
      apply digits_val_nonneg; [done | lia].
    + intros us. unfold float_of_text.
      rewrite strip_c_no_space
        by (rewrite str_forall_app, Hsp1; change ("." +:+ k2) with (String "." k2);
            cbn [str_forall andb]; by rewrite Hsp2).
      change (String c k1' +:+ "." +:+ k2)
        with (String c (k1' +:+ "." +:+ k2)).
      rewrite (take_sign_digit _ _ Hc).
      destruct (digit_not_word c (k1' +:+ "." +:+ k2) Hc) as [-> ->].
      change (String c (k1' +:+ "." +:+ k2))
        with (String c k1' +:+ "." +:+ k2).
      by rewrite (take_number_fraction us _ _ Hne Hk1 Hk2).
Qed.

Lemma digit_not_null_word c r :
  is_digit c = true ->
  str_in (lower (String c r)) Monolith.null_words = false.
Proof. destruct c as [[] [] [] [] [] [] [] []]; by vm_compute. Qed.

Lemma decimal_text_no_space k :
  decimal_text k ->
  str_forall (fun c => negb (is_space c)) k = true /\
  exists c r, k = String c r /\ is_digit c = true.
Proof.
  intros (k1 & k2 & Hne & Hk1 & Hk2 & Hk).
  assert (Hsp : forall w, str_forall is_digit w = true ->
                          str_forall (fun c => negb (is_space c)) w = true).
  { intros w Hw. eapply str_forall_impl; [|exact Hw]. intros c Hc.
    apply number_char_no_space. by rewrite Hc. }
  destruct k1 as [|c k1']; [done|].
  pose proof Hk1 as Hc. simpl in Hc. apply andb_true_iff in Hc as [Hc _].
  destruct Hk as [->|[_ ->]].
  - split; [by apply Hsp | by exists c, k1'].
  - split.
    + rewrite str_forall_app, (Hsp _ Hk1).
      change ("." +:+ k2) with (String "." k2). cbn [str_forall andb].
      by rewrite (Hsp _ Hk2).
    + by exists c, (k1' +:+ "." +:+ k2).
Qed.

(** Both scripts read the strike of a well-formed code as the same
    number. *)
Lemma decimal_text_strike k :
  decimal_text k ->
  exists q, (0 <= q)%Q /\ to_numeric (VStr k) = Fin q /\
            Monolith._safe_float (VStr k) = Ok (Fin q).
Proof.
  intros Hk. destruct (decimal_text_float k Hk) as (q & Hq & Hf).
  destruct (decimal_text_no_space k Hk) as (Hsp & c & r & -> & Hc).
  exists q. split; [done|]. split.
  - simpl. unfold pd_float_text. by rewrite Hf.
  - rewrite safe_float_text, (strip_no_space _ Hsp), (digit_not_null_word _ _ Hc).
    unfold py_float_text. by rewrite Hf.
Qed.

Lemma take_digits_nonneg us s acc n m k r :
  0 <= acc -> take_digits us s acc n = (m, k, r) -> 0 <= m.
Proof.
  revert acc n. induction s as [|c s IH]; simpl; intros acc n Hacc H.
  - by inversion H; subst.
  - destruct (is_digit c) eqn:Hc.
    + destruct (digit_char c Hc) as (_ & _ & Hd & _).
      apply (IH (acc * 10 + digit_val c) (S n)); [lia | done].
    + destruct (us && Ascii.eqb c "_" && negb (n =? 0)%nat).
      * destruct s as [|d s']; [by inversion H; subst|].
        destruct (is_digit d); [by apply (IH acc n) | by inversion H; subst].
      * by inversion H; subst.
Qed.

Lemma take_number_nonneg us s m e b n r :
  take_number us s = Some (m, e, b, n, r) -> 0 <= m.
Proof.
  unfold take_number.
  destruct (take_digits us s 0 0) as [[ip n1] r1] eqn:E1.
  pose proof (take_digits_nonneg _ _ _ _ _ _ _ (Z.le_refl 0) E1) as Hip.
  assert (Hm : forall m' n2 dot r2,
            match r1 with
            | String "." r0 =>
                let '(m0, n0, r3) := take_digits us r0 ip 0 in (m0, n0, true, r3)
            | _ => (ip, 0%nat, false, r1)
            end = (m', n2, dot, r2) -> 0 <= m').
  { intros m' n2 dot r2 H. destruct r1 as [|c r0]; [by inversion H; subst|].
    destruct (Ascii.eqb_spec c ".") as [->|Hne].
    - destruct (take_digits us r0 ip 0) as [[m0 n0] r3] eqn:E2.
      inversion H; subst. by apply (take_digits_nonneg _ _ _ _ _ _ _ Hip E2).
    - assert (H' : (ip, 0%nat, false, String c r0) = (m', n2, dot, r2)).
      { rewrite <- H. clear -Hne.
        destruct c as [[] [] [] [] [] [] [] []]; try reflexivity. by destruct Hne. }
      by inversion H'; subst. }
  destruct (match r1 with String "." _ => _ | _ => _ end)
    as [[[m' n2] dot] r2] eqn:E.
  specialize (Hm _ _ _ _ eq_refl). clear E.
  destruct (n1 + n2 =? 0)%nat; [done|].
  destruct r2 as [|c r2'].
  - intros H. by inversion H; subst.
  - destruct (Ascii.eqb c "e" || Ascii.eqb c "E").
    + destruct (take_sign r2') as [neg r3].
      destruct (take_digits us r3 0 0) as [[ex n3] r4].
      destruct (n3 =? 0)%nat; [done|]. intros H. by inversion H; subst.
    + intros H. by inversion H; subst.
Qed.

Lemma lstrip_forall p s :
  str_forall p s = true -> str_forall p (lstrip s) = true.
Proof.
  induction s as [|c s IH]; simpl; [done|]. intros H.
  destruct (is_space c); [|done].
  apply andb_true_iff in H as [_ Hs]. by apply IH.
Qed.

Lemma rstrip_forall p s :
  str_forall p s = true -> str_forall p (rstrip s) = true.
Proof.
  induction s as [|c s IH]; simpl; [done|]. intros H.
  apply andb_true_iff in H as [Hc Hs]. specialize (IH Hs).
  destruct (rstrip s) as [|d r].
  - destruct (is_space c); simpl; [done | by rewrite Hc].
  - change (p c && str_forall p (String d r) = true). by rewrite Hc, IH.
Qed.

Lemma lstrip_c_forall p s :
  str_forall p s = true -> str_forall p (lstrip_c s) = true.
Proof.
  induction s as [|c s IH]; simpl; [done|]. intros H.
  destruct (is_c_space c); [|done].
  apply andb_true_iff in H as [_ Hs]. by apply IH.
Qed.

Lemma rstrip_c_forall p s :
  str_forall p s = true -> str_forall p (rstrip_c s) = true.
Proof.
  induction s as [|c s IH]; simpl; [done|]. intros H.
  apply andb_true_iff in H as [Hc Hs]. specialize (IH Hs).
  destruct (rstrip_c s) as [|d r].
  - destruct (is_c_space c); simpl; [done | by rewrite Hc].
  - change (p c && str_forall p (String d r) = true). by rewrite Hc, IH.
Qed.

Lemma take_sign_cases c r :
  c = "-"%char \/ take_sign (String c r) = (false, r) \/
  take_sign (String c r) = (false, String c r).
Proof. destruct c as [[] [] [] [] [] [] [] []]; vm_compute; auto. Qed.

(** A text without a dash never reads as a negative number. *)
Lemma float_of_text_no_dash us s f :
  str_forall (fun c => negb (Ascii.eqb c "-")) s = true ->
  float_of_text us s = Some f ->
  f = NaN \/ f = PInf \/ exists q, f = Fin q /\ (0 <= q)%Q.
Proof.
  intros Hs. unfold float_of_text.
  assert (Ht : str_forall (fun c => negb (Ascii.eqb c "-")) (strip_c s) = true)
    by (by apply rstrip_c_forall, lstrip_c_forall).
  assert (Hsign : exists r, take_sign (strip_c s) = (false, r)).
  { destruct (strip_c s) as [|c t]; [by exists ""|].
    destruct (take_sign_cases c t) as [->|[H|H]]; [done | eauto | eauto]. }
  destruct Hsign as (r & ->).
  destruct (str_eqb (lower r) "inf" || str_eqb (lower r) "infinity").
  { intros [= <-]. auto. }
  destruct (str_eqb (lower r) "nan"). { intros [= <-]. auto. }
  destruct (take_number us r) as [[[[[m e] b] n] [|? ?]]|] eqn:E; try done.
  intros [= <-]. right. right. eexists. split; [done|].
  apply decimal_nonneg. by apply (take_number_nonneg _ _ _ _ _ _ _ E).
Qed.

Lemma split_on_no_sep sep s w :
  w ∈ split_on sep s ->
  str_forall (fun c => negb (Ascii.eqb c sep)) w = true.
Proof.
  revert w. induction s as [|c s IH]; simpl; intros w Hw.
  - apply list_elem_of_singleton in Hw. by subst.
  - destruct (Ascii.eqb c sep) eqn:Ec.
    + apply elem_of_cons in Hw as [->|Hw]; [done | by apply IH].
    + destruct (split_on sep s) as [|f fs].
      * apply list_elem_of_singleton in Hw. subst. simpl. by rewrite Ec.
      * apply elem_of_cons in Hw as [->|Hw].
        -- simpl. rewrite Ec. simpl. apply IH. left.
        -- apply IH. by right.
Qed.

(** X7. No strike of the output is negative.  In the study it is a
    finite number, zero or more, since the pattern admits digits and one
    dot only.  In the monolith it is zero or more or infinite: a dash
    would split the code into more than four fields, but [float] reads
    the word inf. *)
Theorem strike_not_negative :
  (forall h raw d out ir,
     h !! raw = Some d -> study_returns h raw out -> ir ∈ rows out ->
     exists q, cell ir.2 "strike" = VFloat (Fin q) /\ (0 <= q)%Q) /\
  (forall src out ir,
     Monolith.normalize_deribit_csv src = Ok out -> ir ∈ rows out ->
     exists f, cell ir.2 "strike" = VFloat f /\
       (f = PInf \/ exists q, f = Fin q /\ (0 <= q)%Q)).
Proof.
  split.
  - intros h raw d out [j r'] Hraw Hret Hin.
    destruct (study_returns_frame _ _ _ _ Hraw Hret) as (pre & Hpre & ->).
    apply elem_of_reset_index in Hin as (i & Hin). simpl.
    destruct (sorted_frame_row _ _ _ _ Hpre Hin)
      as (r & s & u & e & k & o & t & _ & _ & Hre & _ & _ & _ & Hk & _).
    destruct (INSTRUMENT_RE_fields _ _ _ _ _ Hre) as (tail & _ & _ & _ & _ & _ & Hdec).
    destruct (decimal_text_strike k Hdec) as (q & Hq & Hn & _).
    exists q. by rewrite Hk, Hn.
  - intros src out [i r'] Hn Hin. simpl.
    destruct (normalize_row _ _ _ _ Hn Hin)
      as (r & sy & ex & st & ot & tb & ta & _ & Hsplit & _ & Hex & Hst & _ & _ & _
          & _ & _ & _ & _ & Hreq & _).
    pose proof (Hreq "expiration" ltac:(in_list)) as Hne.
    pose proof (Hreq "strike" ltac:(in_list)) as Hns.
    rewrite Hex in Hne. rewrite Hst in Hns.
    destruct (split_instrument_kept _ _ _ _ _ Hsplit Hne Hns)
      as (s & sym & e & k & side & t & f & _ & Hsp & _ & Hf & Hnan & _ & _ & -> & _).
    exists f. rewrite Hst. split; [done|].
    assert (Hk : str_forall (fun c => negb (Ascii.eqb c "-")) k = true).
    { apply (split_on_no_sep "-" s). rewrite Hsp. in_list. }
    rewrite safe_float_text in Hf.
    destruct (str_in _ _); [by inversion Hf; subst|].
    destruct (py_float_text k) as [g|] eqn:Eg; [|by inversion Hf; subst].
    inversion Hf; subst g.
    destruct (float_of_text_no_dash _ _ _ Hk Eg) as [->|[->|Hq]]; [done | auto | auto].
Qed.

Lemma strike_not_negative_witness :
  [one_quote] !! 0%nat = Some one_quote /\
  study_returns [one_quote] 0%nat one_quote_out /\
  first_row one_quote_out ∈ rows one_quote_out /\
  exists q, cell (first_row one_quote_out).2 "strike" = VFloat (Fin q) /\ (0 <= q)%Q.
Proof.
  split; [reflexivity|]. split; [exact one_quote_returns|]. split; [left|].
  exact (proj1 strike_not_negative [one_quote] 0%nat one_quote one_quote_out
           (first_row one_quote_out) eq_refl one_quote_returns
           (list_elem_of_here _ _)).
Defined.

(** ** The two readers of instrument codes *)

Lemma split_on_forall p sep s w :
  str_forall p s = true -> w ∈ split_on sep s -> str_forall p w = true.
Proof.
  revert w. induction s as [|c s IH]; simpl; intros w Hs Hw.
  - apply list_elem_of_singleton in Hw. by subst.
  - apply andb_true_iff in Hs as [Hc Hs].
    destruct (Ascii.eqb c sep).
    + apply elem_of_cons in Hw as [->|Hw]; [done | by apply IH].
    + destruct (split_on sep s) as [|f fs].
      * apply list_elem_of_singleton in Hw. subst. simpl. by rewrite Hc.
      * apply elem_of_cons in Hw as [->|Hw].
        -- simpl. rewrite Hc. simpl. apply IH; [done | left].
        -- apply IH; [done | by right].
Qed.

(** X8. On a code the study pattern accepts, a final newline apart,
    [_split_instrument] of the monolith returns the fields the study
    extracts: the same symbol, the same expiration (or no date when the
    date does not parse), the same strike and the same option type. *)
Theorem readers_agree s u e k o :
  INSTRUMENT_RE s = Some (u, e, k, o) ->
  str_forall (fun c => negb (Ascii.eqb c "010")) s = true ->
  Monolith._split_instrument (VStr s)
    = Ok (VStr u, to_datetime_dby (VStr e), VFloat (to_numeric (VStr k)),
          Study.map_option (VStr o)).
Proof.
  intros Hre Hnl.
  destruct (INSTRUMENT_RE_fields _ _ _ _ _ Hre)
    as (tail & Hsp & Htail & Ho & _ & _ & Hdec).
  assert (tail = "") as ->.
  { destruct Htail as [->| ->]; [done|].
    assert (Hin : o +:+ String "010" "" ∈ split_on "-" s) by (rewrite Hsp; in_list).
    pose proof (split_on_forall _ _ _ _ Hnl Hin) as Hw.
    rewrite str_forall_app in Hw. apply andb_true_iff in Hw as [_ Hw]. done. }
  rewrite str_app_empty in Hsp.
  destruct (decimal_text_strike k Hdec) as (q & _ & Hn & Hf).
  unfold Monolith._split_instrument. rewrite Hsp, Hf, Hn. simpl.
  by destruct Ho as [-> | ->].
Qed.

Lemma readers_agree_witness :
  INSTRUMENT_RE "ETH-13AUG25-3800-C" = Some ("ETH", "13AUG25", "3800", "C") /\
  Monolith._split_instrument (VStr "ETH-13AUG25-3800-C")
    = Ok (VStr "ETH", to_datetime_dby (VStr "13AUG25"),
          VFloat (to_numeric (VStr "3800")), Study.map_option (VStr "C")).
Proof.
  split; [reflexivity|].
  exact (readers_agree "ETH-13AUG25-3800-C" "ETH" "13AUG25" "3800" "C"
           eq_refl eq_refl).
Defined.

Lemma span_stop p w r :
  str_forall p w = true ->
  match r with String c _ => p c = false | EmptyString => True end ->
  span p (w +:+ r) = (w, r).
Proof.
  intros Hw Hr. induction w as [|c w IH].
  - change ("" +:+ r) with r. destruct r as [|c r]; simpl; [done|]. by rewrite Hr.
  - change (String c w +:+ r) with (String c (w +:+ r)).
    simpl in Hw. apply andb_true_iff in Hw as [Hc Hw].
    simpl. by rewrite Hc, (IH Hw).
Qed.

Lemma upper_not_digit c : is_upper c = true -> is_digit c = false.
Proof. destruct c as [[] [] [] [] [] [] [] []]; by vm_compute. Qed.

Lemma digit_not_upper c : is_digit c = true -> is_upper c = false.
Proof. destruct c as [[] [] [] [] [] [] [] []]; by vm_compute. Qed.

Lemma expect_here c r : expect c (String c r) = Some r.
Proof. simpl. by rewrite Ascii.eqb_refl. Qed.

Lemma nonempty_length (s : string) : s <> "" -> (0 <? String.length s)%nat = true.
Proof. by destruct s. Qed.

(** X9. The pattern accepts every code written in the format: an
    upper-case underlying, a day of one or two digits, three upper-case
    letters, two digits of year, a strike in digits with an optional
    fraction and the letter C or P, joined by dashes; its groups are the
    fields as written. *)
Theorem INSTRUMENT_RE_accepts u dd mon yy k o :
  u <> "" -> str_forall is_upper u = true ->
  str_forall is_digit dd = true ->
  (String.length dd = 1 \/ String.length dd = 2)%nat ->
  str_forall is_upper mon = true -> String.length mon = 3%nat ->
  str_forall is_digit yy = true -> String.length yy = 2%nat ->
  decimal_text k -> o = "C" \/ o = "P" ->
  INSTRUMENT_RE (u +:+ "-" +:+ dd +:+ mon +:+ yy +:+ "-" +:+ k +:+ "-" +:+ o)
    = Some (u, dd +:+ mon +:+ yy, k, o).
Proof.
  intros Hu Uu Hdd Ldd Hmon Lmon Hyy Lyy Hk Ho.
  change (INSTRUMENT_RE
            (u +:+ String "-" (dd +:+ mon +:+ yy +:+ String "-" (k +:+ String "-" o)))
          = Some (u, dd +:+ mon +:+ yy, k, o)).
  unfold INSTRUMENT_RE.
  rewrite (span_stop is_upper u _ Uu) by reflexivity.
  rewrite (nonempty_length u Hu). cbn [negb]. rewrite expect_here.
  cbn [mbind option_bind].
  destruct mon as [|m1 [|m2 [|m3 [|? ?]]]]; try discriminate Lmon.
  destruct yy as [|y1 [|y2 [|? ?]]]; try discriminate Lyy.
  pose proof Hmon as Hm1. simpl in Hm1. apply andb_true_iff in Hm1 as [Hm1 _].
  pose proof Hyy as Hy1. simpl in Hy1. apply andb_true_iff in Hy1 as [Hy1 _].
  rewrite (span_stop is_digit dd _ Hdd) by (by apply upper_not_digit).
  rewrite (span_stop is_upper _ _ Hmon) by (by apply digit_not_upper).
  replace ((String.length dd =? 1)%nat || (String.length dd =? 2)%nat) with true
    by (by destruct Ldd as [-> | ->]).
  cbn [String.length Nat.eqb andb negb].
  rewrite (span_stop is_digit _ _ Hyy) by reflexivity.
  cbn [String.length Nat.eqb andb negb]. rewrite expect_here.
  cbn [mbind option_bind].
  destruct Hk as (k1 & k2 & Hne & Hk1 & Hk2 & [->|[Hne2 ->]]).
  - rewrite (span_stop is_digit k1 _ Hk1) by reflexivity.
    rewrite (nonempty_length k1 Hne). cbn [negb mbind option_bind].
    rewrite expect_here. cbn [mbind option_bind].
    by destruct Ho as [-> | ->].
  - rewrite (str_app_assoc k1 ("." +:+ k2)).
    change (("." +:+ k2) +:+ String "-" o)
      with (String "." (k2 +:+ String "-" o)).
    rewrite (span_stop is_digit k1 _ Hk1) by reflexivity.
    rewrite (nonempty_length k1 Hne). cbn [negb].
    rewrite (span_stop is_digit k2 _ Hk2) by reflexivity.
    rewrite (nonempty_length k2 Hne2). cbn [mbind option_bind].
    rewrite expect_here. cbn [mbind option_bind].
    by destruct Ho as [-> | ->].
Qed.

Lemma INSTRUMENT_RE_accepts_witness :
  decimal_text "3800.5" /\
  INSTRUMENT_RE ("ETH" +:+ "-" +:+ "3" +:+ "AUG" +:+ "25" +:+ "-" +:+ "3800.5"
                 +:+ "-" +:+ "P")
    = Some ("ETH", "3" +:+ "AUG" +:+ "25", "3800.5", "P").
Proof.
  assert (Hk : decimal_text "3800.5").
  { exists "3800", "5". repeat split; try done. right. by split. }
  split; [exact Hk|].
  apply (INSTRUMENT_RE_accepts "ETH" "3" "AUG" "25" "3800.5" "P");
    try reflexivity; try done; auto.
Defined.

(** ** Rows the scripts keep *)

Lemma concat_extract_fwd d d' i r :
  Study.concat_extract d = Ok d' -> (i, r) ∈ rows d ->
  (i, <["option" := (Study.str_extract (cell r "instrument_name")).2]>
        (<["strike" := (Study.str_extract (cell r "instrument_name")).1.2]>
        (<["expiration" := (Study.str_extract (cell r "instrument_name")).1.1.2]>
        (<["underlying" := (Study.str_extract (cell r "instrument_name")).1.1.1]> r))))
    ∈ rows d'.
Proof.
  unfold Study.concat_extract. intros H Hin. apply bind_Ok in H as ([] & _ & H).
  destruct (negb _); [discriminate|].
  destruct (existsb _ _); [discriminate|]. inversion H; subst; clear H. simpl.
  apply list_elem_of_fmap. exists (i, r). split; [|done]. simpl.
  by destruct (Study.str_extract (cell r "instrument_name")) as [[[u e] k] o].
Qed.

Lemma dropna_fwd d cs d' i r :
  dropna d cs = Ok d' -> (i, r) ∈ rows d ->
  (forall c, c ∈ cs -> isna (cell r c) = false) -> (i, r) ∈ rows d'.
Proof.
  intros H Hin Hna. rewrite (dropna_Ok _ _ _ H). apply elem_of_select.
  split; [done|]. apply forallb_forall. intros c Hc.
  apply list_elem_of_In in Hc. by rewrite (Hna c Hc).
Qed.

Lemma assignR_fwd d c f d' i r :
  assignR d c f = Ok d' -> (i, r) ∈ rows d ->
  exists v, f r = Ok v /\ (i, <[c := v]> r) ∈ rows d'.
Proof.
  unfold assignR. intros H Hin. apply bind_Ok in H as (rs & Hrs & H).
  inversion H; subst; clear H. simpl.
  destruct (mapR_Ok_all _ _ _ _ Hrs Hin) as (y & Hy & Hin'). simpl in Hy.
  destruct (f r) as [v|]; simpl in Hy; [|discriminate].
  inversion Hy; subst. by exists v.
Qed.

Lemma setitem_fwd d c f d' i r :
  setitem d c f = Ok d' -> (i, r) ∈ rows d -> (i, <[c := f d r]> r) ∈ rows d'.
Proof.
  intros H Hin. inversion H; subst. simpl.
  apply list_elem_of_fmap. by exists (i, r).
Qed.

Lemma project_fwd d cs d' i r :
  project d cs = Ok d' -> (i, r) ∈ rows d ->
  exists r', (i, r') ∈ rows d' /\ forall c, c ∈ cs -> r' !! c = Some (cell r c).
Proof.
  unfold project. intros H Hin. apply bind_Ok in H as ([] & _ & H).
  inversion H; subst; clear H. simpl. eexists. split.
  - apply list_elem_of_fmap. by exists (i, r).
  - intros c Hc. by apply lookup_projected.
Qed.

Lemma rename_fwd d old new i r :
  (i, r) ∈ rows d ->
  exists r', (i, r') ∈ rows (rename d old new) /\
    (forall c, c <> old -> c <> new -> cell r' c = cell r c) /\
    (is_Some (r !! old) -> cell r' new = cell r old).
Proof.
  intros Hin. eexists. split.
  - simpl. apply list_elem_of_fmap. by exists (i, r).
  - simpl. destruct (r !! old) as [v|] eqn:E.
    + split.
      * intros c Ho Hn. unfold cell.
        by rewrite lookup_insert_ne, lookup_delete_ne.
      * intros _. unfold cell. by rewrite lookup_insert_eq, E.
    + split; [done|]. by intros [? ?].
Qed.

Lemma sorted_frame_keeps d pre i r s u e k o t b a :
  Study.sorted_frame d = Ok pre -> (i, r) ∈ rows d ->
  cell r "instrument_name" = VStr s ->
  INSTRUMENT_RE s = Some (u, e, k, o) -> strptime_dby e = Some t ->
  isna (Study.underlying_of d r) = false ->
  Study.resolve (df_get d "best_bid_price" r) (cell r "bids") = Ok b ->
  Study.gt0 b = true ->
  Study.resolve (df_get d "best_ask_price" r) (cell r "asks") = Ok a ->
  Study.gt0 a = true ->
  exists r', (i, r') ∈ rows pre /\ cell r' "bid" = b /\ cell r' "ask" = a.
Proof.
  intros H Hin Hs Hre Ht Hund Hb Hbpos Ha Hapos. study_steps H.
  apply sort_values_Ok in H as [_ Hrows].
  pose proof (concat_extract_fwd _ _ _ _ E1 Hin) as Hin1.
  unfold Study.str_extract in Hin1. rewrite Hs, Hre in Hin1. simpl in Hin1.
  remember (<["option" := VStr o]> (<["strike" := VStr k]>
             (<["expiration" := VStr e]> (<["underlying" := VStr u]> r)))) as r1 eqn:Er1.
  assert (Hin2 : (i, r1) ∈ rows d2).
  { apply (dropna_fwd _ _ _ _ _ E2 Hin1). intros c Hc.
    apply list_elem_of_In in Hc. simpl in Hc.
    destruct Hc as [<-|[<-|[<-|[<-|[]]]]]; subst r1; by cells. }
  destruct (assignR_fwd _ _ _ _ _ _ E4 Hin2) as (vq & Hvq & Hin4).
  remember (<["quote_date" := vq]> r1) as r4 eqn:Er4.
  pose proof (setitem_fwd _ _ _ _ _ _ E5 Hin4) as Hin5. simpl in Hin5.
  remember (<["expiration" := to_datetime_dby (cell r4 "expiration")]> r4) as r5 eqn:Er5.
  assert (Hexp : cell r5 "expiration" = VTimestamp t).
  { cell_down. unfold to_datetime_dby. by rewrite Ht. }
  assert (Hin6 : (i, r5) ∈ rows d6).
  { apply (dropna_fwd _ _ _ _ _ E6 Hin5). intros c Hc.
    apply list_elem_of_singleton in Hc. subst c. by rewrite Hexp. }
  pose proof (setitem_fwd _ _ _ _ _ _ E7 Hin6) as Hin7. simpl in Hin7.
  remember (<["option_type" := Study.map_option (cell r5 "option")]> r5) as r7 eqn:Er7.
  pose proof (setitem_fwd _ _ _ _ _ _ E8 Hin7) as Hin8. simpl in Hin8.
  remember (<["strike" := VFloat (to_numeric (cell r7 "strike"))]> r7) as r8 eqn:Er8.
  pose proof (setitem_fwd _ _ _ _ _ _ E9 Hin8) as Hin9. simpl in Hin9.
  remember (<["bid" := Study.numeric d8 "best_bid_price" r8]> r8) as r9 eqn:Er9.
  pose proof (setitem_fwd _ _ _ _ _ _ E10 Hin9) as Hin10. simpl in Hin10.
  remember (<["ask" := Study.numeric d9 "best_ask_price" r9]> r9) as r10 eqn:Er10.
  destruct (assignR_fwd _ _ _ _ _ _ E12 Hin10) as (vb & Hvb & Hin12).
  remember (<["bid" := vb]> r10) as r12 eqn:Er12.
  destruct (assignR_fwd _ _ _ _ _ _ E14 Hin12) as (va & Hva & Hin14).
  remember (<["ask" := va]> r12) as r14 eqn:Er14.
  assert (vb = b) as ->.
  { revert Hvb. unfold Study.ladder_fallback. cell_down.
    rewrite (numeric_same d d8 "best_bid_price" r r8) by (by cols || by cell_down).
    unfold Study.resolve in Hb. fold (Study.numeric d "best_bid_price" r) in Hb.
    rewrite Hb. by intros [= ->]. }
  assert (va = a) as ->.
  { revert Hva. unfold Study.ladder_fallback. cell_down.
    rewrite (numeric_same d d9 "best_ask_price" r r9) by (by cols || by cell_down).
    unfold Study.resolve in Ha. fold (Study.numeric d "best_ask_price" r) in Ha.
    rewrite Ha. by intros [= ->]. }
  pose proof (setitem_fwd _ _ _ _ _ _ E15 Hin14) as Hin15. simpl in Hin15.
  remember (<["underlying_price" := Study.numeric d14 "underlying_price" r14]> r14)
    as r15 eqn:Er15.
  pose proof (setitem_fwd _ _ _ _ _ _ E16 Hin15) as Hin16. simpl in Hin16.
  remember (<["underlying_price" := Study.fill_underlying d15 r15]> r15)
    as r16 eqn:Er16.
  pose proof (setitem_fwd _ _ _ _ _ _ E17 Hin16) as Hin17. simpl in Hin17.
  remember (<["delta" := Study.numeric d16 "greeks.delta" r16]> r16) as r17 eqn:Er17.
  pose proof (setitem_fwd _ _ _ _ _ _ E18 Hin17) as Hin18. simpl in Hin18.
  remember (<["volume" := Study.numeric d17 "stats.volume" r17]> r17) as r18 eqn:Er18.
  pose proof (setitem_fwd _ _ _ _ _ _ E19 Hin18) as Hin19. simpl in Hin19.
  remember (<["open_interest" := Study.numeric d18 "open_interest" r18]> r18)
    as r19 eqn:Er19.
  destruct (project_fwd _ _ _ _ _ E20 Hin19) as (r20 & Hin20 & Hc20).
  inversion E21; subst d21; clear E21.
  destruct (rename_fwd d20 "underlying" "underlying_symbol" _ _ Hin20)
    as (r21 & Hin21 & Hsame & Hsym).
  inversion E23; subst d23; clear E23.
  assert (Hcell : forall c, c ∈ Study.output_columns -> cell r20 c = cell r19 c).
  { intros c Hc. by apply cell_lookup, Hc20. }
  assert (Hund16 : cell r16 "underlying_price" = Study.underlying_of d r).
  { cell_down. unfold Study.fill_underlying, Study.underlying_of. cell_down.
    rewrite (numeric_same d d14 "underlying_price" r r14) by (by cols || by cell_down).
    rewrite (numeric_same d d15 "index_price" r r15) by (by cols || by cell_down).
    done. }
  assert (Hbid : cell r21 "bid" = b).
  { rewrite Hsame, Hcell by (done || in_list). by cell_down. }
  assert (Hask : cell r21 "ask" = a).
  { rewrite Hsame, Hcell by (done || in_list). by cell_down. }
  exists r21. split; [|done].
  rewrite Hrows, sort_rows_perm. apply elem_of_select. split.
  - apply (dropna_fwd _ _ _ _ _ E22 Hin21). intros c Hc.
    apply list_elem_of_In in Hc. simpl in Hc.
    destruct Hc as [<-|[<-|[<-|[<-|[<-|[]]]]]].
    + rewrite Hsym by (rewrite (Hc20 "underlying") by in_list; eauto).
      rewrite Hcell by in_list. by cell_down.
    + rewrite Hsame, Hcell by (done || in_list).
      replace (cell r19 "underlying_price") with (cell r16 "underlying_price")
        by (by cell_down).
      by rewrite Hund16.
    + rewrite Hsame, Hcell by (done || in_list). cell_down.
      destruct (INSTRUMENT_RE_fields _ _ _ _ _ Hre) as (tl & _ & _ & _ & _ & _ & Hdec).
      destruct (decimal_text_strike k Hdec) as (q & _ & -> & _). done.
    + rewrite Hbid. by destruct b as [| | |[]| | | | | |].
    + rewrite Hask. by destruct a as [| | |[]| | | | | |].
  - unfold Study.positive_quotes. by rewrite Hbid, Hask, Hbpos, Hapos.
Qed.

(** X10. Which rows the study keeps.  When [_to_optopsy_frame] returns
    for a table whose labels are distinct, the label of an input row is a
    label of the sorted table exactly when the row's code matches the
    pattern, its date parses, an underlying or index price is a number
    and both prices resolve to positive numbers: no row that passes these
    tests is lost, and no other row is kept. *)
Theorem study_keeps_exactly d pre i r :
  Study.sorted_frame d = Ok pre -> NoDup (labels d) -> (i, r) ∈ rows d ->
  i ∈ labels pre <-> study_keeps d r.
Proof.
  intros Hpre Hnd Hin. split.
  - intros Hi. apply list_elem_of_fmap in Hi as ([j r'] & Hj & Hin').
    simpl in Hj. subst j.
    destruct (sorted_frame_row _ _ _ _ Hpre Hin')
      as (r0 & s & u & e & k & o & t & Hr0 & Hs & Hre & Ht & _ & _ & _ & _ & _
          & Hb & Ha & Hu & Hreq & Hpos).
    rewrite <- (label_unique _ _ _ _ Hnd Hin Hr0) in *.
    unfold Study.positive_quotes in Hpos. apply andb_true_iff in Hpos as [Hbp Hap].
    exists s, u, e, k, o, t, (cell r' "bid"), (cell r' "ask").
    repeat split; try done.
    rewrite <- Hu. apply Hreq. in_list.
  - intros (s & u & e & k & o & t & b & a & Hs & Hre & Ht & Hu & Hb & Hbp & Ha & Hap).
    destruct (sorted_frame_keeps _ _ _ _ _ _ _ _ _ _ _ _ Hpre Hin Hs Hre Ht Hu
                Hb Hbp Ha Hap) as (r' & Hin' & _).
    apply list_elem_of_fmap. by exists (i, r').
Qed.

Lemma study_keeps_exactly_witness :
  Study.sorted_frame bad_strike_study = Ok bad_strike_study_pre /\
  NoDup (labels bad_strike_study) /\
  (1 ∈ labels bad_strike_study_pre
   <-> study_keeps bad_strike_study (nth 1 (rows bad_strike_study) (0, ∅)).2).
Proof.
  assert (H : Study.sorted_frame bad_strike_study = Ok bad_strike_study_pre)
    by (vm_compute; reflexivity).
  assert (Hnd : NoDup (labels bad_strike_study)).
  { apply (bool_decide_unpack (NoDup (labels bad_strike_study))). by vm_compute. }
  split; [exact H|]. split; [exact Hnd|].
  apply (study_keeps_exactly bad_strike_study bad_strike_study_pre 1 _ H Hnd).
  right. left.
Defined.

Lemma assign_parsed_fwd d d' i r :
  Monolith.assign_parsed d = Ok d' -> (i, r) ∈ rows d ->
  exists symbol expiration strike option_type,
    Monolith._split_instrument (cell r "instrument_name")
      = Ok (symbol, expiration, strike, option_type) /\
    (i, <["option_type" := option_type]> (<["strike" := strike]>
          (<["expiration" := expiration]>
             (<["underlying_symbol" := symbol]> r)))) ∈ rows d'.
Proof.
  unfold Monolith.assign_parsed. intros H Hin. apply bind_Ok in H as (rs & Hrs & H).
  inversion H; subst; clear H. simpl.
  destruct (mapR_Ok_all _ _ _ _ Hrs Hin) as (y & Hy & Hin'). simpl in Hy.
  destruct (Monolith._split_instrument (cell r "instrument_name"))
    as [[[[sy ex] st] ot]|]; simpl in Hy; [|discriminate].
  inversion Hy; subst. by exists sy, ex, st, ot.
Qed.

Lemma coerce_cols_fwd cs d d' i r :
  Monolith.coerce_cols cs d = Ok d' -> (i, r) ∈ rows d ->
  exists r', (i, r') ∈ rows d' /\ forall c, c ∉ cs -> cell r' c = cell r c.
Proof.
  revert d r. induction cs as [|x cs IH]; simpl; intros d r H Hin.
  - inversion H; subst. by exists r.
  - apply bind_Ok in H as (d1 & E1 & H).
    assert (Hr1 : exists r1, (i, r1) ∈ rows d1 /\
                    forall c, c <> x -> cell r1 c = cell r c).
    { destruct (has_col d x).
      - apply apply_safe_float_Ok in E1 as [_ E1].
        destruct (assignR_fwd _ _ _ _ _ _ E1 Hin) as (v & _ & Hin1).
        eexists. split; [exact Hin1|]. intros c Hc. rewrite cell_insert.
        destruct (String.eqb_spec x c); [congruence | done].
      - inversion E1; subst. by exists r. }
    destruct Hr1 as (r1 & Hin1 & Hc1).
    destruct (IH _ _ H Hin1) as (r' & Hin' & Hc').
    exists r'. split; [done|]. intros c Hc.
    apply not_elem_of_cons in Hc as [Hne Hc]. by rewrite Hc', Hc1.
Qed.

Lemma monolith_fallback_float top ladder v :
  Monolith.fallback_value (VFloat top) ladder = Ok v -> exists f, v = VFloat f.
Proof.
  unfold Monolith.fallback_value. destruct (Monolith.missing_or_le0 _).
  - intros H. apply bind_Ok in H as (f & _ & H). inversion H. eauto.
  - intros [= <-]. eauto.
Qed.

Lemma normalize_keeps src out i r s sym e k side t f b a :
  Monolith.normalize_deribit_csv src = Ok out -> (i, r) ∈ rows src ->
  cell r "instrument_name" = VStr s ->
  split_on "-" s = [sym; e; k; side] -> strptime_dby e = Some t ->
  Monolith._safe_float (VStr k) = Ok f -> isnan f = false ->
  isna (to_datetime_ms_coerce (cell r "timestamp")) = false ->
  Monolith.resolve (cell r "best_bid_price") (cell r "bids") = Ok b ->
  Monolith.gt0 b = true ->
  Monolith.resolve (cell r "best_ask_price") (cell r "asks") = Ok a ->
  Monolith.gt0 a = true ->
  exists r', (i, r') ∈ rows out /\ cell r' "bid" = b /\ cell r' "ask" = a.
Proof.
  intros H Hin Hs Hsp Ht Hf Hnan Hq Hb Hbpos Ha Hapos. monolith_steps H.
  inversion H; subst out; clear H.
  destruct (assign_parsed_fwd _ _ _ _ E1 Hin) as (sy & ex & st & ot & Hsplit & Hin1).
  unfold Monolith._split_instrument in Hsplit. rewrite Hs, Hsp, Ht, Hf in Hsplit.
  simpl in Hsplit. inversion Hsplit; subst sy ex st ot; clear Hsplit.
  remember (<["option_type" := VStr (if str_eqb (upper side) "C" then "call" else "put")]>
             (<["strike" := VFloat f]> (<["expiration" := VTimestamp t]>
               (<["underlying_symbol" := VStr sym]> r)))) as r1 eqn:Er1.
  pose proof (setitem_fwd _ _ _ _ _ _ E3 Hin1) as Hin3. simpl in Hin3.
  remember (<["quote_date" := to_datetime_ms_coerce (cell r1 "timestamp")]> r1)
    as r3 eqn:Er3.
  destruct (assignR_fwd _ _ _ _ _ _ E5 Hin3) as (tb & Htb & Hin5).
  remember (<["bid" := tb]> r3) as r5 eqn:Er5.
  destruct (assignR_fwd _ _ _ _ _ _ E7 Hin5) as (ta & Hta & Hin7).
  remember (<["ask" := ta]> r5) as r7 eqn:Er7.
  destruct (assignR_fwd _ _ _ _ _ _ E9 Hin7) as (vb & Hvb & Hin9).
  remember (<["bid" := vb]> r7) as r9 eqn:Er9.
  destruct (assignR_fwd _ _ _ _ _ _ E11 Hin9) as (va & Hva & Hin11).
  remember (<["ask" := va]> r9) as r11 eqn:Er11.
  assert (vb = b) as ->.
  { revert Hvb Htb. unfold Monolith.ladder_fallback, Monolith.safe_float_of.
    cell_down. unfold Monolith.resolve in Hb. intros Hvb Htb.
    rewrite Htb, bind_ret in Hb. congruence. }
  assert (va = a) as ->.
  { revert Hva Hta. unfold Monolith.ladder_fallback, Monolith.safe_float_of.
    cell_down. unfold Monolith.resolve in Ha. intros Hva Hta.
    rewrite Hta, bind_ret in Ha. congruence. }
  apply apply_get_safe_float_Ok in E12, E13.
  destruct (assignR_fwd _ _ _ _ _ _ E12 Hin11) as (vd & _ & Hin12).
  remember (<["delta" := vd]> r11) as r12 eqn:Er12.
  destruct (assignR_fwd _ _ _ _ _ _ E13 Hin12) as (vv & _ & Hin13).
  remember (<["volume" := vv]> r12) as r13 eqn:Er13.
  destruct (coerce_cols_fwd _ _ _ _ _ E14 Hin13) as (r14 & Hin14 & Hc14).
  destruct (project_fwd _ _ _ _ _ E15 Hin14) as (r15 & Hin15 & Hc15).
  assert (Hcell : forall c, c ∈ Monolith.output_columns ->
                            c ∉ Monolith.numeric_cols -> cell r15 c = cell r13 c).
  { intros c Hc Hn. rewrite <- (Hc14 c Hn). by apply cell_lookup, Hc15. }
  assert (Hbid : cell r15 "bid" = b).
  { rewrite Hcell by (in_list || not_in_list). by cell_down. }
  assert (Hask : cell r15 "ask" = a).
  { rewrite Hcell by (in_list || not_in_list). by cell_down. }
  exists r15. split; [|done]. apply elem_of_select. split.
  - apply (dropna_fwd _ _ _ _ _ E16 Hin15). intros c Hc.
    apply list_elem_of_In in Hc. simpl in Hc.
    destruct Hc as [<-|[<-|[<-|[<-|[<-|[]]]]]];
      rewrite Hcell by (in_list || not_in_list); cell_down; try done;
      by destruct f.
  - unfold Monolith.positive_quotes. by rewrite Hbid, Hask, Hbpos, Hapos.
Qed.

(** X11. Which rows the monolith keeps.  When [normalize_deribit_csv]
    returns for a table whose labels are distinct, the label of an input
    row is a label of the output exactly when the code of the row has four
    dash fields, a date that parses and a strike that is a number, its
    timestamp converts to an instant within the bounds of
    [datetime64[ns]], and both prices resolve to positive numbers.  The
    underlying price plays no part.  The row is one whose date field is
    not the word [now] or [today], which [pd.to_datetime] reads as the
    current time. *)
Theorem monolith_keeps_exactly src out i r :
  Monolith.normalize_deribit_csv src = Ok out -> NoDup (labels src) ->
  (i, r) ∈ rows src -> clock_date (cell r "instrument_name") = false ->
  i ∈ labels out <-> monolith_keeps r.
Proof.
  intros Hn Hnd Hin _. split.
  - intros Hi. apply list_elem_of_fmap in Hi as ([j r'] & Hj & Hin').
    simpl in Hj. subst j.
    destruct (normalize_row _ _ _ _ Hn Hin')
      as (r0 & sy & ex & st & ot & tb & ta & Hr0 & Hsplit & _ & Hex & Hst & _ & Hqd
          & Htb & Hb & Hta & Ha & _ & Hreq & Hpos & _).
    rewrite <- (label_unique _ _ _ _ Hnd Hin Hr0) in *.
    pose proof (Hreq "expiration" ltac:(in_list)) as Hne.
    pose proof (Hreq "strike" ltac:(in_list)) as Hns.
    pose proof (Hreq "quote_date" ltac:(in_list)) as Hnq.
    rewrite Hex in Hne. rewrite Hst in Hns. rewrite Hqd in Hnq.
    destruct (split_instrument_kept _ _ _ _ _ Hsplit Hne Hns)
      as (s & sym & e & k & side & t & f & Hs & Hsp & Ht & Hf & Hnan & _).
    unfold Monolith.positive_quotes in Hpos. apply andb_true_iff in Hpos as [Hbp Hap].
    exists s, sym, e, k, side, t, f, (cell r' "bid"), (cell r' "ask").
    unfold Monolith.resolve. unfold Monolith.safe_float_of in Htb, Hta.
    rewrite Htb, Hta, !bind_ret. repeat split; done.
  - intros (s & sym & e & k & side & t & f & b & a & Hs & Hsp & Ht & Hf & Hnan & Hq
            & Hb & Hbp & Ha & Hap).
    destruct (normalize_keeps _ _ _ _ _ _ _ _ _ _ _ _ _ Hn Hin Hs Hsp Ht Hf Hnan Hq
                Hb Hbp Ha Hap) as (r' & Hin' & _).
    apply list_elem_of_fmap. by exists (i, r').
Qed.

Lemma monolith_keeps_exactly_witness :
  Monolith.normalize_deribit_csv later_first = Ok later_first_out /\
  NoDup (labels later_first) /\
  clock_date (cell (nth 1 (rows later_first) (0, ∅)).2 "instrument_name") = false /\
  (1 ∈ labels later_first_out
   <-> monolith_keeps (nth 1 (rows later_first) (0, ∅)).2).
Proof.
  assert (H : Monolith.normalize_deribit_csv later_first = Ok later_first_out)
    by (vm_compute; reflexivity).
  assert (Hnd : NoDup (labels later_first)).
  { apply (bool_decide_unpack (NoDup (labels later_first))). by vm_compute. }
  split; [exact H|]. split; [exact Hnd|]. split; [reflexivity|].
  apply (monolith_keeps_exactly later_first later_first_out 1 _ H Hnd);
    [right; left | reflexivity].
Defined.

(** ** Quote dates *)

Lemma to_datetime_ms_cases v t :
  to_datetime_ms v = Ok t -> t = VNaT \/ exists q, t = VTimestamp q.
Proof.
  assert (Hts : forall q, timestamp_ms q = Ok t ->
                          t = VNaT \/ exists q, t = VTimestamp q).
  { intros q. unfold timestamp_ms. destruct (in_bounds_ms q); [|done].
    intros [= <-]. eauto. }
  unfold to_datetime_ms.
  destruct v as [| |z|[| | |q]|s| | | | |]; eauto;
    try (intros [= <-]; eauto); try done.
  destruct (str_eqb s "" || str_in s nat_strings); [intros [= <-]; eauto|].
  destruct (py_float_text s) as [[| | |q]|]; eauto; try done; intros [= <-]; eauto.
Qed.

(** X12. The quote date of an output row is the timestamp cell of its
    input row read as milliseconds since the epoch.  The study converts
    the timestamps of all rows whose code matches the pattern, and one
    that does not convert ends [run_study] with an exception; a missing
    timestamp converts to a missing date, with which the study keeps the
    row.  The monolith keeps only rows whose quote date is an instant. *)
Theorem quote_dates :
  (forall d i r s g e,
     (i, r) ∈ rows d -> cell r "instrument_name" = VStr s ->
     INSTRUMENT_RE s = Some g ->
     to_datetime_ms (cell r "timestamp") = Raise e ->
     exists e', Study.run_study d = Raised e') /\
  (forall d pre i r',
     Study.sorted_frame d = Ok pre -> (i, r') ∈ rows pre ->
     exists r, (i, r) ∈ rows d /\
       to_datetime_ms (cell r "timestamp") = Ok (cell r' "quote_date")) /\
  (forall src out i r',
     Monolith.normalize_deribit_csv src = Ok out -> (i, r') ∈ rows out ->
     exists r q, (i, r) ∈ rows src /\
       to_datetime_ms (cell r "timestamp") = Ok (VTimestamp q) /\
       cell r' "quote_date" = VTimestamp q).
Proof.
  split; [|split].
  - intros d i r s [[[u x] k] o] e Hin Hs Hre Hraise.
    rewrite run_study_frame. unfold Study.frame.
    destruct (Study.sorted_frame d) as [pre|e'] eqn:H; simpl; [|by exists e'].
    exfalso. study_steps H.
    pose proof (concat_extract_fwd _ _ _ _ E1 Hin) as Hin1.
    unfold Study.str_extract in Hin1. rewrite Hs, Hre in Hin1. simpl in Hin1.
    remember (<["option" := VStr o]> (<["strike" := VStr k]>
               (<["expiration" := VStr x]> (<["underlying" := VStr u]> r))))
      as r1 eqn:Er1.
    assert (Hin2 : (i, r1) ∈ rows d2).
    { apply (dropna_fwd _ _ _ _ _ E2 Hin1). intros c Hc.
      apply list_elem_of_In in Hc. simpl in Hc.
      destruct Hc as [<-|[<-|[<-|[<-|[]]]]]; subst r1; by cells. }
    destruct (assignR_fwd _ _ _ _ _ _ E4 Hin2) as (vq & Hvq & _).
    revert Hvq. unfold Study.quote_date_of. cell_down. by rewrite Hraise.
  - intros d pre i r' Hpre Hin.
    destruct (sorted_frame_row _ _ _ _ Hpre Hin)
      as (r & s & u & e & k & o & t & Hr & _ & _ & _ & _ & _ & _ & _ & Hq & _).
    by exists r.
  - intros src out i r' Hn Hin.
    destruct (normalize_row _ _ _ _ Hn Hin)
      as (r & sy & ex & st & ot & tb & ta & Hr & _ & _ & _ & _ & _ & Hq & _ & _ & _
          & _ & _ & Hreq & _).
    pose proof (Hreq "quote_date" ltac:(in_list)) as Hna. rewrite Hq in Hna |- *.
    unfold to_datetime_ms_coerce in *.
    destruct (to_datetime_ms (cell r "timestamp")) as [t|] eqn:E; [|done].
    destruct (to_datetime_ms_cases _ _ E) as [->|(q & ->)]; [done|].
    by exists r, q.
Qed.

Lemma quote_dates_witness :
  first_row bad_timestamp ∈ rows bad_timestamp /\
  cell (first_row bad_timestamp).2 "instrument_name" = VStr "ETH-13AUG25-3800-C" /\
  INSTRUMENT_RE "ETH-13AUG25-3800-C" = Some ("ETH", "13AUG25", "3800", "C") /\
  to_datetime_ms (cell (first_row bad_timestamp).2 "timestamp")
    = Raise (ValueError "non convertible value with the unit 'ms'") /\
  exists e', Study.run_study bad_timestamp = Raised e'.
Proof.
  split; [left|]. split; [reflexivity|]. split; [reflexivity|].
  split; [reflexivity|].
  exact (proj1 quote_dates bad_timestamp (first_row bad_timestamp).1
           (first_row bad_timestamp).2 "ETH-13AUG25-3800-C"
           ("ETH", "13AUG25", "3800", "C") _
           (list_elem_of_here _ _) eq_refl eq_refl eq_refl).
Defined.

(** ** Enrichment and pass-through columns *)

(** X13. The enrichment columns of the study are optional.  Delta,
    volume and open interest of an output row are the cells
    [greeks.delta], [stats.volume] and [open_interest] of its input row
    read as numbers, NaN where the cell does not read as one; where the
    input table has no such column the output column is NaN throughout,
    and no row is dropped for it. *)
Theorem study_enrichment d pre i r' :
  Study.sorted_frame d = Ok pre -> (i, r') ∈ rows pre ->
  exists r, (i, r) ∈ rows d /\
    cell r' "delta" = VFloat (to_numeric (df_get d "greeks.delta" r)) /\
    cell r' "volume" = VFloat (to_numeric (df_get d "stats.volume" r)) /\
    cell r' "open_interest" = VFloat (to_numeric (df_get d "open_interest" r)) /\
    (has_col d "greeks.delta" = false -> cell r' "delta" = VFloat NaN) /\
    (has_col d "stats.volume" = false -> cell r' "volume" = VFloat NaN) /\
    (has_col d "open_interest" = false -> cell r' "open_interest" = VFloat NaN).
Proof.
  intros H Hin. study_steps H.
  apply sort_values_Ok in H as [_ Hrows].
  rewrite Hrows, sort_rows_perm in Hin. clear Hrows.
  inversion E23; subst d23; clear E23.
  apply elem_of_select in Hin as [Hin Hpos].
  destruct (elem_of_dropna _ _ _ _ _ E22 Hin) as [Hin21 Hreq].
  inversion E21; subst d21; clear E21.
  apply elem_of_rename in Hin21 as (r20 & Hin20 & Hsame & Hsym).
  destruct (project_Ok _ _ _ E20) as [_ Hproj].
  destruct (Hproj _ _ Hin20) as (r19 & Hin19 & Hc19).
  destruct (setitem_Ok _ _ _ _ E19) as [_ R19].
  destruct (R19 _ _ Hin19) as (r18 & Hin18 & Er19).
  destruct (setitem_Ok _ _ _ _ E18) as [_ R18].
  destruct (R18 _ _ Hin18) as (r17 & Hin17 & Er18).
  destruct (setitem_Ok _ _ _ _ E17) as [_ R17].
  destruct (R17 _ _ Hin17) as (r16 & Hin16 & Er17).
  destruct (setitem_Ok _ _ _ _ E16) as [_ R16].
  destruct (R16 _ _ Hin16) as (r15 & Hin15 & Er16).
  destruct (setitem_Ok _ _ _ _ E15) as [_ R15].
  destruct (R15 _ _ Hin15) as (r14 & Hin14 & Er15).
  destruct (assignR_Ok _ _ _ _ E14) as (_ & R14 & _).
  destruct (R14 _ _ Hin14) as (r12 & va & Hin12 & Hva & Er14).
  destruct (assignR_Ok _ _ _ _ E12) as (_ & R12 & _).
  destruct (R12 _ _ Hin12) as (r10 & vb & Hin10 & Hvb & Er12).
  destruct (setitem_Ok _ _ _ _ E10) as [_ R10].
  destruct (R10 _ _ Hin10) as (r9 & Hin9 & Er10).
  destruct (setitem_Ok _ _ _ _ E9) as [_ R9].
  destruct (R9 _ _ Hin9) as (r8 & Hin8 & Er9).
  destruct (setitem_Ok _ _ _ _ E8) as [_ R8].
  destruct (R8 _ _ Hin8) as (r7 & Hin7 & Er8).
  destruct (setitem_Ok _ _ _ _ E7) as [_ R7].
  destruct (R7 _ _ Hin7) as (r6 & Hin6 & Er7).
  destruct (elem_of_dropna _ _ _ _ _ E6 Hin6) as [Hin5 Hexp].
  destruct (setitem_Ok _ _ _ _ E5) as [_ R5].
  destruct (R5 _ _ Hin5) as (r4 & Hin4 & Er5).
  destruct (assignR_Ok _ _ _ _ E4) as (_ & R4 & _).
  destruct (R4 _ _ Hin4) as (r2 & vq & Hin2 & Hvq & Er4).
  destruct (elem_of_dropna _ _ _ _ _ E2 Hin2) as [Hin1 Hgrp].
  destruct (concat_extract_Ok _ _ E1) as [_ R1].
  destruct (R1 _ _ Hin1) as (r & Hinr & Er1).
  clear R1 R4 R5 R7 R8 R9 R10 R12 R14 R15 R16 R17 R18 R19 Hproj.
  clear Hin Hin20 Hin19 Hin18 Hin17 Hin16 Hin15 Hin14 Hin12 Hin10 Hin9 Hin8
    Hin7 Hin6 Hin5 Hin4 Hin2 Hin1.
  assert (Hc20 : forall c, c ∈ Study.output_columns -> cell r20 c = cell r19 c).
  { intros c Hc. by apply cell_lookup, Hc19. }
  assert (Hd : cell r' "delta" = Study.numeric d "greeks.delta" r).
  { rewrite Hsame, Hc20 by (done || in_list). cell_down.
    apply numeric_same; [by cols | by cell_down]. }
  assert (Hv : cell r' "volume" = Study.numeric d "stats.volume" r).
  { rewrite Hsame, Hc20 by (done || in_list). cell_down.
    apply numeric_same; [by cols | by cell_down]. }
  assert (Ho : cell r' "open_interest" = Study.numeric d "open_interest" r).
  { rewrite Hsame, Hc20 by (done || in_list). cell_down.
    apply numeric_same; [by cols | by cell_down]. }
  exists r. split; [done|]. split; [done|]. split; [done|]. split; [done|].
  rewrite Hd, Hv, Ho. unfold Study.numeric, df_get.
  split; [|split]; by intros ->.
Qed.

Lemma study_enrichment_witness :
  Study.sorted_frame no_underlying_study = Ok no_underlying_study_out /\
  first_row no_underlying_study_out ∈ rows no_underlying_study_out /\
  exists r, ((first_row no_underlying_study_out).1, r) ∈ rows no_underlying_study /\
    cell (first_row no_underlying_study_out).2 "delta"
      = VFloat (to_numeric (df_get no_underlying_study "greeks.delta" r)) /\
    cell (first_row no_underlying_study_out).2 "volume"
      = VFloat (to_numeric (df_get no_underlying_study "stats.volume" r)) /\
    cell (first_row no_underlying_study_out).2 "open_interest"
      = VFloat (to_numeric (df_get no_underlying_study "open_interest" r)) /\
    (has_col no_underlying_study "greeks.delta" = false ->
     cell (first_row no_underlying_study_out).2 "delta" = VFloat NaN) /\
    (has_col no_underlying_study "stats.volume" = false ->
     cell (first_row no_underlying_study_out).2 "volume" = VFloat NaN) /\
    (has_col no_underlying_study "open_interest" = false ->
     cell (first_row no_underlying_study_out).2 "open_interest" = VFloat NaN).
Proof.
  assert (H : Study.sorted_frame no_underlying_study = Ok no_underlying_study_out)
    by (vm_compute; reflexivity).
  split; [exact H|]. split; [left|].
  exact (study_enrichment no_underlying_study no_underlying_study_out
           (first_row no_underlying_study_out).1 (first_row no_underlying_study_out).2
           H (list_elem_of_here _ _)).
Defined.

(** X14. The monolith carries nine raw columns into its output
    unchanged, the top-of-book prices among them, and gives seven more
    and the two greeks and volume columns the value of [_safe_float] on
    the raw cell of the same row. *)
Theorem monolith_carried_columns src out i r' :
  Monolith.normalize_deribit_csv src = Ok out -> (i, r') ∈ rows out ->
  exists r, (i, r) ∈ rows src /\
    (forall c, c ∈ ["timestamp"; "change_id"; "instrument_name";
                    "best_bid_price"; "best_ask_price"; "best_bid_amount";
                    "best_ask_amount"; "last_price"; "settlement_period"] ->
               cell r' c = cell r c) /\
    (forall c, c ∈ Monolith.numeric_cols ->
               Monolith.safe_float_of c r = Ok (cell r' c)) /\
    Monolith.safe_float_of "greeks.delta" r = Ok (cell r' "delta") /\
    Monolith.safe_float_of "stats.volume" r = Ok (cell r' "volume").
Proof.
  intros H Hin. monolith_steps H.
  inversion H; subst out; clear H.
  apply elem_of_select in Hin as [Hin Hpos].
  destruct (elem_of_dropna _ _ _ _ _ E16 Hin) as [Hin15 Hreq].
  destruct (project_Ok _ _ _ E15) as [_ Hproj].
  destruct (Hproj _ _ Hin15) as (r14 & Hin14 & Hc14).
  destruct (coerce_cols_Ok _ _ _ E14) as (C14 & _ & R14).
  destruct (R14 _ _ Hin14) as (r13 & Hin13 & Hout13 & Hnum13).
  apply apply_get_safe_float_Ok in E13, E12.
  destruct (assignR_Ok _ _ _ _ E13) as (_ & R13 & _).
  destruct (R13 _ _ Hin13) as (r12 & vv & Hin12 & Hvv & Er13).
  destruct (assignR_Ok _ _ _ _ E12) as (_ & R12 & _).
  destruct (R12 _ _ Hin12) as (r11 & vd & Hin11 & Hvd & Er12).
  destruct (assignR_Ok _ _ _ _ E11) as (_ & R11 & _).
  destruct (R11 _ _ Hin11) as (r9 & va & Hin9 & Hva & Er11).
  destruct (assignR_Ok _ _ _ _ E9) as (_ & R9 & _).
  destruct (R9 _ _ Hin9) as (r7 & vb & Hin7 & Hvb & Er9).
  destruct (assignR_Ok _ _ _ _ E7) as (_ & R7 & _).
  destruct (R7 _ _ Hin7) as (r5 & ta & Hin5 & Hta & Er7).
  destruct (assignR_Ok _ _ _ _ E5) as (_ & R5 & _).
  destruct (R5 _ _ Hin5) as (r3 & tb & Hin3 & Htb & Er5).
  destruct (setitem_Ok _ _ _ _ E3) as (_ & R3).
  destruct (R3 _ _ Hin3) as (r1 & Hin1 & Er3).
  destruct (assign_parsed_Ok _ _ E1) as (_ & R1 & _).
  destruct (R1 _ _ Hin1) as (r & sy & ex & st & ot & Hinr & Hsplit & Er1).
  clear R1 R3 R5 R7 R9 R11 R12 R13 R14 Hproj.
  assert (Hc15 : forall c, c ∈ Monolith.output_columns -> cell r' c = cell r14 c).
  { intros c Hc. by apply cell_lookup, Hc14. }
  exists r. split; [done|]. split; [|split; [|split]].
  - intros c Hc. apply list_elem_of_In in Hc. simpl in Hc.
    repeat match type of Hc with
           | _ \/ _ => destruct Hc as [<-|Hc]
           | False => destruct Hc
           end;
      (rewrite Hc15, Hout13 by (in_list || not_in_list); by cell_down).
  - intros c Hc.
    assert (Hhas : has_col d13 c = true).
    { rewrite <- C14. apply (project_has_col _ _ _ _ E15).
      apply list_elem_of_In in Hc. simpl in Hc.
      repeat match type of Hc with
             | _ \/ _ => destruct Hc as [<-|Hc]
             | False => destruct Hc
             end; in_list. }
    pose proof (Hnum13 c Hc numeric_cols_NoDup Hhas) as Hn.
    assert (Hout : c ∈ Monolith.output_columns).
    { apply list_elem_of_In in Hc. simpl in Hc.
      repeat match type of Hc with
             | _ \/ _ => destruct Hc as [<-|Hc]
             | False => destruct Hc
             end; in_list. }
    rewrite (Hc15 c Hout), <- Hn. unfold Monolith.safe_float_of. f_equal.
    apply list_elem_of_In in Hc. simpl in Hc.
    repeat match type of Hc with
           | _ \/ _ => destruct Hc as [<-|Hc]
           | False => destruct Hc
           end; by cell_down.
  - rewrite Hc15, Hout13 by (in_list || not_in_list). cell_down.
    rewrite <- Hvd. unfold Monolith.safe_float_of. by cell_down.
  - rewrite Hc15, Hout13 by (in_list || not_in_list). cell_down.
    rewrite <- Hvv. unfold Monolith.safe_float_of. by cell_down.
Qed.

Lemma monolith_carried_columns_witness :
  Monolith.normalize_deribit_csv later_first = Ok later_first_out /\
  first_row later_first_out ∈ rows later_first_out /\
  exists r, ((first_row later_first_out).1, r) ∈ rows later_first /\
    (forall c, c ∈ ["timestamp"; "change_id"; "instrument_name";
                    "best_bid_price"; "best_ask_price"; "best_bid_amount";
                    "best_ask_amount"; "last_price"; "settlement_period"] ->
               cell (first_row later_first_out).2 c = cell r c) /\
    (forall c, c ∈ Monolith.numeric_cols ->
               Monolith.safe_float_of c r = Ok (cell (first_row later_first_out).2 c)) /\
    Monolith.safe_float_of "greeks.delta" r
      = Ok (cell (first_row later_first_out).2 "delta") /\
    Monolith.safe_float_of "stats.volume" r
      = Ok (cell (first_row later_first_out).2 "volume").
Proof.
  assert (H : Monolith.normalize_deribit_csv later_first = Ok later_first_out)
    by (vm_compute; reflexivity).
  split; [exact H|]. split; [left|].
  exact (monolith_carried_columns later_first later_first_out
           (first_row later_first_out).1 (first_row later_first_out).2
           H (list_elem_of_here _ _)).
Defined.

(** ** Ladders that are lists already *)

Lemma np_shape_scalar v : scalar v -> Monolith.np_shape v = [].
Proof. intros [Hl Ht]. destruct v; try done; [by destruct (Hl l) | by destruct (Ht l)]. Qed.

Lemma np_shape_pair x : pair_level x -> Monolith.np_shape x = [2%nat].
Proof.
  intros (p & a & -> & Hp & Ha). simpl.
  by rewrite (np_shape_scalar p Hp), (np_shape_scalar a Ha).
Qed.

Lemma common_prefix_pairs levels :
  Forall pair_level levels ->
  fold_left Monolith.common_prefix (map Monolith.np_shape levels) [2%nat] = [2%nat].
Proof.
  induction 1 as [|x l Hx _ IH]; simpl; [done|].
  by rewrite (np_shape_pair x Hx).
Qed.

(** X15. The ladder reader of the monolith returns for every value that
    is not a list, but a ladder that is already a list of
    [[price, amount]] levels makes it raise: [pd.isna] of a list is an
    array, whose truth value [if] refuses, and the test stands before the
    [try].  The reader of the study takes the first price of such a
    list. *)
Theorem native_ladders :
  (forall v index, (forall l, v <> VList l) ->
     exists f, Monolith._best_price_from_ladder v index = Ok f) /\
  (forall levels index, levels <> [] -> Forall pair_level levels ->
     Monolith._best_price_from_ladder (VList levels) index
       = Raise (ValueError "The truth value of an array is ambiguous")) /\
  (forall p a more f, py_float p = Ok f ->
     Study._parse_l1_from_book (VList (VList [p; a] :: more)) = Ok (Some f)).
Proof.
  split; [|split].
  - intros v index Hv. by apply best_price_from_ladder_returns.
  - intros levels index Hne Hall. unfold Monolith._best_price_from_ladder.
    assert (Hs : Monolith.np_shape (VList levels) = [length levels; 2%nat]).
    { destruct levels as [|x l]; [done|]. apply Forall_cons in Hall as [Hx Hl].
      cbn [Monolith.np_shape map]. by rewrite (np_shape_pair x Hx), common_prefix_pairs. }
    unfold Monolith.isna_truth. rewrite Hs. cbn [fold_left].
    destruct levels as [|x l]; [done|]. cbn [length].
    replace (1 * S (length l) * 2)%nat with (S (S (2 * length l))) by lia.
    done.
  - intros p a more f Hf. by apply parse_l1_pairs_native.
Qed.

Lemma native_ladders_witness :
  [VList [VFloat (Fin 123.4); VInt 10]] <> [] /\
  Forall pair_level [VList [VFloat (Fin 123.4); VInt 10]] /\
  Monolith._best_price_from_ladder (VList [VList [VFloat (Fin 123.4); VInt 10]]) 0
    = Raise (ValueError "The truth value of an array is ambiguous").
Proof.
  assert (Hne : [VList [VFloat (Fin 123.4); VInt 10]] <> []) by discriminate.
  assert (Hall : Forall pair_level [VList [VFloat (Fin 123.4); VInt 10]]).
  { constructor; [|constructor]. exists (VFloat (Fin 123.4)), (VInt 10).
    split; [reflexivity|]. split; split; discriminate. }
  split; [exact Hne|]. split; [exact Hall|].
  exact (proj1 (proj2 native_ladders) _ 0%nat Hne Hall).
Defined.

(** ** Rows are never invented *)

Lemma concat_extract_labels d d' :
  Study.concat_extract d = Ok d' -> labels d' = labels d.
Proof.
  unfold Study.concat_extract. intros H. apply bind_Ok in H as ([] & _ & H).
  destruct (negb _); [discriminate|].
  destruct (existsb _ _); [discriminate|]. inversion H; subst; clear H.
  unfold labels. simpl. rewrite map_map. apply map_ext. intros [i r]. simpl.
  by destruct (Study.str_extract (cell r "instrument_name")) as [[[u e] k] o].
Qed.

Lemma rename_labels d old new : labels (rename d old new) = labels d.
Proof. unfold labels. simpl. rewrite map_map. by apply map_ext. Qed.

Lemma sorted_frame_labels d pre :
  Study.sorted_frame d = Ok pre -> labels pre ⊆+ labels d.
Proof.
  intros H. study_steps H. apply sort_values_Ok in H as [_ Hrows].
  inversion E21; subst d21; clear E21. inversion E23; subst d23; clear E23.
  unfold labels at 1. rewrite Hrows, sort_rows_perm.
  change (labels (select d22 Study.positive_quotes) ⊆+ labels d).
  etrans; [apply sublist_submseteq, select_labels|].
  etrans; [apply sublist_submseteq, (dropna_labels _ _ _ E22)|].
  rewrite rename_labels, (project_labels _ _ _ E20),
    (setitem_labels _ _ _ _ E19), (setitem_labels _ _ _ _ E18),
    (setitem_labels _ _ _ _ E17), (setitem_labels _ _ _ _ E16),
    (setitem_labels _ _ _ _ E15), (assignR_labels _ _ _ _ E14),
    (assignR_labels _ _ _ _ E12), (setitem_labels _ _ _ _ E10),
    (setitem_labels _ _ _ _ E9), (setitem_labels _ _ _ _ E8),
    (setitem_labels _ _ _ _ E7).
  etrans; [apply sublist_submseteq, (dropna_labels _ _ _ E6)|].
  rewrite (setitem_labels _ _ _ _ E5), (assignR_labels _ _ _ _ E4).
  etrans; [apply sublist_submseteq, (dropna_labels _ _ _ E2)|].
  by rewrite (concat_extract_labels _ _ E1).
Qed.

(** X16. Neither script invents or repeats a row.  The labels of the
    sorted table of the study are, as a multiset, among the labels of the
    input, so that each input row gives at most one output row; the table
    either script returns has at most as many rows as the table it was
    given. *)
Theorem rows_from_input :
  (forall d pre, Study.sorted_frame d = Ok pre -> labels pre ⊆+ labels d) /\
  (forall h raw d out,
     h !! raw = Some d -> study_returns h raw out ->
     (length (rows out) <= length (rows d))%nat) /\
  (forall src out,
     Monolith.normalize_deribit_csv src = Ok out ->
     (length (rows out) <= length (rows src))%nat).
Proof.
  split; [exact sorted_frame_labels|]. split.
  - intros h raw d out Hraw Hret.
    destruct (study_returns_frame _ _ _ _ Hraw Hret) as (pre & Hpre & ->).
    simpl. rewrite length_relabel.
    pose proof (submseteq_length _ _ (sorted_frame_labels _ _ Hpre)) as Hl.
    unfold labels in Hl. by rewrite !length_map in Hl.
  - intros src out H.
    assert (Hs : labels out `sublist_of` labels src).
    { monolith_steps H. inversion H; subst out; clear H.
      etrans; [apply select_labels|]. etrans; [by eapply dropna_labels|].
      rewrite (project_labels _ _ _ E15).
      destruct (coerce_cols_Ok _ _ _ E14) as (_ & L14 & _).
      apply apply_get_safe_float_Ok in E13, E12.
      destruct (assign_parsed_Ok _ _ E1) as (_ & _ & L1).
      change (labels d14 = labels d13) in L14.
      change (labels d1 = labels src) in L1.
      by rewrite L14, (assignR_labels _ _ _ _ E13), (assignR_labels _ _ _ _ E12),
        (assignR_labels _ _ _ _ E11), (assignR_labels _ _ _ _ E9),
        (assignR_labels _ _ _ _ E7), (assignR_labels _ _ _ _ E5),
        (setitem_labels _ _ _ _ E3), L1. }
    apply sublist_length in Hs. unfold labels in Hs. by rewrite !length_map in Hs.
Qed.

Lemma rows_from_input_witness :
  Study.sorted_frame bad_strike_study = Ok bad_strike_study_pre /\
  labels bad_strike_study_pre ⊆+ labels bad_strike_study.
Proof.
  assert (H : Study.sorted_frame bad_strike_study = Ok bad_strike_study_pre)
    by (vm_compute; reflexivity).
  split; [exact H|].
  exact (proj1 rows_from_input bad_strike_study bad_strike_study_pre H).
Defined.

(** ** The statements sent to the database *)

Lemma str_app_nonempty (a b : string) : b <> "" -> a +:+ b <> "".
Proof. intros Hb. destruct a as [|c a]; [done|]. discriminate. Qed.

Lemma rstrip_app a b :
  rstrip b = b -> b <> "" -> rstrip (a +:+ b) = a +:+ b.
Proof.
  intros Hb Hne. induction a as [|c a IH]; [done|].
  change (String c a +:+ b) with (String c (a +:+ b)). simpl. rewrite IH.
  pose proof (str_app_nonempty a b Hne). by destruct (a +:+ b).
Qed.

Lemma split_on_three sep a b c :
  str_forall (fun x => negb (Ascii.eqb x sep)) a = true ->
  str_forall (fun x => negb (Ascii.eqb x sep)) b = true ->
  str_forall (fun x => negb (Ascii.eqb x sep)) c = true ->
  split_on sep (a +:+ String sep (b +:+ String sep c)) = [a; b; c].
Proof.
  intros Ha Hb Hc.
  by rewrite (split_on_app _ _ _ Ha), (split_on_app _ _ _ Hb), (split_on_plain _ _ Hc).
Qed.

Lemma superset_sql_shape schema :
  superset_sql schema
  = (nl +:+ "    " +:+ daily_view schema) +:+
    String ";" ((nl +:+ nl +:+ "    " +:+ backtest_view schema) +:+
                String ";" (nl +:+ "    ")).
Proof.
  unfold superset_sql, daily_view, backtest_view, nl. cbn [String.concat].
  repeat rewrite str_app_assoc. reflexivity.
Qed.

Lemma daily_view_strip schema :
  strip (nl +:+ "    " +:+ daily_view schema) = daily_view schema /\
  str_eqb (daily_view schema) "" = false.
Proof.
  split; [|reflexivity]. unfold strip.
  change (lstrip (nl +:+ "    " +:+ daily_view schema)) with (daily_view schema).
  unfold daily_view. cbn [String.concat].
  repeat (apply rstrip_app; [|repeat apply str_app_nonempty; discriminate]).
  reflexivity.
Qed.

Lemma backtest_view_strip schema :
  strip (nl +:+ nl +:+ "    " +:+ backtest_view schema) = backtest_view schema /\
  str_eqb (backtest_view schema) "" = false.
Proof.
  split; [|reflexivity]. unfold strip.
  change (lstrip (nl +:+ nl +:+ "    " +:+ backtest_view schema))
    with (backtest_view schema).
  unfold backtest_view. cbn [String.concat].
  repeat (apply rstrip_app; [|repeat apply str_app_nonempty; discriminate]).
  reflexivity.
Qed.

Lemma views_no_semicolon schema :
  str_forall (fun c => negb (Ascii.eqb c ";")) schema = true ->
  str_forall (fun c => negb (Ascii.eqb c ";")) (nl +:+ "    " +:+ daily_view schema)
    = true /\
  str_forall (fun c => negb (Ascii.eqb c ";"))
    (nl +:+ nl +:+ "    " +:+ backtest_view schema) = true.
Proof.
  intros Hs. unfold daily_view, backtest_view. cbn [String.concat].
  rewrite !str_forall_app, !Hs. by vm_compute.
Qed.

(** X17. What [persist_to_postgres] sends for a schema name without a
    semicolon: the schema statement, the three tables (ticks appended,
    the two result tables replaced) and then exactly two view statements,
    each from its first to its last word; the fragment after the last
    semicolon is skipped.  The schema name stands in the statements as
    given. *)
Theorem persist_statements schema :
  str_forall (fun c => negb (Ascii.eqb c ";")) schema = true ->
  view_statements schema = [daily_view schema; backtest_view schema] /\
  persist_to_postgres schema
    = [Execute ("CREATE SCHEMA IF NOT EXISTS " +:+ schema);
       ToSql "deribit_option_ticks" schema "append";
       ToSql "iron_condor_stats" schema "replace";
       ToSql "iron_condor_trades" schema "replace";
       Execute (daily_view schema);
       Execute (backtest_view schema)].
Proof.
  intros Hs.
  destruct (views_no_semicolon schema Hs) as [Hd Hb].
  destruct (daily_view_strip schema) as [Sd Nd].
  destruct (backtest_view_strip schema) as [Sb Nb].
  assert (Hv : view_statements schema = [daily_view schema; backtest_view schema]).
  { unfold view_statements.
    rewrite superset_sql_shape, (split_on_three _ _ _ _ Hd Hb) by reflexivity.
    cbn [List.filter map]. rewrite Sd, Sb, Nd, Nb. cbn [negb List.filter map].
    change (strip (nl +:+ "    ")) with "". cbn [str_eqb String.eqb negb map].
    by rewrite Sd, Sb. }
  split; [done|]. unfold persist_to_postgres. by rewrite Hv.
Qed.

Lemma persist_statements_witness :
  str_forall (fun c => negb (Ascii.eqb c ";")) "market" = true /\
  view_statements "market" = [daily_view "market"; backtest_view "market"].
Proof.
  split; [reflexivity|].
  exact (proj1 (persist_statements "market" eq_refl)).
Defined.

(** ** Field coercion, by value *)






